(** * INMET Data Quality Analyzer: the loader's number repair, the validator
      and the quality metrics, embedded in Rocq.

    Numbers are exact rationals ([Q]) instead of IEEE doubles, dates are day
    ordinals ([Z]), a nullable cell is an [option], a Python dict built by a
    loop over the (unique) column names is an association list in insertion
    order, and a method that reads or writes [self] takes and returns the
    object explicitly. A division by a zero count, NaN in the source, has no
    counterpart in [Q]: it only arises for a table without rows, and the
    statements about percentages are for tables with at least one row. *)

From Stdlib Require Import String Ascii.
From Stdlib Require Import ZArith QArith Qminmax Qabs Qround Bool Arith List Sorted
  Permutation Lia Lqa.
From Stdlib Require Reals Qreals Lra.
Import ListNotations.

(* ================================================================== *)
(** * config.py *)

Module Config.

Local Open Scope string_scope.

Definition DECIMAL_SEPARATOR : string := ",".

(** [PHYSICAL_LIMITS]: variable name -> (min, max). *)
Definition PHYSICAL_LIMITS : list (string * (Q * Q)) :=
  [ ("PRECIPITACAO TOTAL, DIARIO (AUT)(mm)",                    (0%Q, 500%Q))
  ; ("PRESSAO ATMOSFERICA MEDIA DIARIA (AUT)(mB)",              (900%Q, 1050%Q))
  ; ("TEMPERATURA DO PONTO DE ORVALHO MEDIA DIARIA (AUT)(°C)",  ((-50)%Q, 50%Q))
  ; ("TEMPERATURA MAXIMA, DIARIA (AUT)(°C)",                    ((-50)%Q, 60%Q))
  ; ("TEMPERATURA MEDIA, DIARIA (AUT)(°C)",                     ((-50)%Q, 60%Q))
  ; ("TEMPERATURA MINIMA, DIARIA (AUT)(°C)",                    ((-50)%Q, 60%Q))
  ; ("UMIDADE RELATIVA DO AR, MEDIA DIARIA (AUT)(%)",           (0%Q, 100%Q))
  ; ("UMIDADE RELATIVA DO AR, MINIMA DIARIA (AUT)(%)",          (0%Q, 100%Q))
  ; ("VENTO, RAJADA MAXIMA DIARIA (AUT)(m/s)",                  (0%Q, 100%Q))
  ; ("VENTO, VELOCIDADE MEDIA DIARIA (AUT)(m/s)",               (0%Q, 50%Q))
  ].

(** [QUALITY_INDEX_WEIGHTS]: 0.4 / 0.4 / 0.2. *)
Definition W_completude   : Q := (4 # 10)%Q.
Definition W_validade     : Q := (4 # 10)%Q.
Definition W_consistencia : Q := (2 # 10)%Q.

(** [RECOMMENDATION_CRITERIA]. *)
Definition RC_adequado              : Q := 80%Q.
Definition RC_parcialmente_adequado : Q := 60%Q.

(** [METADATA_END_LINE] and [HEADER_LINE]. *)
Definition METADATA_END_LINE : nat := 9.
Definition HEADER_LINE : nat := 10.

End Config.

(* ================================================================== *)
(** * The pandas and numpy operations the modules call *)

Module Pandas.

(** A numeric cell: [None] is the null value (NA / NaN). *)
Definition cell := option Q.

(** A date cell: a day ordinal, [None] is NaT. *)
Definition datecell := option Z.

(** The table the loader hands over: the ['Data'] column and the other
    columns in file order. *)
Record DataFrame := mkDataFrame
  { Data      : list datecell
  ; variables : list (string * list cell) }.

(** [len(df)]: the number of rows. *)
Definition len (df : DataFrame) : nat := length (Data df).

(** Every column of a frame has one cell per row and column names are
    unique. *)
Fixpoint unique_names (l : list string) : bool :=
  match l with
  | [] => true
  | x :: r => negb (existsb (String.eqb x) r) && unique_names r
  end.

Definition well_formed (df : DataFrame) : bool :=
  forallb (fun c => length (snd c) =? len df)%nat (variables df)
  && unique_names (map fst (variables df)).

(** [d.get(k)] / [k in d] on an insertion-ordered dict. *)
Fixpoint lookup {A} (k : string) (d : list (string * A)) : option A :=
  match d with
  | [] => None
  | (k', v) :: r => if String.eqb k k' then Some v else lookup k r
  end.

Definition isna {A} (c : option A) : bool :=
  match c with None => true | Some _ => false end.

Definition notna {A} (c : option A) : bool := negb (isna c).

(** [series.dropna()] (values only). *)
Fixpoint dropna {A} (s : list (option A)) : list A :=
  match s with
  | [] => []
  | Some x :: r => x :: dropna r
  | None :: r => dropna r
  end.

(** Nullable boolean masks: a comparison on a null cell is NA, and [&], [~]
    follow Kleene logic. *)
Definition kbool := option bool.

Definition ge_mask (c : cell) (lim : Q) : kbool :=
  option_map (fun x => Qle_bool lim x) c.

Definition le_mask (c : cell) (lim : Q) : kbool :=
  option_map (fun x => Qle_bool x lim) c.

Definition kand (a b : kbool) : kbool :=
  match a, b with
  | Some false, _ | _, Some false => Some false
  | Some true, Some true => Some true
  | _, _ => None
  end.

Definition knot (a : kbool) : kbool := option_map negb a.

(** The same comparisons on a NumPy float column, where the null value is
    NaN and a comparison with NaN is False. *)
Definition ge_mask_float (c : cell) (lim : Q) : kbool :=
  Some (match c with Some x => Qle_bool lim x | None => false end).

Definition le_mask_float (c : cell) (lim : Q) : kbool :=
  Some (match c with Some x => Qle_bool x lim | None => false end).

(** [mask.sum()]: the number of [True] entries, NA skipped. *)
Definition mask_sum (m : list kbool) : nat :=
  length (filter (fun b => match b with Some true => true | _ => false end) m).

(** [enumerate(xs)] from a starting index. *)
Fixpoint enumerate_from {A} (i : nat) (xs : list A) : list (nat * A) :=
  match xs with
  | [] => []
  | x :: r => (i, x) :: enumerate_from (S i) r
  end.

Definition enumerate {A} (xs : list A) : list (nat * A) := enumerate_from 0 xs.

(** [df[mask].index.tolist()] on the default 0..n-1 index. *)
Definition true_indices (m : list kbool) : list nat :=
  map fst (filter (fun p => match snd p with Some true => true | _ => false end)
                  (enumerate m)).

Definition Qsum (l : list Q) : Q := fold_right Qplus 0 l.

Definition Qlen {A} (l : list A) : Q := inject_Z (Z.of_nat (length l)).

Definition Qnat (n : nat) : Q := inject_Z (Z.of_nat n).

(** [series.mean()]. *)
Definition mean (l : list Q) : Q := Qsum l / Qlen l.

(** The square of [series.std()]: pandas' default is the sample standard
    deviation (ddof = 1), the sum of squared deviations over [n - 1]. *)
Definition sample_variance (l : list Q) : Q :=
  Qsum (map (fun x => (x - mean l) * (x - mean l)) l) / (Qlen l - 1).

(** [np.mean(xs)]: NaN ([None]) on an empty list. *)
Definition np_mean (l : list Q) : option Q :=
  match l with
  | [] => None
  | _ => Some (Qsum l / Qlen l)
  end.

(** [series.diff().dt.days] on dates: the first entry is NaN. *)
Fixpoint diff_from (prev : Z) (l : list Z) : list (option Z) :=
  match l with
  | [] => []
  | d :: r => Some (d - prev)%Z :: diff_from d r
  end.

Definition diff_days (l : list Z) : list (option Z) :=
  match l with
  | [] => []
  | d :: r => None :: diff_from d r
  end.

(** [(floats >= 0)] and [(floats <= 0)]: a comparison with NaN is False. *)
Definition ge0 (x : option Z) : bool :=
  match x with Some v => (0 <=? v)%Z | None => false end.

Definition le0 (x : option Z) : bool :=
  match x with Some v => (v <=? 0)%Z | None => false end.

(** [mask.all()]. *)
Definition all (m : list bool) : bool := forallb (fun b => b) m.

(** [a | b] on nullable masks. *)
Definition kor (a b : kbool) : kbool :=
  match a, b with
  | Some true, _ | _, Some true => Some true
  | Some false, Some false => Some false
  | _, _ => None
  end.

Definition lt_mask (c : cell) (lim : Q) : kbool :=
  option_map (fun x => negb (Qle_bool lim x)) c.

Definition gt_mask (c : cell) (lim : Q) : kbool :=
  option_map (fun x => negb (Qle_bool x lim)) c.

(** The values of a series in ascending order. *)
Fixpoint insert_sorted (x : Q) (l : list Q) : list Q :=
  match l with
  | [] => [x]
  | y :: r => if Qle_bool x y then x :: l else y :: insert_sorted x r
  end.

Definition sort_values (l : list Q) : list Q := fold_right insert_sorted [] l.

(** [series.quantile(q)] with the default linear interpolation: the
    position [(n - 1) * q] in the sorted values, interpolated between its
    two neighbours. (NaN on an empty series is not represented; the callers
    modelled here have at least four values.) *)
Definition quantile (q : Q) (data : list Q) : Q :=
  let sorted := sort_values data in
  let h := (Qlen data - 1) * q in
  let lo := Z.to_nat (Qfloor h) in
  let hi := Nat.min (S lo) (List.length data - 1) in
  let frac := h - inject_Z (Qfloor h) in
  nth lo sorted 0 + (nth hi sorted 0 - nth lo sorted 0) * frac.

(** The square of the population standard deviation (ddof = 0) that
    [scipy.stats.zscore] divides by. *)
Definition pvariance (l : list Q) : Q :=
  Qsum (map (fun x => (x - mean l) * (x - mean l)) l) / Qlen l.

(** [series.dropna()] with the index kept: (row label, value). *)
Definition indexed_dropna {A} (s : list (option A)) : list (nat * A) :=
  flat_map (fun p => match snd p with Some x => [(fst p, x)] | None => [] end)
           (enumerate s).

(** [list[start:stop]]. *)
Definition slice {A} (start stop : nat) (l : list A) : list A :=
  firstn (stop - start) (skipn start l).

End Pandas.

Import Pandas.

(* ================================================================== *)
(** * modules/data_validator.py *)

Module DataValidator.

Record ValidationResult := mkValidationResult
  { valid_count      : nat
  ; invalid_count    : nat
  ; null_count       : nat
  ; total_count      : nat
  ; valid_percentage : Q
  ; invalid_indices  : list nat
  ; min_limit        : Q
  ; max_limit        : Q }.

(** The body of the loop of [validate_physical_limits] for one column. *)
Definition validate_column (total : nat) (s : list cell) (lo hi : Q)
  : ValidationResult :=
  let valid_mask := map (fun c => kand (ge_mask c lo) (le_mask c hi)) s in
  let null_mask  := map (fun c => Some (isna c)) s in
  let invalid_mask :=
    map (fun p => kand (knot (fst p)) (knot (snd p))) (combine valid_mask null_mask) in
  {| valid_count      := mask_sum valid_mask
   ; invalid_count    := mask_sum invalid_mask
   ; null_count       := mask_sum null_mask
   ; total_count      := total
   ; valid_percentage := (Qnat (mask_sum valid_mask) / Qnat total) * 100
   ; invalid_indices  := true_indices invalid_mask
   ; min_limit        := lo
   ; max_limit        := hi |}.

Definition validate_physical_limits (df : DataFrame)
  : list (string * ValidationResult) :=
  flat_map
    (fun c =>
       if String.eqb (fst c) "Data"%string then []
       else match lookup (fst c) Config.PHYSICAL_LIMITS with
            | None => []
            | Some (lo, hi) => [(fst c, validate_column (len df) (snd c) lo hi)]
            end)
    (variables df).

(** One entry of ['consecutive_nulls']: the keys ['start'], ['end'],
    ['length'], ['start_date'], ['end_date']. *)
Record NullRun := mkNullRun
  { run_start  : nat
  ; run_end    : nat
  ; run_length : nat
  ; start_date : datecell
  ; end_date   : datecell }.

Record MissingPattern := mkMissingPattern
  { mp_null_count     : nat
  ; null_percentage   : Q
  ; consecutive_nulls : list NullRun }.

(** [self.df.loc[i, 'Data']]. *)
Definition date_at (dates : list datecell) (i : nat) : datecell :=
  nth i dates None.

(** One iteration of [for idx, is_null in enumerate(null_mask)]; the state
    is [(start_idx, consecutive_nulls)]. *)
Definition scan_step (dates : list datecell)
           (st : option nat * list NullRun) (p : nat * bool)
  : option nat * list NullRun :=
  let (start_idx, runs) := st in
  let (idx, is_null) := p in
  match is_null, start_idx with
  | true, None => (Some idx, runs)
  | false, Some s =>
      (None, runs ++ [ {| run_start  := s
                        ; run_end    := idx - 1
                        ; run_length := idx - s
                        ; start_date := date_at dates s
                        ; end_date   := date_at dates (idx - 1) |} ])
  | _, _ => st
  end.

(** The scan and the closing of a run still open at the end of the
    table ([total] is [len(self.df)]). *)
Definition scan_null_runs (dates : list datecell) (total : nat)
           (null_mask : list bool) : list NullRun :=
  let (start_idx, runs) :=
    fold_left (scan_step dates) (enumerate null_mask) (None, []) in
  match start_idx with
  | Some s =>
      runs ++ [ {| run_start  := s
                 ; run_end    := total - 1
                 ; run_length := total - s
                 ; start_date := date_at dates s
                 ; end_date   := date_at dates (total - 1) |} ]
  | None => runs
  end.

Definition null_count_of (null_mask : list bool) : nat :=
  List.length (filter (fun b => b) null_mask).

(** The body of the loop of [detect_missing_data_patterns] for one column. *)
Definition missing_pattern (dates : list datecell) (total : nat)
           (s : list cell) : MissingPattern :=
  let null_mask := map (@isna Q) s in
  let null_count := null_count_of null_mask in
  if (null_count =? 0)%nat then
    {| mp_null_count := 0; null_percentage := 0; consecutive_nulls := [] |}
  else
    {| mp_null_count     := null_count
     ; null_percentage   := (Qnat null_count / Qnat total) * 100
     ; consecutive_nulls := scan_null_runs dates total null_mask |}.

Definition detect_missing_data_patterns (df : DataFrame)
  : list (string * MissingPattern) :=
  flat_map
    (fun c =>
       if String.eqb (fst c) "Data"%string then []
       else [(fst c, missing_pattern (Data df) (len df) (snd c))])
    (variables df).

(** One entry of ['gaps']. *)
Record Gap := mkGap
  { gap_date : Z
  ; gap_days : Z }.

Record DateSequenceReport := mkDateSequenceReport
  { is_sorted     : bool
  ; total_dates   : nat
  ; date_range    : Z * Z
  ; expected_days : Z
  ; actual_days   : nat
  ; gaps          : list Gap
  ; gap_count     : nat }.

Inductive DateValidation :=
| DateInsufficient (valid : bool) (message : string)
| DateReport (r : DateSequenceReport).

(** [dates.min()] and [dates.max()] of a series whose first value is [d]. *)
Definition dates_min (d : Z) (l : list Z) : Z := fold_left Z.min l d.
Definition dates_max (d : Z) (l : list Z) : Z := fold_left Z.max l d.

(** The loop [for idx, diff in enumerate(date_diffs)]. *)
Definition find_gaps (dates : list Z) (date_diffs : list (option Z)) : list Gap :=
  flat_map
    (fun p =>
       match snd p with
       | Some d =>
           if negb (d =? 1)%Z && negb (d =? 0)%Z
           then [ {| gap_date := nth (fst p) dates 0%Z; gap_days := d |} ]
           else []
       | None => []
       end)
    (enumerate date_diffs).

Definition validate_date_sequence (df : DataFrame) : DateValidation :=
  let dates := dropna (Data df) in
  match dates with
  | [] | [_] => DateInsufficient false "Dados insuficientes"
  | d0 :: _ =>
      let is_sorted :=
        all (map ge0 (diff_days dates)) || all (map le0 (diff_days dates)) in
      let date_diffs := diff_days dates in
      let gaps := find_gaps dates date_diffs in
      DateReport
        {| is_sorted     := is_sorted
         ; total_dates   := List.length dates
         ; date_range    := (dates_min d0 dates, dates_max d0 dates)
         ; expected_days := (dates_max d0 dates - dates_min d0 dates + 1)%Z
         ; actual_days   := List.length dates
         ; gaps          := gaps
         ; gap_count     := List.length gaps |}
  end.

(** What a call of a detector ends in: a value, an exception, or nothing
    this development speaks about.  The detectors accept the date column
    ['Data'] too and then work on datetimes; that arithmetic is not
    modelled, and [NotModelled] marks such a call instead of inventing a
    result for it. *)
Inductive Exception :=
| KeyError
| ZeroDivisionError
| ValueError.

Inductive Outcome (A : Type) :=
| Returns (a : A)
| Raises (e : Exception)
| NotModelled.

Arguments Returns {A} a.
Arguments Raises {A} e.
Arguments NotModelled {A}.

Definition bind {A B} (o : Outcome A) (f : A -> Outcome B) : Outcome B :=
  match o with
  | Returns a => f a
  | Raises e => Raises e
  | NotModelled => NotModelled
  end.

(** [self.df[column]]: a numeric variable column, the date column, or
    [None] for the KeyError of a name that is no column. *)
Inductive Series :=
| Numeric (s : list cell)
| Datetime (s : list datecell).

Definition getitem (df : DataFrame) (column : string) : option Series :=
  if String.eqb column "Data"%string then Some (Datetime (Data df))
  else option_map Numeric (lookup column (variables df)).

(** A detector whose body works on [self.df[column]]. *)
Definition on_column {A} (df : DataFrame) (column : string)
           (body : list cell -> Outcome A) : Outcome A :=
  match getitem df column with
  | Some (Numeric s) => body s
  | Some (Datetime _) => NotModelled
  | None => Raises KeyError
  end.

(** The statistics dict of [detect_outliers_iqr]. *)
Record IQRStats := mkIQRStats
  { Q1                     : Q
  ; Q3                     : Q
  ; IQR                    : Q
  ; lower_bound            : Q
  ; upper_bound            : Q
  ; iqr_outlier_count      : nat
  ; iqr_outlier_percentage : Q }.

(** The body of [detect_outliers_iqr] on the column [s] of a table of
    [total] rows; the empty dict is [None]. *)
Definition outliers_iqr (total : nat) (s : list cell) (multiplier : Q)
  : list nat * option IQRStats :=
  let data := dropna s in
  if (List.length data <? 4)%nat then ([], None)
  else
    let q1 := quantile (25 # 100) data in
    let q3 := quantile (75 # 100) data in
    let iqr := q3 - q1 in
    let lower := q1 - multiplier * iqr in
    let upper := q3 + multiplier * iqr in
    let outlier_mask := map (fun c => kor (lt_mask c lower) (gt_mask c upper)) s in
    let notna_mask := map (fun c : cell => Some (notna c)) s in
    let outlier_indices :=
      true_indices (map (fun p => kand (fst p) (snd p))
                        (combine outlier_mask notna_mask)) in
    (outlier_indices,
     Some {| Q1 := q1
           ; Q3 := q3
           ; IQR := iqr
           ; lower_bound := lower
           ; upper_bound := upper
           ; iqr_outlier_count := List.length outlier_indices
           ; iqr_outlier_percentage :=
               (Qnat (List.length outlier_indices) / Qnat total) * 100 |}).

Definition detect_outliers_iqr (df : DataFrame) (column : string) (multiplier : Q)
  : Outcome (list nat * option IQRStats) :=
  on_column df column (fun s => Returns (outliers_iqr (len df) s multiplier)).

(** The statistics dict of [detect_outliers_zscore]; ['std'] is kept as its
    square, the sample variance. *)
Record ZScoreStats := mkZScoreStats
  { z_threshold          : Q
  ; z_mean               : Q
  ; z_std_squared        : Q
  ; z_outlier_count      : nat
  ; z_outlier_percentage : Q }.

(** How the double arithmetic of a comparison can differ from the exact
    one: a quantity within the relative [tolerance] of the limit it is
    compared with may come out on either side, and [rounds_up] says on
    which (2.1 / 0.7 is 3.0000000000000004 in doubles and exceeds 3, 3 / 1
    does not).  Outside that band the outcome is the exact one. *)
Record Rounding := mkRounding
  { tolerance : Q
  ; rounds_up : Q -> bool }.

(** [np.abs((x - m) / std) > threshold] with [std] the square root of
    [var], decided on the squares, without the root.  With [std = 0] the
    quotient is NaN for [x = m] (never above the threshold) and infinite
    otherwise. *)
Definition abs_zscore_exceeds (fl : Rounding) (m var threshold x : Q) : bool :=
  if Qeq_bool var 0 then negb (Qeq_bool x m)
  else if Qle_bool 0 threshold
       then
         let d2 := (x - m) * (x - m) in
         let limit := threshold * threshold * var in
         if Qle_bool ((1 - tolerance fl) * limit) d2
            && Qle_bool d2 ((1 + tolerance fl) * limit)
         then rounds_up fl x
         else negb (Qle_bool d2 limit)
       else true.

(** The body of [detect_outliers_zscore]. *)
Definition outliers_zscore (fl : Rounding) (total : nat) (s : list cell)
           (threshold : Q) : list nat * option ZScoreStats :=
  let data := dropna s in
  if (List.length data <? 2)%nat then ([], None)
  else
    let flagged :=
      filter (fun p => abs_zscore_exceeds fl (mean data) (pvariance data)
                                          threshold (snd p))
             (indexed_dropna s) in
    let outlier_indices := map fst flagged in
    (outlier_indices,
     Some {| z_threshold := threshold
           ; z_mean := mean data
           ; z_std_squared := sample_variance data
           ; z_outlier_count := List.length outlier_indices
           ; z_outlier_percentage :=
               (Qnat (List.length outlier_indices) / Qnat total) * 100 |}).

Definition detect_outliers_zscore (fl : Rounding) (df : DataFrame)
           (column : string) (threshold : Q)
  : Outcome (list nat * option ZScoreStats) :=
  on_column df column
            (fun s => Returns (outliers_zscore fl (len df) s threshold)).

(** The window of [data.rolling(window=w, center=True)] at position [i]:
    the [w] values ending [(w - 1) // 2] places after [i]; [None] when the
    window runs over an end of the series (fewer than [w] observations give
    NaN). *)
Definition rolling_window (w : nat) (data : list Q) (i : nat) : option (list Q) :=
  let offset := ((w - 1) / 2)%nat in
  let stop := (i + 1 + offset)%nat in
  if ((w <=? stop) && (stop <=? List.length data))%nat
  then Some (slice (stop - w) stop data)
  else None.

(** [np.abs(x - rolling_mean) > 2 * rolling_std] at position [i], on the
    squares; NaN on either side compares False, and the standard deviation of
    a single observation is NaN. *)
Definition change_flag (w : nat) (data : list Q) (i : nat) (x : Q) : bool :=
  match rolling_window w data i with
  | Some win =>
      if (w <? 2)%nat then false
      else negb (Qle_bool ((x - mean win) * (x - mean win))
                          (2 * 2 * sample_variance win))
  | None => false
  end.

Inductive ChangePoints :=
| ChangeInsufficient (change_points : list nat) (message : string)
| ChangeReport (change_points : list nat) (change_count : nat)
               (change_percentage : Q).

(** The body of [detect_change_points].  [rolling] refuses a negative
    window (ValueError), and the percentage divides two Python ints, which
    raises on a table without rows. *)
Definition change_points_of (total : nat) (s : list cell) (window_size : Z)
  : Outcome ChangePoints :=
  let data := dropna s in
  if (Z.of_nat (List.length data) <? window_size * 2)%Z then
    Returns (ChangeInsufficient [] "Dados insuficientes")
  else if (window_size <? 0)%Z then Raises ValueError
  else
    let w := Z.to_nat window_size in
    let flagged :=
      filter (fun p => change_flag w data (fst p) (snd (snd p)))
             (enumerate (indexed_dropna s)) in
    let change_points := map (fun p => fst (snd p)) flagged in
    if (total =? 0)%nat then Raises ZeroDivisionError
    else
      Returns (ChangeReport change_points (List.length change_points)
                            ((Qnat (List.length change_points) / Qnat total) * 100)).

Definition detect_change_points (df : DataFrame) (column : string)
           (window_size : Z) : Outcome ChangePoints :=
  on_column df column (fun s => change_points_of (len df) s window_size).

(** The validator object: [self.df] and the cache
    [self.validation_results]. *)
Record Validator := mkValidator
  { v_df                 : DataFrame
  ; v_validation_results : list (string * ValidationResult) }.

(** [__init__]. *)
Definition new_validator (d : DataFrame) : Validator := mkValidator d [].

(** [validate_physical_limits] as a method: it also stores its result. *)
Definition run_validate_physical_limits (self : Validator)
  : list (string * ValidationResult) * Validator :=
  let results := validate_physical_limits (v_df self) in
  (results, mkValidator (v_df self) results).

Record Anomalies := mkAnomalies
  { a_column          : string
  ; a_physical_limits : option ValidationResult
  ; a_outliers_iqr    : list nat * option IQRStats
  ; a_outliers_zscore : list nat * option ZScoreStats
  ; a_change_points   : ChangePoints }.

(** [get_anomalies_for_variable], with the default multiplier 1.5,
    threshold 3.0 and window 30 of the detectors it calls; the validator
    is returned as the call leaves it, also when a detector raises. *)
Definition get_anomalies_for_variable (fl : Rounding) (self : Validator)
           (column : string) : Outcome Anomalies * Validator :=
  let (physical_limits, self1) :=
    match lookup column (v_validation_results self) with
    | Some r => (Some r, self)
    | None =>
        if String.eqb column "Data"%string then (None, self)
        else let (results, self') := run_validate_physical_limits self in
             (lookup column results, self')
    end in
  (bind (detect_outliers_iqr (v_df self1) column (15 # 10)) (fun iqr =>
   bind (detect_outliers_zscore fl (v_df self1) column 3) (fun zs =>
   bind (detect_change_points (v_df self1) column 30) (fun cp =>
   Returns (mkAnomalies column physical_limits iqr zs cp)))),
   self1).

End DataValidator.

(* ================================================================== *)
(** * modules/data_loader.py *)

Module DataLoader.

Local Open Scope string_scope.

(** What a cell of a non-numeric column holds after [read_csv]: a string,
    or the missing marker. *)
Inductive value :=
| Str (s : string)
| NA.

(** [fix_malformed_numbers]: only a [str] is touched. *)
Definition fix_malformed_numbers (v : value) : value :=
  match v with
  | Str s => if String.prefix "," s then Str ("0" ++ s) else Str s
  | NA => NA
  end.

Definition digit_of (c : ascii) : option Z :=
  let n := nat_of_ascii c in
  if (48 <=? n)%nat && (n <=? 57)%nat then Some (Z.of_nat (n - 48)) else None.

(** Reads a run of digits: the accumulated number, how many digits were
    read, and the rest of the string. *)
Fixpoint read_digits (s : string) (acc : Z) (n : nat) : Z * nat * string :=
  match s with
  | String c r =>
      match digit_of c with
      | Some d => read_digits r (acc * 10 + d)%Z (S n)
      | None => (acc, n, s)
      end
  | EmptyString => (acc, n, s)
  end.

(** The conversion [pd.to_numeric] applies to one string with
    [errors='coerce'], on plain decimal literals: an optional sign, digits,
    an optional ['.'] followed by digits, at least one digit overall, and
    nothing after. The decimal mark is ['.'] whatever [DECIMAL_SEPARATOR]
    says; a string that is not such a literal is coerced to null.
    (Exponents and the special floats are outside this model.) *)
Definition parse_unsigned (s : string) : option Q :=
  let '(ip, n1, rest) := read_digits s 0%Z 0%nat in
  match rest with
  | EmptyString => if (n1 =? 0)%nat then None else Some (inject_Z ip)
  | String "." r =>
      let '(fp, n2, rest2) := read_digits r ip 0%nat in
      match rest2 with
      | EmptyString =>
          if (n1 + n2 =? 0)%nat then None
          else Some (inject_Z fp / inject_Z (10 ^ Z.of_nat n2))%Q
      | _ => None
      end
  | _ => None
  end.

Definition parse_number (s : string) : option Q :=
  match s with
  | String "-" r => option_map Qopp (parse_unsigned r)
  | String "+" r => parse_unsigned r
  | _ => parse_unsigned s
  end.

Definition to_numeric (v : value) : cell :=
  match v with
  | Str s => parse_number s
  | NA => None
  end.

(** The two statements of [load_data] applied to a cell of a column that
    [read_csv] left non-numeric: [apply(self.fix_malformed_numbers)] and
    then [pd.to_numeric(..., errors='coerce')]. *)
Definition repair_and_convert (v : value) : cell :=
  to_numeric (fix_malformed_numbers v).

Definition repair_column (s : list value) : list cell :=
  map repair_and_convert s.

(** The text of the file for [extract_metadata] and [find_header_line]:
    a character is a Unicode code point, the file is the list of its lines
    as [readline] and the iteration over the file return them (decoding
    errors, which the source catches, are outside this model). *)
Definition text := list N.

Definition text_of_string (s : string) : text :=
  map N_of_ascii (list_ascii_of_string s).

(** [c.isspace()], the characters [str.strip()] removes. *)
Definition isspace (c : N) : bool :=
  ((9 <=? c) && (c <=? 13) || (28 <=? c) && (c <=? 32)
   || (c =? 133) || (c =? 160) || (c =? 5760)
   || (8192 <=? c) && (c <=? 8202)
   || (c =? 8232) || (c =? 8233) || (c =? 8239) || (c =? 8287)
   || (c =? 12288))%N.

Fixpoint lstrip (s : text) : text :=
  match s with
  | c :: r => if isspace c then lstrip r else s
  | [] => []
  end.

Definition rstrip (s : text) : text := rev (lstrip (rev s)).

Definition strip (s : text) : text := rstrip (lstrip s).

Definition colon : N := 58.

(** [':' in line]. *)
Definition has_colon (s : text) : bool := existsb (N.eqb colon) s.

(** [line.split(':', 1)] on a line that has a colon: the text before the
    first colon and the text after it. *)
Fixpoint split_first_colon (s : text) : text * text :=
  match s with
  | c :: r =>
      if N.eqb c colon then ([], r)
      else let (k, v) := split_first_colon r in (c :: k, v)
  | [] => ([], [])
  end.

Fixpoint text_eqb (a b : text) : bool :=
  match a, b with
  | [], [] => true
  | x :: r, y :: t => N.eqb x y && text_eqb r t
  | _, _ => false
  end.

(** [metadata[key] = value] on an insertion-ordered dict. *)
Fixpoint dict_set (key value : text) (d : list (text * text)) : list (text * text) :=
  match d with
  | [] => [(key, value)]
  | (k, v) :: r =>
      if text_eqb key k then (key, value) :: r else (k, v) :: dict_set key value r
  end.

Fixpoint dict_get (key : text) (d : list (text * text)) : option text :=
  match d with
  | [] => None
  | (k, v) :: r => if text_eqb key k then Some v else dict_get key r
  end.

(** One iteration of the loop of [extract_metadata], on the line
    [readline] returned. *)
Definition metadata_step (metadata : list (text * text)) (raw : text)
  : list (text * text) :=
  let line := strip raw in
  if has_colon line then
    let (key, value) := split_first_colon line in
    dict_set (strip key) (strip value) metadata
  else metadata.

(** [f.readline()] for the i-th time: the empty text at the end of the
    file. *)
Definition readline (lines : list text) (i : nat) : text := nth i lines [].

Definition extract_metadata (lines : list text) : list (text * text) :=
  fold_left metadata_step
            (map (readline lines) (seq 0 Config.METADATA_END_LINE)) [].

(** [pattern in line]. *)
Fixpoint startswith (pattern s : text) : bool :=
  match pattern, s with
  | [], _ => true
  | p :: pr, c :: r => N.eqb p c && startswith pr r
  | _ :: _, [] => false
  end.

Fixpoint contains (pattern s : text) : bool :=
  startswith pattern s
  || match s with
     | [] => false
     | _ :: r => contains pattern r
     end.

Definition header_marker : text := text_of_string "Data Medicao".

(** The loop of [find_header_line] from line number [i] on. *)
Fixpoint find_marker_from (i : nat) (lines : list text) : option nat :=
  match lines with
  | [] => None
  | line :: r =>
      if contains header_marker line || contains header_marker line then Some i
      else find_marker_from (S i) r
  end.

Definition find_header_line (lines : list text) : nat :=
  match find_marker_from 0 lines with
  | Some i => i
  | None => Config.HEADER_LINE
  end.

End DataLoader.

(* ================================================================== *)
(** * modules/quality_metrics.py *)

Module QualityMetrics.

Import DataValidator.

(** One entry of the dict [calculate_quality_index] returns. *)
Record QualityIndex := mkQualityIndex
  { quality_index      : Q
  ; completeness_score : Q
  ; validity_score     : Q
  ; consistency_score  : Q }.

(** The object: [self.df], [self.validation_results], [self.metrics]. *)
Record QualityMetricsCalculator := mkCalculator
  { df                 : DataFrame
  ; validation_results : list (string * ValidationResult)
  ; metrics            : list (string * QualityIndex) }.

(** [__init__]. *)
Definition init (d : DataFrame) (vr : list (string * ValidationResult))
  : QualityMetricsCalculator :=
  {| df := d; validation_results := vr; metrics := [] |}.

(** [[col for col in self.df.columns if col != 'Data']]. *)
Definition variable_names (d : DataFrame) : list string :=
  filter (fun c => negb (String.eqb c "Data"%string)) (map fst (variables d)).

(** [if column: columns = [column] else: columns = [...]]; the empty string
    is falsy as [None] is. *)
Definition columns_for (d : DataFrame) (column : option string) : list string :=
  match column with
  | Some c => if String.eqb c ""%string then variable_names d else [c]
  | None => variable_names d
  end.

(** A loop [for col in columns: out[col] = f(self.df[col])]; [None] is the
    KeyError of [self.df[col]] on a name that is not a variable column. *)
Fixpoint for_columns {B} (d : DataFrame) (f : list cell -> B)
         (columns : list string) : option (list (string * B)) :=
  match columns with
  | [] => Some []
  | col :: r =>
      match lookup col (variables d), for_columns d f r with
      | Some s, Some out => Some ((col, f s) :: out)
      | _, _ => None
      end
  end.

Record Completeness := mkCompleteness
  { non_null_count          : nat
  ; c_null_count            : nat
  ; c_total_count           : nat
  ; completeness_percentage : Q }.

(** The body of the loop of [calculate_completeness]. For a table without
    rows the source divides 0 by 0 and gets NaN, which [Q] does not have:
    the statements about percentages are for tables with a row. *)
Definition completeness_of (total : nat) (s : list cell) : Completeness :=
  let non_null := List.length (filter (@notna Q) s) in
  {| non_null_count          := non_null
   ; c_null_count            := total - non_null
   ; c_total_count           := total
   ; completeness_percentage := (Qnat non_null / Qnat total) * 100 |}.

Definition calculate_completeness (self : QualityMetricsCalculator)
           (column : option string) : option (list (string * Completeness)) :=
  for_columns (df self) (completeness_of (len (df self)))
              (columns_for (df self) column).

Record Validity := mkValidity
  { v_valid_count       : nat
  ; v_invalid_count     : nat
  ; v_null_count        : nat
  ; v_total_count       : nat
  ; validity_percentage : Q
  ; v_min_limit         : Q
  ; v_max_limit         : Q }.

Definition validity_of (result : ValidationResult) : Validity :=
  let total_non_null := (valid_count result + invalid_count result)%nat in
  let validity_pct :=
    if (0 <? total_non_null)%nat
    then (Qnat (valid_count result) / Qnat total_non_null) * 100
    else 0 in
  {| v_valid_count       := valid_count result
   ; v_invalid_count     := invalid_count result
   ; v_null_count        := null_count result
   ; v_total_count       := total_count result
   ; validity_percentage := validity_pct
   ; v_min_limit         := min_limit result
   ; v_max_limit         := max_limit result |}.

(** [calculate_validity]: columns without a validation result get no
    entry. *)
Definition calculate_validity (self : QualityMetricsCalculator)
           (column : option string) : list (string * Validity) :=
  flat_map
    (fun col =>
       match lookup col (validation_results self) with
       | Some result => [(col, validity_of result)]
       | None => []
       end)
    (columns_for (df self) column).

(** ['mean'] and ['std'] are kept as the mean and the square of the
    standard deviation; both and ['anomaly_percentage'] exist only on the
    computed branch, ['message'] only on the other. *)
Record Consistency := mkConsistency
  { consistency_percentage : Q
  ; anomaly_count          : nat
  ; message                : option string
  ; anomaly_percentage     : option Q
  ; moments                : option (Q * Q) }.

(** [np.abs((x - mean) / std) > 3] for [std > 0], decided on the squares:
    [(x - mean)^2 > 3^2 * std^2]. *)
Definition zscore_exceeds (m var x : Q) : bool :=
  negb (Qle_bool ((x - m) * (x - m)) (3 * 3 * var)).

(** The body of the loop of [calculate_consistency]. *)
Definition consistency_of (s : list cell) : Consistency :=
  let data := dropna s in
  if (List.length data <? 2)%nat then
    {| consistency_percentage := 0
     ; anomaly_count          := 0
     ; message                := Some "Dados insuficientes"%string
     ; anomaly_percentage     := None
     ; moments                := None |}
  else
    let m := Pandas.mean data in
    let var := sample_variance data in
    let anomalies :=
      if Qeq_bool var 0 then 0%nat
      else List.length (filter (zscore_exceeds m var) data) in
    {| consistency_percentage := ((Qlen data - Qnat anomalies) / Qlen data) * 100
     ; anomaly_count          := anomalies
     ; message                := None
     ; anomaly_percentage     := Some ((Qnat anomalies / Qlen data) * 100)
     ; moments                := Some (m, var) |}.

Definition calculate_consistency (self : QualityMetricsCalculator)
           (column : option string) : option (list (string * Consistency)) :=
  for_columns (df self) consistency_of (columns_for (df self) column).

(** The body of the loop of [calculate_quality_index]. *)
Definition quality_entry (comp_pct valid_pct cons_pct : Q) : QualityIndex :=
  let comp_score  := Qmin comp_pct 100 in
  let valid_score := Qmin valid_pct 100 in
  let cons_score  := Qmin cons_pct 100 in
  {| quality_index :=
       comp_score * Config.W_completude
       + valid_score * Config.W_validade
       + cons_score * Config.W_consistencia
   ; completeness_score := comp_score
   ; validity_score     := valid_score
   ; consistency_score  := cons_score |}.

(** [d.get(col, {}).get(key, 0)]. *)
Definition get_pct {A} (d : list (string * A)) (col : string) (key : A -> Q) : Q :=
  match lookup col d with
  | Some e => key e
  | None => 0
  end.

Definition calculate_quality_index (self : QualityMetricsCalculator)
           (column : option string)
  : option (list (string * QualityIndex) * QualityMetricsCalculator) :=
  match calculate_completeness self column, calculate_consistency self column with
  | Some completeness, Some consistency =>
      let validity := calculate_validity self column in
      let quality_indices :=
        map (fun e =>
               (fst e,
                quality_entry
                  (completeness_percentage (snd e))
                  (get_pct validity (fst e) validity_percentage)
                  (get_pct consistency (fst e) consistency_percentage)))
            completeness in
      Some (quality_indices,
            {| df := df self
             ; validation_results := validation_results self
             ; metrics := quality_indices |})
  | _, _ => None
  end.

Definition get_recommendation (quality_index : Q) : string * string :=
  (if Qle_bool Config.RC_adequado quality_index then
     ("Adequado", "Dados de qualidade adequada para uso científico")
   else if Qle_bool Config.RC_parcialmente_adequado quality_index then
     ("Parcialmente Adequado",
      "Dados com qualidade moderada, recomenda-se revisão antes do uso")
   else
     ("Inadequado", "Dados com qualidade insuficiente para uso científico"))%string.

Record Overall := mkOverall
  { overall_quality_index : Q
  ; recommendation        : string
  ; description           : string
  ; variable_count        : nat
  ; average_completeness  : option Q
  ; average_validity      : option Q
  ; average_consistency   : option Q }.

(** The part of [get_overall_quality_index] after [self.metrics] is
    filled. *)
Definition overall_of (m : list (string * QualityIndex)) : Overall :=
  let quality_indices := map (fun e => quality_index (snd e)) m in
  let overall_index :=
    match np_mean quality_indices with
    | None => 0
    | Some v => v
    end in
  let r := get_recommendation overall_index in
  {| overall_quality_index := overall_index
   ; recommendation        := fst r
   ; description           := snd r
   ; variable_count        := List.length m
   ; average_completeness  := np_mean (map (fun e => completeness_score (snd e)) m)
   ; average_validity      := np_mean (map (fun e => validity_score (snd e)) m)
   ; average_consistency   := np_mean (map (fun e => consistency_score (snd e)) m) |}.

Definition get_overall_quality_index (self : QualityMetricsCalculator)
  : option (Overall * QualityMetricsCalculator) :=
  match metrics self with
  | [] =>
      match calculate_quality_index self None with
      | Some (_, self') => Some (overall_of (metrics self'), self')
      | None => None
      end
  | _ :: _ => Some (overall_of (metrics self), self)
  end.

Record QualitySummary := mkQualitySummary
  { qs_overall      : Overall
  ; qs_completeness : list (string * Completeness)
  ; qs_validity     : list (string * Validity)
  ; qs_consistency  : list (string * Consistency) }.

Definition get_quality_summary (self : QualityMetricsCalculator)
  : option (QualitySummary * QualityMetricsCalculator) :=
  match calculate_completeness self None, calculate_consistency self None with
  | Some completeness, Some consistency =>
      let validity := calculate_validity self None in
      match get_overall_quality_index self with
      | Some (overall, self') =>
          Some ({| qs_overall      := overall
                 ; qs_completeness := completeness
                 ; qs_validity     := validity
                 ; qs_consistency  := consistency |}, self')
      | None => None
      end
  | _, _ => None
  end.

End QualityMetrics.

(* ================================================================== *)
(** * app.py *)

Module App.

(** [validation_results = validator.validate_physical_limits()] and
    [metrics_calc = QualityMetricsCalculator(df, validation_results)]. *)
Definition metrics_calc (d : DataFrame) : QualityMetrics.QualityMetricsCalculator :=
  QualityMetrics.init d (DataValidator.validate_physical_limits d).

(** The colour and the css class [display_quality_overview] picks for the
    overall index. *)
Definition quality_color (quality_index : Q) : string * string :=
  (if Qle_bool Config.RC_adequado quality_index then ("green", "quality-good")
   else if Qle_bool Config.RC_parcialmente_adequado quality_index
        then ("orange", "quality-warning")
        else ("red", "quality-error"))%string.

End App.

(* ================================================================== *)
(** * Specification-side readings used in the statements *)

Module Reading.

Import DataValidator QualityMetrics.

(** A non-null value inside the inclusive range. *)
Definition in_range (lo hi : Q) (c : cell) : bool :=
  match c with
  | Some x => Qle_bool lo x && Qle_bool x hi
  | None => false
  end.

(** A non-null value outside the inclusive range. *)
Definition out_of_range (lo hi : Q) (c : cell) : bool :=
  match c with
  | Some x => negb (Qle_bool lo x && Qle_bool x hi)
  | None => false
  end.

Definition count {A} (p : A -> bool) (l : list A) : nat :=
  List.length (filter p l).

(** A percentage clamped to [0, 100]. *)
Definition clamp (x : Q) : Q := Qmax 0 (Qmin x 100).

(** The three pairs [get_recommendation] can return. *)
Definition rec_adequado : string * string :=
  ("Adequado", "Dados de qualidade adequada para uso científico")%string.
Definition rec_parcialmente_adequado : string * string :=
  ("Parcialmente Adequado",
   "Dados com qualidade moderada, recomenda-se revisão antes do uso")%string.
Definition rec_inadequado : string * string :=
  ("Inadequado", "Dados com qualidade insuficiente para uso científico")%string.

(** The three tiers, and the tier each label of the source names. *)
Inductive Band := Adequate | PartiallyAdequate | Inadequate.

Definition band_of_label (label : string) : option Band :=
  if String.eqb label "Adequado" then Some Adequate
  else if String.eqb label "Parcialmente Adequado" then Some PartiallyAdequate
  else if String.eqb label "Inadequado" then Some Inadequate
  else None.

(** The non-null dates never go down / never go up. *)
Fixpoint non_decreasing (l : list Z) : bool :=
  match l with
  | a :: (b :: _) as r => (a <=? b)%Z && non_decreasing r
  | _ => true
  end.

Fixpoint non_increasing (l : list Z) : bool :=
  match l with
  | a :: (b :: _) as r => (b <=? a)%Z && non_increasing r
  | _ => true
  end.

(** What a reported run says about the null mask [m]: it lies inside the
    table, its length is the number of rows it spans, every row in it is
    null, the rows just before and just after it (when they exist) are not,
    and its dates are the dates of its first and last row. *)
Definition good_run (dates : list datecell) (m : list bool) (r : NullRun) : Prop :=
  (run_start r <= run_end r < List.length m)%nat
  /\ (run_length r = run_end r - run_start r + 1)%nat
  /\ (forall i, run_start r <= i <= run_end r -> nth i m false = true)%nat
  /\ (forall i, S i = run_start r -> nth i m false = false)
  /\ nth (S (run_end r)) m false = false
  /\ start_date r = date_at dates (run_start r)
  /\ end_date r = date_at dates (run_end r).

(** Ordered by start and pairwise disjoint: each run ends before the next
    ones start. *)
Definition ordered_disjoint (rs : list NullRun) : Prop :=
  StronglySorted (fun a b => run_end a < run_start b)%nat rs.

Definition ordered_by_start (rs : list NullRun) : Prop :=
  StronglySorted (fun a b => run_start a < run_start b)%nat rs.

Definition total_length (rs : list NullRun) : nat :=
  list_sum (map run_length rs).

(** The state of the scan after the rows of the prefix [p]. *)
Definition scan_inv (dates : list datecell) (p : list bool)
           (st : option nat * list NullRun) : Prop :=
  let (start_idx, runs) := st in
  (Forall (fun r => good_run dates p r /\ S (run_end r) < List.length p) runs
   /\ ordered_disjoint runs
   /\ match start_idx with
      | Some s =>
          s < List.length p
          /\ (forall i, s <= i < List.length p -> nth i p false = true)
          /\ (forall i, S i = s -> nth i p false = false)
          /\ Forall (fun r => run_end r < s) runs
          /\ total_length runs + (List.length p - s) = null_count_of p
      | None =>
          nth (List.length p - 1) p false = false
          /\ total_length runs = null_count_of p
      end)%nat.

Definition index_values (m : list (string * QualityIndex)) : list Q :=
  map (fun e => quality_index (snd e)) m.

(** The overall index as the claim has it: the mean over the variables
    that have at least one non-null value. *)
Definition overall_excluding_empty_variables
           (d : DataFrame) (m : list (string * QualityIndex)) : Q :=
  let has_data (e : string * QualityIndex) :=
    match lookup (fst e) (variables d) with
    | Some s => (0 <? count (@notna Q) s)%nat
    | None => false
    end in
  Qsum (index_values (filter has_data m)) / Qlen (filter has_data m).

(** The variance and the anomaly count the claim describes: the
    population standard deviation divides by [n]. *)
Definition population_variance (l : list Q) : Q :=
  Qsum (map (fun x => (x - mean l) * (x - mean l)) l) / Qlen l.

Definition population_anomaly_count (data : list Q) : nat :=
  count (zscore_exceeds (mean data) (population_variance data)) data.

End Reading.

(* ================================================================== *)
(** * Concrete tables *)

Module Tables.

Local Open Scope string_scope.

(** 2024-01-01 and 2024-01-02 as day ordinals. *)
Definition two_ascending_days : DataFrame :=
  {| Data := [Some 19723%Z; Some 19724%Z]; variables := [] |}.

(** 2024-01-01, 01-02, a row without date, 01-04, 01-05. *)
Definition four_days : DataFrame :=
  {| Data := [Some 19723%Z; Some 19724%Z; None; Some 19726%Z; Some 19727%Z]
   ; variables := [] |}.

(** Three days, a complete temperature series and a wind series without
    a single value. *)
Definition temperature : list cell := [Some 20; Some 21; Some 22].
Definition no_wind : list cell := [None; None; None].

Definition three_days : DataFrame :=
  {| Data := [Some 19723%Z; Some 19724%Z; Some 19725%Z]
   ; variables :=
       [ ("TEMPERATURA MEDIA, DIARIA (AUT)(°C)", temperature)
       ; ("VENTO, VELOCIDADE MEDIA DIARIA (AUT)(m/s)", no_wind) ] |}.

(** Three days with a column the configuration has no range for. *)
Definition radiation : list cell := [Some 100; Some 250; None].

Definition unranged_table : DataFrame :=
  {| Data := [Some 19723%Z; Some 19724%Z; Some 19725%Z]
   ; variables := [ ("RADIACAO GLOBAL (KJ/m2)", radiation) ] |}.

(** Seven days, null mask F,F,T,T,T,F,T. *)
Definition rain : list cell :=
  [Some 0; Some 3; None; None; None; Some 12; None].

Definition seven_days : DataFrame :=
  {| Data := [Some 19723%Z; Some 19724%Z; Some 19725%Z; Some 19726%Z;
              Some 19727%Z; Some 19728%Z; Some 19729%Z]
   ; variables := [ ("PRECIPITACAO TOTAL, DIARIO (AUT)(mm)", rain) ] |}.

(** Eleven values: nine 0, one 1, one 4. *)
Definition eleven_values : list cell :=
  [Some 0; Some 0; Some 0; Some 0; Some 0; Some 0; Some 0; Some 0; Some 0;
   Some 1; Some 4].

End Tables.

Import Reading Tables.

(* ================================================================== *)
(** * Readings and samples for the further properties *)

Module Further.

(** Dates that go up at every step. *)
Fixpoint strictly_increasing (l : list Z) : bool :=
  match l with
  | a :: (b :: _) as r => (a <? b)%Z && strictly_increasing r
  | _ => true
  end.

(** The steps between consecutive dates that are neither 0 nor 1 day
    long, by the position of the earlier date. *)
Definition gap_steps (dates : list Z) : list nat :=
  filter (fun i =>
            negb (nth (S i) dates 0 - nth i dates 0 =? 1)%Z
            && negb (nth (S i) dates 0 - nth i dates 0 =? 0)%Z)
         (seq 0 (List.length dates - 1)).

(** The gap recorded for the step after position [i]. *)
Definition gap_at (dates : list Z) (i : nat) : DataValidator.Gap :=
  DataValidator.mkGap (nth (S i) dates 0%Z)
                      (nth (S i) dates 0 - nth i dates 0)%Z.

(** The value at the fractional position [h] of an ascending list: between
    the entries at [floor h] and the next position (the last one at most),
    in proportion to the fractional part of [h]. *)
Definition value_at_position (sorted : list Q) (h : Q) : Q :=
  let lo := Z.to_nat (Qfloor h) in
  let hi := Nat.min (S lo) (List.length sorted - 1) in
  nth lo sorted 0 + (nth hi sorted 0 - nth lo sorted 0) * (h - inject_Z (Qfloor h)).

(** Doubles with a relative tolerance of 10^-12 near a threshold, where
    every value in that band comes out above the threshold. *)
Definition doubles : DataValidator.Rounding :=
  DataValidator.mkRounding (1 # 1000000000000) (fun _ => true).

(** The squared deviation of a value from a centre. *)
Definition sqdev (m x : Q) : Q := (x - m) * (x - m).

(** The key and the value a line contributes to the metadata, if any. *)
Definition line_key (raw : DataLoader.text) : option DataLoader.text :=
  let line := DataLoader.strip raw in
  if DataLoader.has_colon line
  then Some (DataLoader.strip (fst (DataLoader.split_first_colon line)))
  else None.

Definition line_value (raw : DataLoader.text) : DataLoader.text :=
  DataLoader.strip (snd (DataLoader.split_first_colon (DataLoader.strip raw))).

(** A humidity series with two values out of range and one missing. *)
Definition humidity : list cell :=
  [Some 55; Some 120; None; Some 80; Some (-3); Some 100].

Definition humidity_table : DataFrame :=
  {| Data := [Some 19723%Z; Some 19724%Z; Some 19725%Z; Some 19726%Z;
              Some 19727%Z; Some 19728%Z]
   ; variables :=
       [ ("UMIDADE RELATIVA DO AR, MEDIA DIARIA (AUT)(%)"%string, humidity) ] |}.

(** Six pressure readings, the last one far from the others. *)
Definition pressure : list cell :=
  [Some 1010; Some 1012; None; Some 1011; Some 1013; Some 1012; Some 1100].

Definition pressure_table : DataFrame :=
  {| Data := [Some 19723%Z; Some 19724%Z; Some 19725%Z; Some 19726%Z;
              Some 19727%Z; Some 19728%Z; Some 19729%Z]
   ; variables :=
       [ ("PRESSAO ATMOSFERICA MEDIA DIARIA (AUT)(mB)"%string, pressure) ] |}.

(** A header block of two lines, then the column header. *)
Definition station_lines : list DataLoader.text :=
  map DataLoader.text_of_string
      [ "Nome: BELEM"; "Codigo Estacao: A201"; "";
        "Data Medicao;PRECIPITACAO TOTAL, DIARIO (AUT)(mm);" ]%string.

End Further.

Import Further.

(* ================================================================== *)
(** * Dictionaries *)

Section Dicts.

Context {A : Type}.

Lemma unique_names_NoDup (l : list string) :
  unique_names l = true -> NoDup l.
Proof.
  induction l as [|x r IH]; simpl; intros H.
  - constructor.
  - apply andb_prop in H. destruct H as [Hx Hr].
    constructor; [|auto].
    intros Hin. apply negb_true_iff in Hx.
    assert (existsb (String.eqb x) r = true) as E.
    { apply existsb_exists. exists x. split; [assumption|apply String.eqb_refl]. }
    congruence.
Qed.

Lemma lookup_not_in (k : string) (d : list (string * A)) :
  ~ In k (map fst d) -> lookup k d = None.
Proof.
  induction d as [|[k' v] r IH]; simpl; intros H; [reflexivity|].
  destruct (String.eqb_spec k k') as [->|Hne].
  - exfalso. apply H. now left.
  - apply IH. intros Hin. apply H. now right.
Qed.

Lemma lookup_in (k : string) (v : A) (d : list (string * A)) :
  NoDup (map fst d) -> In (k, v) d -> lookup k d = Some v.
Proof.
  induction d as [|[k' v'] r IH]; simpl; intros Hnd Hin; [contradiction|].
  inversion Hnd as [|? ? Hk' Hr]; subst.
  destruct Hin as [Heq|Hin].
  - inversion Heq; subst. now rewrite String.eqb_refl.
  - destruct (String.eqb_spec k k') as [->|Hne].
    + exfalso. apply Hk'. apply in_map_iff. now exists (k', v).
    + now apply IH.
Qed.

Lemma lookup_some_in (k : string) (v : A) (d : list (string * A)) :
  lookup k d = Some v -> In (k, v) d.
Proof.
  induction d as [|[k' v'] r IH]; simpl; intros H; [discriminate|].
  destruct (String.eqb_spec k k') as [->|Hne].
  - inversion H; subst. now left.
  - right. now apply IH.
Qed.

End Dicts.

Lemma well_formed_length (d : DataFrame) (col : string) (s : list cell) :
  well_formed d = true -> In (col, s) (variables d) -> List.length s = len d.
Proof.
  unfold well_formed. intros H Hin.
  apply andb_prop in H. destruct H as [H _].
  rewrite forallb_forall in H. specialize (H _ Hin). simpl in H.
  now apply Nat.eqb_eq.
Qed.

Lemma well_formed_NoDup (d : DataFrame) :
  well_formed d = true -> NoDup (map fst (variables d)).
Proof.
  unfold well_formed. intros H. apply andb_prop in H.
  now apply unique_names_NoDup.
Qed.

(* ================================================================== *)
(** * Physical limits *)

Section PhysicalLimits.

Import DataValidator.

Variables lo hi : Q.


Lemma mask_sum_map {A} (f : A -> kbool) (g : A -> bool) (l : list A) :
  (forall c, match f c with Some true => true | _ => false end = g c) ->
  mask_sum (map f l) = count g l.
Proof.
  intros H. unfold mask_sum, count.
  induction l as [|c r IH]; simpl; [reflexivity|].
  rewrite <- (H c). destruct (f c) as [[|]|]; simpl; now rewrite IH.
Qed.

Lemma combine_map_same {A B C} (f : A -> B) (g : A -> C) (l : list A) :
  combine (map f l) (map g l) = map (fun c => (f c, g c)) l.
Proof. induction l as [|c r IH]; simpl; [reflexivity|now rewrite IH]. Qed.

Lemma valid_mask_sum (s : list cell) :
  mask_sum (map (fun c => kand (ge_mask c lo) (le_mask c hi)) s)
  = count (in_range lo hi) s.
Proof.
  unfold mask_sum, count.
  induction s as [|[x|] r IH]; simpl; [reflexivity| |assumption].
  destruct (Qle_bool lo x), (Qle_bool x hi); simpl; now rewrite ?IH.
Qed.

Lemma invalid_mask_sum (s : list cell) :
  mask_sum (map (fun p => kand (knot (fst p)) (knot (snd p)))
                (combine (map (fun c => kand (ge_mask c lo) (le_mask c hi)) s)
                         (map (fun c : cell => Some (isna c)) s)))
  = count (out_of_range lo hi) s.
Proof.
  unfold mask_sum, count.
  induction s as [|[x|] r IH]; simpl; [reflexivity| |assumption].
  destruct (Qle_bool lo x), (Qle_bool x hi); simpl; now rewrite ?IH.
Qed.

Lemma null_mask_sum (s : list cell) :
  mask_sum (map (fun c : cell => Some (isna c)) s) = count (@isna Q) s.
Proof.
  unfold mask_sum, count.
  induction s as [|[x|] r IH]; simpl; now rewrite ?IH.
Qed.

(** The counts do not depend on which of the two null representations the
    column has. *)
Lemma float_masks_agree (s : list cell) :
  mask_sum (map (fun c => kand (ge_mask_float c lo) (le_mask_float c hi)) s)
  = count (in_range lo hi) s
  /\ mask_sum
       (map (fun p => kand (knot (fst p)) (knot (snd p)))
            (combine
               (map (fun c => kand (ge_mask_float c lo) (le_mask_float c hi)) s)
               (map (fun c : cell => Some (isna c)) s)))
     = count (out_of_range lo hi) s.
Proof.
  split.
  - apply mask_sum_map. intros [x|]; simpl; [|reflexivity].
    now destruct (Qle_bool lo x), (Qle_bool x hi).
  - rewrite combine_map_same, map_map. apply mask_sum_map.
    intros [x|]; simpl; [|reflexivity].
    now destruct (Qle_bool lo x), (Qle_bool x hi).
Qed.

Lemma range_partition (s : list cell) :
  (count (in_range lo hi) s + count (out_of_range lo hi) s
   + count (@isna Q) s = List.length s)%nat.
Proof.
  unfold count.
  induction s as [|[x|] r IH]; simpl; [reflexivity| |lia].
  destruct (Qle_bool lo x && Qle_bool x hi); simpl; lia.
Qed.

End PhysicalLimits.

Lemma flat_map_keys_not_in {A B} (f : string * A -> list (string * B))
      (k : string) (l : list (string * A)) :
  (forall c e, In e (f c) -> fst e = fst c) ->
  ~ In k (map fst l) -> ~ In k (map fst (flat_map f l)).
Proof.
  intros Hf Hk Hin. apply Hk.
  apply in_map_iff in Hin. destruct Hin as [e [He Hin]].
  apply in_flat_map in Hin. destruct Hin as [c [Hc Hec]].
  apply in_map_iff. exists c. split; [|assumption].
  rewrite <- He. symmetry. now apply Hf.
Qed.

Lemma validate_physical_limits_lookup (d : DataFrame) (col : string) :
  well_formed d = true ->
  lookup col (DataValidator.validate_physical_limits d)
  = if String.eqb col "Data"%string then None
    else match lookup col (variables d), lookup col Config.PHYSICAL_LIMITS with
         | Some s, Some (lo, hi) =>
             Some (DataValidator.validate_column (len d) s lo hi)
         | _, _ => None
         end.
Proof.
  intros Hwf. apply well_formed_NoDup in Hwf.
  unfold DataValidator.validate_physical_limits.
  generalize (len d) as n. intros n.
  generalize Config.PHYSICAL_LIMITS as limits. intros limits.
  induction (variables d) as [|[k s] r IH]; simpl.
  - now destruct (String.eqb col "Data").
  - inversion Hwf as [|? ? Hk Hr]; subst. specialize (IH Hr).
    destruct (String.eqb_spec col k) as [->|Hne].
    + assert (lookup k (flat_map
                (fun c : string * list cell =>
                   if String.eqb (fst c) "Data"%string then []
                   else match lookup (fst c) limits with
                        | None => []
                        | Some (lo, hi) =>
                            [(fst c, DataValidator.validate_column n (snd c) lo hi)]
                        end) r) = None) as Hnone.
      { apply lookup_not_in. apply flat_map_keys_not_in; [|assumption].
        intros c e. destruct (String.eqb (fst c) "Data"); [simpl; tauto|].
        destruct (lookup (fst c) limits) as [[lo hi]|]; simpl;
          [|tauto].
        intros [<-|[]]. reflexivity. }
      destruct (String.eqb k "Data"); simpl; [assumption|].
      destruct (lookup k limits) as [[lo hi]|]; simpl.
      * now rewrite String.eqb_refl.
      * assumption.
    + destruct (String.eqb k "Data"); simpl; [assumption|].
      destruct (lookup k limits) as [[lo hi]|]; simpl;
        [|assumption].
      destruct (String.eqb_spec col k); [contradiction|assumption].
Qed.

(** C4: for a variable with a configured physical range, the result of
    [validate_physical_limits] has [valid_count + invalid_count + null_count
    = total_count], where [total_count] is the number of rows, [valid_count]
    counts the non-null values inside the inclusive range, [invalid_count]
    the non-null values outside it and [null_count] the null values. *)
Theorem C4_validation_counts_partition
        (d : DataFrame) (col : string) (s : list cell) (lo hi : Q)
        (Hwf : well_formed d = true)
        (Hcol : In (col, s) (variables d))
        (Hname : col <> "Data"%string)
        (Hlim : lookup col Config.PHYSICAL_LIMITS = Some (lo, hi)) :
  exists r,
    lookup col (DataValidator.validate_physical_limits d) = Some r
    /\ (DataValidator.valid_count r + DataValidator.invalid_count r
        + DataValidator.null_count r = DataValidator.total_count r)%nat
    /\ DataValidator.total_count r = len d
    /\ DataValidator.valid_count r = count (in_range lo hi) s
    /\ DataValidator.invalid_count r = count (out_of_range lo hi) s
    /\ DataValidator.null_count r = count (@isna Q) s.
Proof.
  exists (DataValidator.validate_column (len d) s lo hi).
  assert (lookup col (variables d) = Some s) as Hs.
  { apply lookup_in; [now apply well_formed_NoDup|assumption]. }
  split.
  - rewrite validate_physical_limits_lookup by assumption.
    destruct (String.eqb_spec col "Data"); [contradiction|].
    now rewrite Hs, Hlim.
  - unfold DataValidator.validate_column; simpl.
    rewrite valid_mask_sum, invalid_mask_sum, null_mask_sum.
    pose proof (range_partition lo hi s) as Hp.
    rewrite (well_formed_length d col s Hwf Hcol) in Hp.
    repeat split; try reflexivity. exact Hp.
Qed.

(* ================================================================== *)
(** * Recommendation bands *)

Section Recommendation.

Import QualityMetrics.
Local Open Scope string_scope.

Lemma get_recommendation_cases (x : Q) :
  (80 <= x /\ get_recommendation x = rec_adequado)%Q
  \/ (60 <= x /\ x < 80 /\ get_recommendation x = rec_parcialmente_adequado)%Q
  \/ (x < 60 /\ get_recommendation x = rec_inadequado)%Q.
Proof.
  unfold get_recommendation, Config.RC_adequado, Config.RC_parcialmente_adequado.
  destruct (Qle_bool 80 x) eqn:E80.
  - left. apply Qle_bool_iff in E80. now split.
  - assert (x < 80)%Q as H80.
    { apply Qnot_le_lt. intros H. apply Qle_bool_iff in H. congruence. }
    destruct (Qle_bool 60 x) eqn:E60.
    + right; left. apply Qle_bool_iff in E60. now repeat split.
    + right; right. split; [|reflexivity].
      apply Qnot_le_lt. intros H. apply Qle_bool_iff in H. congruence.
Qed.

(** C3: [get_recommendation x] returns the label of the adequate tier
    (the source's string is "Adequado") exactly when [x >= 80], the label
    of the partially adequate tier ("Parcialmente Adequado") exactly when
    [60 <= x < 80], and the label of the inadequate tier ("Inadequado")
    exactly when [x < 60]; each label comes with its fixed sentence, and
    60 and 80 fall in the partially adequate and the adequate tier. *)
Theorem C3_recommendation_bands (x : Q) :
  (band_of_label (fst (get_recommendation x)) = Some Adequate <-> (80 <= x)%Q)
  /\ (band_of_label (fst (get_recommendation x)) = Some PartiallyAdequate
      <-> (60 <= x /\ x < 80)%Q)
  /\ (band_of_label (fst (get_recommendation x)) = Some Inadequate
      <-> (x < 60)%Q)
  /\ (fst (get_recommendation x) = "Adequado" <-> (80 <= x)%Q)
  /\ (fst (get_recommendation x) = "Parcialmente Adequado"
      <-> (60 <= x /\ x < 80)%Q)
  /\ (fst (get_recommendation x) = "Inadequado" <-> (x < 60)%Q)
  /\ (get_recommendation x = rec_adequado
      \/ get_recommendation x = rec_parcialmente_adequado
      \/ get_recommendation x = rec_inadequado)
  /\ get_recommendation 60 = rec_parcialmente_adequado
  /\ get_recommendation 80 = rec_adequado.
Proof.
  assert (forall (T : Type) (a b : T), a <> b -> forall P : Prop, ~ P -> (a = b <-> P))
    as Hno by (intros T a b Hab P HP; split; intros H; contradiction).
  assert (forall (T : Type) (a : T) (P : Prop), P -> (a = a <-> P))
    as Hyes by (intros T a P HP; split; intros _; [assumption|reflexivity]).
  destruct (get_recommendation_cases x)
    as [[H80 E]|[[H60 [H80 E]]|[H60 E]]]; rewrite E; simpl;
    change (band_of_label "Adequado") with (Some Adequate);
    change (band_of_label "Parcialmente Adequado") with (Some PartiallyAdequate);
    change (band_of_label "Inadequado") with (Some Inadequate).
  - split; [now apply Hyes|].
    split; [apply Hno; [discriminate|intros [? ?]; lra]|].
    split; [apply Hno; [discriminate|lra]|].
    split; [now apply Hyes|].
    split; [apply Hno; [discriminate|intros [? ?]; lra]|].
    split; [apply Hno; [discriminate|lra]|]. repeat split; tauto.
  - split; [apply Hno; [discriminate|lra]|]. split; [now apply Hyes|].
    split; [apply Hno; [discriminate|lra]|].
    split; [apply Hno; [discriminate|lra]|]. split; [now apply Hyes|].
    split; [apply Hno; [discriminate|lra]|]. repeat split; tauto.
  - split; [apply Hno; [discriminate|lra]|].
    split; [apply Hno; [discriminate|intros [? ?]; lra]|].
    split; [now apply Hyes|].
    split; [apply Hno; [discriminate|lra]|].
    split; [apply Hno; [discriminate|intros [? ?]; lra]|].
    split; [now apply Hyes|]. repeat split; tauto.
Qed.

End Recommendation.

(* ================================================================== *)
(** * Date sequence *)

Section DateSequence.

Import DataValidator.

Lemma is_sorted_never_true (d : DataFrame) (r : DateSequenceReport) :
  validate_date_sequence d = DateReport r -> is_sorted r = false.
Proof.
  unfold validate_date_sequence.
  destruct (dropna (Data d)) as [|a [|b l]]; try discriminate.
  intros H. inversion H; subst; clear H. reflexivity.
Qed.

(** C6 (the code departs from it): on the ascending dates 2024-01-01,
    2024-01-02 the non-null dates are non-decreasing, yet
    [validate_date_sequence] reports [is_sorted = False], because the first
    entry of [dates.diff().dt.days] is NaN and fails both comparisons. *)
Theorem C6_is_sorted_false_on_ascending_dates :
  non_decreasing (dropna (Data two_ascending_days)) = true
  /\ exists r,
       validate_date_sequence two_ascending_days = DateReport r
       /\ is_sorted r = false.
Proof.
  split; [reflexivity|].
  eexists. split; [reflexivity|reflexivity].
Qed.

Lemma gaps_of_four (D1 : Z) :
  find_gaps [D1; D1 + 1; D1 + 3; D1 + 4]%Z
            (diff_days [D1; D1 + 1; D1 + 3; D1 + 4]%Z)
  = [ {| gap_date := (D1 + 3)%Z; gap_days := 2 |} ].
Proof.
  unfold find_gaps, diff_days, diff_from, enumerate, enumerate_from, flat_map.
  cbn [fst snd nth app].
  replace (D1 + 1 - D1)%Z with 1%Z by lia.
  replace (D1 + 3 - (D1 + 1))%Z with 2%Z by lia.
  replace (D1 + 4 - (D1 + 3))%Z with 1%Z by lia.
  reflexivity.
Qed.

(** C7 (amended): when the non-null dates are D1, D1+1, D1+3, D1+4,
    [validate_date_sequence] reports exactly one gap, at the third date
    D1+3, and its [gap_days] is 2, the difference in days from the
    previous date. *)
Theorem C7_one_gap_of_two_days (d : DataFrame) (D1 : Z)
        (Hdates : dropna (Data d) = [D1; D1 + 1; D1 + 3; D1 + 4]%Z) :
  exists r,
    validate_date_sequence d = DateReport r
    /\ gaps r = [ {| gap_date := (D1 + 3)%Z; gap_days := 2 |} ]
    /\ gap_count r = 1%nat.
Proof.
  unfold validate_date_sequence. rewrite Hdates.
  eexists. split; [reflexivity|].
  cbn [gaps gap_count]. rewrite gaps_of_four. split; reflexivity.
Qed.

(** C7 (amended) on [four_days], with D1 = 2024-01-01. *)
Lemma C7_one_gap_of_two_days_witness :
  dropna (Data four_days) = [19723; 19723 + 1; 19723 + 3; 19723 + 4]%Z
  /\ exists r,
       validate_date_sequence four_days = DateReport r
       /\ gaps r = [ {| gap_date := (19723 + 3)%Z; gap_days := 2 |} ]
       /\ gap_count r = 1%nat.
Proof.
  split; [reflexivity|].
  apply (C7_one_gap_of_two_days four_days 19723). reflexivity.
Defined.

(** C7 as stated fails: on 2024-01-01, 01-02, 01-04, 01-05 the one gap
    reported has [gap_days = 2], not 3. *)
Lemma C7_gap_size_is_not_three :
  exists r,
    validate_date_sequence four_days = DateReport r
    /\ gaps r = [ {| gap_date := 19726%Z; gap_days := 2 |} ]
    /\ gaps r <> [ {| gap_date := 19726%Z; gap_days := 3 |} ].
Proof.
  eexists. split; [reflexivity|]. split; [reflexivity|].
  cbn. intros H. discriminate H.
Qed.

End DateSequence.

(* ================================================================== *)
(** * Number repair in the loader *)

Section NumberRepair.

Import DataLoader.
Local Open Scope string_scope.

Lemma repair_prepends_zero (s : string) :
  String.prefix "," s = true ->
  fix_malformed_numbers (Str s) = Str ("0" ++ s).
Proof. intros H. unfold fix_malformed_numbers. now rewrite H. Qed.

Lemma repaired_field_is_null (s : string) :
  String.prefix "," s = true -> repair_and_convert (Str s) = None.
Proof.
  intros H. unfold repair_and_convert. rewrite repair_prepends_zero by assumption.
  destruct s as [|c r]; [discriminate|].
  simpl in H. destruct (Ascii.ascii_dec c ","%char) as [->|Hne].
  - reflexivity.
  - exfalso.
    destruct c as [[] [] [] [] [] [] [] []]; simpl in H;
      try discriminate; now apply Hne.
Qed.

(** C8 (the code departs from it): the field [",5"] is repaired to
    ["0,5"], but the conversion that follows reads ['.'] as the decimal
    mark, so the cell ends up null instead of holding 0.5 (which is what
    ["0.5"] converts to). *)
Theorem C8_repaired_comma_field_becomes_null :
  fix_malformed_numbers (Str ",5") = Str "0,5"
  /\ repair_and_convert (Str ",5") = None
  /\ to_numeric (Str "0.5") = Some (5 # 10)%Q.
Proof. repeat split. Qed.

End NumberRepair.

(* ================================================================== *)
(** * Runs of missing values *)

Section NullRuns.

Import DataValidator.
Local Open Scope nat_scope.

Variable dates : list datecell.

Lemma enumerate_from_app {A} (i : nat) (p q : list A) :
  enumerate_from i (p ++ q)
  = enumerate_from i p ++ enumerate_from (i + List.length p) q.
Proof.
  revert i. induction p as [|x p IH]; intros i; simpl.
  - now rewrite Nat.add_0_r.
  - rewrite IH. now rewrite Nat.add_succ_r.
Qed.

Lemma null_count_of_snoc (p : list bool) (b : bool) :
  null_count_of (p ++ [b]) = null_count_of p + (if b then 1 else 0).
Proof.
  unfold null_count_of. rewrite filter_app, length_app.
  destruct b; reflexivity.
Qed.

Lemma total_length_snoc (rs : list NullRun) (r : NullRun) :
  total_length (rs ++ [r]) = total_length rs + run_length r.
Proof.
  unfold total_length. rewrite map_app, list_sum_app. simpl. lia.
Qed.

Lemma ordered_disjoint_snoc (rs : list NullRun) (r : NullRun) :
  ordered_disjoint rs ->
  Forall (fun a => run_end a < run_start r) rs ->
  ordered_disjoint (rs ++ [r]).
Proof.
  unfold ordered_disjoint. induction rs as [|a rs IH]; simpl; intros Hs Hf.
  - repeat constructor.
  - inversion Hs; subst. inversion Hf; subst.
    constructor; [now apply IH|].
    apply Forall_app. split; [assumption|]. now repeat constructor.
Qed.

Lemma good_run_extend (p : list bool) (b : bool) (r : NullRun) :
  good_run dates p r /\ S (run_end r) < List.length p ->
  good_run dates (p ++ [b]) r /\ S (run_end r) < List.length p + 1.
Proof.
  unfold good_run. rewrite length_app. simpl.
  intros [(Hb & Hl & Hn & Hp & Hq & Hd1 & Hd2) Hlt].
  split; [|lia].
  repeat split; try assumption; try lia.
  - intros i Hi. rewrite app_nth1 by lia. now apply Hn.
  - intros i Hi. rewrite app_nth1 by lia. now apply Hp.
  - rewrite app_nth1 by lia. assumption.
Qed.

Lemma scan_inv_step (p : list bool) (b : bool) (st : option nat * list NullRun) :
  scan_inv dates p st ->
  scan_inv dates (p ++ [b]) (scan_step dates st (List.length p, b)).
Proof.
  destruct st as [[s|] runs]; unfold scan_inv, scan_step;
    destruct b; rewrite ?null_count_of_snoc, ?length_app; simpl.
  - (* inside a run, another null row *)
    intros (Hruns & Hord & Hs & Hnull & Hprev & Hbefore & Hsum).
    split; [eapply Forall_impl; [|exact Hruns]; intros r; apply good_run_extend|].
    split; [assumption|].
    repeat split; try assumption; try lia.
    + intros i Hi. destruct (Nat.eq_dec i (List.length p)) as [->|Hne].
      * now rewrite nth_middle.
      * rewrite app_nth1 by lia. apply Hnull. lia.
    + intros i Hi. rewrite app_nth1 by lia. now apply Hprev.
  - (* a run closes at the previous row *)
    intros (Hruns & Hord & Hs & Hnull & Hprev & Hbefore & Hsum).
    split.
    { apply Forall_app. split.
      - eapply Forall_impl; [|exact Hruns]. intros r. apply good_run_extend.
      - constructor; [|constructor].
        unfold good_run; rewrite length_app; simpl.
        split; [|lia].
        repeat split; try reflexivity; try lia.
        + intros i Hi. rewrite app_nth1 by lia. apply Hnull. lia.
        + intros i Hi. rewrite app_nth1 by lia. now apply Hprev.
        + replace (S (List.length p - 1)) with (List.length p) by lia.
          now rewrite nth_middle. }
    split; [now apply ordered_disjoint_snoc|].
    split.
    + replace (List.length p + 1 - 1) with (List.length p) by lia.
      now rewrite nth_middle.
    + rewrite total_length_snoc. simpl. lia.
  - (* a run opens *)
    intros (Hruns & Hord & Hlast & Hsum).
    split; [eapply Forall_impl; [|exact Hruns]; intros r; apply good_run_extend|].
    split; [assumption|].
    repeat split; try lia.
    + intros i Hi. replace i with (List.length p) by lia. now rewrite nth_middle.
    + intros i Hi. rewrite app_nth1 by lia.
      replace i with (List.length p - 1) by lia. assumption.
    + eapply Forall_impl; [|exact Hruns]. intros r [_ Hr]. lia.
  - (* outside a run, another non-null row *)
    intros (Hruns & Hord & Hlast & Hsum).
    split; [eapply Forall_impl; [|exact Hruns]; intros r; apply good_run_extend|].
    split; [assumption|].
    split; [|lia].
    replace (List.length p + 1 - 1) with (List.length p) by lia.
    now rewrite nth_middle.
Qed.

Lemma scan_inv_fold (m : list bool) :
  scan_inv dates m (fold_left (scan_step dates) (enumerate m) (None, [])).
Proof.
  induction m as [|b p IH] using rev_ind.
  - simpl. repeat split; constructor.
  - unfold enumerate in *. rewrite enumerate_from_app, fold_left_app. simpl.
    now apply scan_inv_step.
Qed.

Lemma disjoint_runs_ordered_by_start (m : list bool) (rs : list NullRun) :
  Forall (good_run dates m) rs -> ordered_disjoint rs -> ordered_by_start rs.
Proof.
  unfold ordered_disjoint, ordered_by_start.
  intros Hgood Hord. induction Hord as [|a rs Hrs IH Ha]; [constructor|].
  inversion Hgood as [|? ? Hga Hgrs]; subst.
  constructor; [now apply IH|].
  eapply Forall_impl; [|exact Ha]. intros b Hb.
  destruct Hga as [Hbounds _]. simpl in Hb. lia.
Qed.

(** The list a scan of the whole mask returns. *)
Lemma scan_null_runs_spec (m : list bool) :
  let rs := scan_null_runs dates (List.length m) m in
  Forall (good_run dates m) rs
  /\ ordered_disjoint rs
  /\ total_length rs = null_count_of m
  /\ (nth (List.length m - 1) m false = true ->
      exists rs' r, rs = rs' ++ [r] /\ run_end r = List.length m - 1).
Proof.
  unfold scan_null_runs.
  pose proof (scan_inv_fold m) as Hinv.
  destruct (fold_left (scan_step dates) (enumerate m) (None, []))
    as [[s|] runs]; unfold scan_inv in Hinv.
  - destruct Hinv as (Hruns & Hord & Hs & Hnull & Hprev & Hbefore & Hsum).
    split.
    { apply Forall_app. split.
      - eapply Forall_impl; [|exact Hruns]. now intros r [Hr _].
      - constructor; [|constructor].
        unfold good_run; simpl.
        repeat split; try reflexivity; try lia.
        + intros i Hi. apply Hnull. lia.
        + assumption.
        + apply nth_overflow. lia. }
    split; [now apply ordered_disjoint_snoc|].
    split; [rewrite total_length_snoc; simpl; lia|].
    intros _. now exists runs, (mkNullRun s (List.length m - 1) (List.length m - s)
                                  (date_at dates s)
                                  (date_at dates (List.length m - 1))).
  - destruct Hinv as (Hruns & Hord & Hlast & Hsum).
    split; [eapply Forall_impl; [|exact Hruns]; now intros r [Hr _]|].
    split; [assumption|]. split; [assumption|].
    intros H. congruence.
Qed.

Lemma no_null_no_true (m : list bool) (i : nat) :
  null_count_of m = 0 -> nth i m false = false.
Proof.
  unfold null_count_of. revert i.
  induction m as [|b m IH]; intros i H; destruct i; simpl in *;
    try reflexivity; destruct b; simpl in H; try discriminate; auto.
Qed.

Lemma null_count_of_isna (s : list cell) :
  null_count_of (map (@isna Q) s) = count (@isna Q) s.
Proof.
  unfold null_count_of, count.
  induction s as [|[x|] r IH]; simpl; now rewrite ?IH.
Qed.

(** The pattern of one column, whatever branch [missing_pattern] takes. *)
Lemma missing_pattern_spec (s : list cell) :
  let m := map (@isna Q) s in
  let mp := missing_pattern dates (List.length s) s in
  mp_null_count mp = count (@isna Q) s
  /\ Forall (good_run dates m) (consecutive_nulls mp)
  /\ ordered_disjoint (consecutive_nulls mp)
  /\ total_length (consecutive_nulls mp) = mp_null_count mp
  /\ (nth (List.length m - 1) m false = true ->
      exists rs' r, consecutive_nulls mp = rs' ++ [r]
                    /\ run_end r = List.length m - 1).
Proof.
  intros m mp. subst mp. unfold missing_pattern. fold m.
  pose proof (scan_null_runs_spec m) as Hscan.
  assert (List.length m = List.length s) as Hlen by apply length_map.
  rewrite Hlen in Hscan.
  pose proof (null_count_of_isna s) as Hcnt. fold m in Hcnt.
  destruct (Nat.eqb_spec (null_count_of m) 0) as [Hz|Hnz]; simpl.
  - split; [congruence|]. split; [constructor|]. split; [constructor|].
    split; [reflexivity|].
    intros H. rewrite (no_null_no_true m _ Hz) in H. discriminate.
  - destruct Hscan as (H1 & H2 & H3 & H4).
    split; [assumption|]. split; [assumption|]. split; [assumption|].
    split; [assumption|]. rewrite Hlen. assumption.
Qed.

End NullRuns.

(** C9: for a variable column of the table, the runs reported by
    [detect_missing_data_patterns] are maximal runs of nulls (every row of a
    run is null, the row before and the row after are not), ordered by start
    index and disjoint, their lengths sum to [null_count], the number of
    null cells, and when the last row is null the last run ends at the last
    row; the null mask F,F,T,T,T,F,T gives the two runs 2-4 (length 3) and
    6-6 (length 1). *)
Theorem C9_consecutive_null_runs
        (d : DataFrame) (col : string) (s : list cell)
        (Hwf : well_formed d = true)
        (Hcol : In (col, s) (variables d))
        (Hname : col <> "Data"%string) :
  let m := map (@isna Q) s in
  let runs (mp : DataValidator.MissingPattern) :=
    map (fun r => (DataValidator.run_start r, DataValidator.run_end r,
                   DataValidator.run_length r))
        (DataValidator.consecutive_nulls mp) in
  (exists mp,
      In (col, mp) (DataValidator.detect_missing_data_patterns d)
      /\ DataValidator.mp_null_count mp = count (@isna Q) s
      /\ Forall (good_run (Data d) m) (DataValidator.consecutive_nulls mp)
      /\ ordered_disjoint (DataValidator.consecutive_nulls mp)
      /\ ordered_by_start (DataValidator.consecutive_nulls mp)
      /\ total_length (DataValidator.consecutive_nulls mp)
         = DataValidator.mp_null_count mp
      /\ (nth (List.length m - 1) m false = true ->
          exists rs' r,
            DataValidator.consecutive_nulls mp = rs' ++ [r]
            /\ DataValidator.run_end r = (len d - 1)%nat))
  /\ (forall mp,
        In (col, mp) (DataValidator.detect_missing_data_patterns d) ->
        m = [false; false; true; true; true; false; true] ->
        runs mp = [(2, 4, 3); (6, 6, 1)]%nat).
Proof.
  intros m runs.
  pose proof (well_formed_length d col s Hwf Hcol) as Hlen.
  assert (List.length m = len d) as Hm by (unfold m; now rewrite length_map).
  split.
  - exists (DataValidator.missing_pattern (Data d) (len d) s).
    split.
    + unfold DataValidator.detect_missing_data_patterns.
      apply in_flat_map. exists (col, s). split; [assumption|]. simpl.
      destruct (String.eqb_spec col "Data"); [contradiction|]. now left.
    + pose proof (missing_pattern_spec (Data d) s) as H.
      cbv zeta in H. fold m in H. rewrite Hm, Hlen in H. rewrite Hm.
      destruct H as (H1 & H2 & H3 & H4 & H5).
      repeat split; try assumption.
      now apply (disjoint_runs_ordered_by_start (Data d) m).
  - intros mp Hin Hmask.
    unfold DataValidator.detect_missing_data_patterns in Hin.
    apply in_flat_map in Hin. destruct Hin as [[col' s'] [Hin' Hmp]]. simpl in Hmp.
    destruct (String.eqb col' "Data"); [contradiction|].
    destruct Hmp as [Hmp|[]]. inversion Hmp; subst col' mp.
    assert (s' = s) as ->.
    { pose proof (lookup_in col s' (variables d) (well_formed_NoDup d Hwf) Hin').
      pose proof (lookup_in col s (variables d) (well_formed_NoDup d Hwf) Hcol).
      congruence. }
    unfold runs, DataValidator.missing_pattern. fold m. rewrite Hmask.
    assert (len d = 7%nat) as -> by (rewrite <- Hm, Hmask; reflexivity).
    reflexivity.
Qed.

(* ================================================================== *)
(** * Quality index *)

Section QualityIndexFacts.

Import DataValidator QualityMetrics.

Lemma Qnat_nonneg (n : nat) : 0 <= Qnat n.
Proof.
  unfold Qnat. change 0 with (inject_Z 0). rewrite <- Zle_Qle. lia.
Qed.

Lemma Qnat_le (a b : nat) : (a <= b)%nat -> Qnat a <= Qnat b.
Proof. intros H. unfold Qnat. rewrite <- Zle_Qle. lia. Qed.

Lemma Qnat_pos (n : nat) : (0 < n)%nat -> 0 < Qnat n.
Proof.
  intros H. unfold Qnat. change 0 with (inject_Z 0). rewrite <- Zlt_Qlt. lia.
Qed.

Lemma Qdiv_nonneg (a b : Q) : 0 <= a -> 0 <= b -> 0 <= a / b.
Proof.
  intros Ha Hb. unfold Qdiv.
  apply Qmult_le_0_compat; [assumption|]. now apply Qinv_le_0_compat.
Qed.

Lemma percentage_nonneg (a b : Q) : 0 <= a -> 0 <= b -> 0 <= (a / b) * 100.
Proof.
  intros Ha Hb. apply Qmult_le_0_compat; [now apply Qdiv_nonneg|].
  discriminate.
Qed.

(** On a non-negative percentage [min(pct, 100)] is the clamp to
    [0, 100]. *)
Lemma min_is_clamp (pct : Q) : 0 <= pct -> Qmin pct 100 == clamp pct.
Proof.
  intros H. unfold clamp. symmetry. apply Q.max_r.
  apply Q.min_glb; [assumption|discriminate].
Qed.

Lemma completeness_nonneg (total : nat) (s : list cell) :
  0 <= completeness_percentage (completeness_of total s).
Proof. simpl. apply percentage_nonneg; apply Qnat_nonneg. Qed.

Lemma validity_nonneg (r : ValidationResult) :
  0 <= validity_percentage (validity_of r).
Proof.
  simpl. destruct (0 <? valid_count r + invalid_count r)%nat.
  - apply percentage_nonneg; apply Qnat_nonneg.
  - apply Qle_refl.
Qed.

Lemma consistency_nonneg (s : list cell) :
  0 <= consistency_percentage (consistency_of s).
Proof.
  unfold consistency_of.
  destruct (List.length (dropna s) <? 2)%nat; simpl; [apply Qle_refl|].
  apply percentage_nonneg; [|apply Qnat_nonneg].
  assert (forall n, (n <= List.length (dropna s))%nat ->
                    0 <= Qlen (dropna s) - Qnat n) as Hle.
  { intros n Hn. apply Qnat_le in Hn. unfold Qlen, Qnat in *. lra. }
  destruct (Qeq_bool (sample_variance (dropna s)) 0).
  - apply Hle. lia.
  - apply Hle. apply filter_length_le.
Qed.

(** What a loop over columns returns for one of its keys. *)
Lemma for_columns_lookup {B} (d : DataFrame) (f : list cell -> B)
      (columns : list string) (out : list (string * B)) (col : string) (b : B) :
  for_columns d f columns = Some out ->
  lookup col out = Some b ->
  exists s, lookup col (variables d) = Some s /\ b = f s.
Proof.
  revert out. induction columns as [|k r IH]; simpl; intros out Hout Hb.
  - inversion Hout; subst. discriminate.
  - destruct (lookup k (variables d)) as [s|] eqn:Hk; [|discriminate].
    destruct (for_columns d f r) as [out'|]; [|discriminate].
    inversion Hout; subst; clear Hout. simpl in Hb.
    destruct (String.eqb_spec col k) as [->|Hne].
    + inversion Hb; subst. now exists s.
    + now apply (IH out').
Qed.

Lemma calculate_validity_lookup (self : QualityMetricsCalculator)
      (column : option string) (col : string) (v : Validity) :
  lookup col (calculate_validity self column) = Some v ->
  exists r, lookup col (validation_results self) = Some r /\ v = validity_of r.
Proof.
  unfold calculate_validity.
  induction (columns_for (df self) column) as [|k r IH]; simpl; [discriminate|].
  destruct (lookup k (validation_results self)) as [res|] eqn:Hk; simpl.
  - destruct (String.eqb_spec col k) as [->|Hne].
    + intros H. inversion H; subst. now exists res.
    + assumption.
  - assumption.
Qed.

Lemma lookup_map_entries {B C} (g : string -> B -> C) (col : string)
      (l : list (string * B)) :
  lookup col (map (fun e => (fst e, g (fst e) (snd e))) l)
  = option_map (g col) (lookup col l).
Proof.
  induction l as [|[k b] r IH]; simpl; [reflexivity|].
  destruct (String.eqb_spec col k) as [->|Hne]; [reflexivity|assumption].
Qed.

(** C1: for a variable whose completeness, validity and consistency
    percentages were computed, the entry [calculate_quality_index] returns
    has each score equal to the percentage clamped to [0, 100] and
    [quality_index = completeness_score * 0.4 + validity_score * 0.4
    + consistency_score * 0.2]. *)
Theorem C1_quality_index_formula
        (self : QualityMetricsCalculator) (column : option string) (col : string)
        (completeness : list (string * Completeness))
        (consistency : list (string * Consistency))
        (c : Completeness) (v : Validity) (k : Consistency)
        (Hrows : (0 < len (df self))%nat)
        (Hcomp : calculate_completeness self column = Some completeness)
        (Hc : lookup col completeness = Some c)
        (Hv : lookup col (calculate_validity self column) = Some v)
        (Hcons : calculate_consistency self column = Some consistency)
        (Hk : lookup col consistency = Some k) :
  exists qi self' e,
    calculate_quality_index self column = Some (qi, self')
    /\ lookup col qi = Some e
    /\ completeness_score e == clamp (completeness_percentage c)
    /\ validity_score e == clamp (validity_percentage v)
    /\ consistency_score e == clamp (consistency_percentage k)
    /\ quality_index e ==
         completeness_score e * (4 # 10) + validity_score e * (4 # 10)
         + consistency_score e * (2 # 10).
Proof.
  unfold calculate_quality_index. rewrite Hcomp, Hcons.
  eexists. eexists. eexists. split; [reflexivity|].
  split.
  { rewrite (lookup_map_entries
               (fun name (x : Completeness) =>
                  quality_entry (completeness_percentage x)
                    (get_pct (calculate_validity self column) name validity_percentage)
                    (get_pct consistency name consistency_percentage))).
    rewrite Hc. simpl. reflexivity. }
  unfold get_pct. rewrite Hv, Hk. simpl.
  destruct (for_columns_lookup _ _ _ _ _ _ Hcomp Hc) as [s [_ ->]].
  destruct (calculate_validity_lookup _ _ _ _ Hv) as [r [_ ->]].
  destruct (for_columns_lookup _ _ _ _ _ _ Hcons Hk) as [s' [_ ->]].
  split; [apply min_is_clamp, completeness_nonneg|].
  split; [apply min_is_clamp, validity_nonneg|].
  split; [apply min_is_clamp, consistency_nonneg|].
  reflexivity.
Qed.

End QualityIndexFacts.

(* ================================================================== *)
(** * The overall index of a freshly built calculator *)

Section OverallIndex.

Import DataValidator QualityMetrics.

Lemma for_columns_keys {B} (d : DataFrame) (f : list cell -> B)
      (columns : list string) (out : list (string * B)) :
  for_columns d f columns = Some out -> map fst out = columns.
Proof.
  revert out. induction columns as [|k r IH]; simpl; intros out H.
  - now inversion H.
  - destruct (lookup k (variables d)); [|discriminate].
    destruct (for_columns d f r) as [out'|]; [|discriminate].
    inversion H; subst. simpl. f_equal. now apply IH.
Qed.

Lemma lookup_key_some {B} (k : string) (l : list (string * B)) :
  In k (map fst l) -> exists v, lookup k l = Some v.
Proof.
  induction l as [|[k' v] r IH]; simpl; [contradiction|].
  intros [->|Hin].
  - rewrite String.eqb_refl. now exists v.
  - destruct (String.eqb k k'); [now exists v|now apply IH].
Qed.

Lemma for_columns_total {B} (d : DataFrame) (f : list cell -> B)
      (columns : list string) :
  incl columns (map fst (variables d)) ->
  exists out, for_columns d f columns = Some out.
Proof.
  induction columns as [|k r IH]; simpl; intros Hincl.
  - now exists [].
  - destruct (lookup_key_some k (variables d)) as [s Hs].
    { apply Hincl. now left. }
    destruct IH as [out Hout].
    { intros x Hx. apply Hincl. now right. }
    rewrite Hs, Hout. now eexists.
Qed.

Lemma variable_names_incl (d : DataFrame) :
  incl (variable_names d) (map fst (variables d)).
Proof. intros x Hx. unfold variable_names in Hx. now apply filter_In in Hx. Qed.

Lemma variable_names_in (d : DataFrame) (col : string) (s : list cell) :
  In (col, s) (variables d) -> col <> "Data"%string -> In col (variable_names d).
Proof.
  intros Hin Hne. unfold variable_names. apply filter_In. split.
  - apply in_map_iff. now exists (col, s).
  - destruct (String.eqb_spec col "Data"); [contradiction|reflexivity].
Qed.

(** The entry of one column in the dict [calculate_quality_index]
    returns. *)
Lemma quality_index_lookup (self : QualityMetricsCalculator)
      (column : option string)
      (completeness : list (string * Completeness))
      (consistency : list (string * Consistency)) :
  calculate_completeness self column = Some completeness ->
  calculate_consistency self column = Some consistency ->
  exists qi,
    calculate_quality_index self column
    = Some (qi, mkCalculator (df self) (validation_results self) qi)
    /\ map fst qi = map fst completeness
    /\ forall col,
         lookup col qi
         = option_map
             (fun c =>
                quality_entry
                  (completeness_percentage c)
                  (get_pct (calculate_validity self column) col validity_percentage)
                  (get_pct consistency col consistency_percentage))
             (lookup col completeness).
Proof.
  intros Hcomp Hcons. unfold calculate_quality_index. rewrite Hcomp, Hcons.
  eexists. split; [reflexivity|]. split.
  - rewrite map_map. reflexivity.
  - intros col.
    apply (lookup_map_entries
             (fun name (x : Completeness) =>
                quality_entry (completeness_percentage x)
                  (get_pct (calculate_validity self column) name validity_percentage)
                  (get_pct consistency name consistency_percentage))).
Qed.

(** All three per-variable passes of a call without [column] succeed and
    have one entry per variable column. *)
Lemma all_columns_computed (self : QualityMetricsCalculator) :
  exists completeness consistency,
    calculate_completeness self None = Some completeness
    /\ calculate_consistency self None = Some consistency
    /\ map fst completeness = variable_names (df self)
    /\ map fst consistency = variable_names (df self).
Proof.
  unfold calculate_completeness, calculate_consistency. simpl.
  destruct (for_columns_total (df self) (completeness_of (len (df self)))
              (variable_names (df self)) (variable_names_incl _)) as [o1 H1].
  destruct (for_columns_total (df self) consistency_of
              (variable_names (df self)) (variable_names_incl _)) as [o2 H2].
  exists o1, o2. rewrite H1, H2.
  repeat split; eapply for_columns_keys; eassumption.
Qed.

(** The entries of a variable column [(col, s)] of a well-formed table. *)
Lemma column_entries (self : QualityMetricsCalculator)
      (col : string) (s : list cell)
      (completeness : list (string * Completeness))
      (consistency : list (string * Consistency)) :
  well_formed (df self) = true ->
  In (col, s) (variables (df self)) -> col <> "Data"%string ->
  calculate_completeness self None = Some completeness ->
  calculate_consistency self None = Some consistency ->
  lookup col completeness = Some (completeness_of (len (df self)) s)
  /\ lookup col consistency = Some (consistency_of s).
Proof.
  intros Hwf Hin Hne Hcomp Hcons.
  assert (lookup col (variables (df self)) = Some s) as Hs.
  { apply lookup_in; [now apply well_formed_NoDup|assumption]. }
  pose proof (variable_names_in _ _ _ Hin Hne) as Hname.
  split.
  - destruct (lookup_key_some col completeness) as [c Hc].
    { unfold calculate_completeness in Hcomp.
      now rewrite (for_columns_keys _ _ _ _ Hcomp). }
    destruct (for_columns_lookup _ _ _ _ _ _ Hcomp Hc) as [s' [Hs' ->]].
    rewrite Hc. congruence.
  - destruct (lookup_key_some col consistency) as [c Hc].
    { unfold calculate_consistency in Hcons.
      now rewrite (for_columns_keys _ _ _ _ Hcons). }
    destruct (for_columns_lookup _ _ _ _ _ _ Hcons Hc) as [s' [Hs' ->]].
    rewrite Hc. congruence.
Qed.

(** [get_overall_quality_index] on a calculator whose [metrics] is still
    empty: it fills [metrics] from all variable columns and averages all of
    them. *)
Lemma overall_of_fresh (d : DataFrame) (vr : list (string * ValidationResult))
      (qi : list (string * QualityIndex)) (self' : QualityMetricsCalculator) :
  calculate_quality_index (init d vr) None = Some (qi, self') ->
  metrics self' = qi ->
  qi <> [] ->
  exists o,
    get_overall_quality_index (init d vr) = Some (o, self')
    /\ variable_count o = List.length qi
    /\ overall_quality_index o == Qsum (index_values qi) / Qlen qi.
Proof.
  intros Hqi Hm Hne. unfold get_overall_quality_index. simpl metrics.
  rewrite Hqi, Hm. eexists. split; [reflexivity|]. split; [reflexivity|].
  unfold overall_of, overall_quality_index, np_mean. fold (index_values qi).
  destruct qi as [|e r]; [contradiction|].
  cbn beta iota.
  unfold Qlen, index_values. rewrite length_map. reflexivity.
Qed.

End OverallIndex.

(* ================================================================== *)
(** * Variables without a range, variables without data *)

Section ScoredVariables.

Import DataValidator QualityMetrics.

Variable d : DataFrame.
Variable col : string.
Variable s : list cell.
Hypothesis Hwf : well_formed d = true.
Hypothesis Hcol : In (col, s) (variables d).
Hypothesis Hname : col <> "Data"%string.

(** The calculator built as the application builds it scores the column
    and averages over every variable column. *)
Lemma fresh_calculator_scores_column :
  exists completeness consistency qi,
    calculate_completeness (App.metrics_calc d) None = Some completeness
    /\ calculate_consistency (App.metrics_calc d) None = Some consistency
    /\ lookup col completeness = Some (completeness_of (len d) s)
    /\ lookup col consistency = Some (consistency_of s)
    /\ calculate_quality_index (App.metrics_calc d) None
       = Some (qi, mkCalculator d (validate_physical_limits d) qi)
    /\ lookup col qi
       = Some (quality_entry
                 (completeness_percentage (completeness_of (len d) s))
                 (get_pct (calculate_validity (App.metrics_calc d) None) col
                          validity_percentage)
                 (consistency_percentage (consistency_of s)))
    /\ List.length qi = List.length (variable_names d)
    /\ exists o,
         get_overall_quality_index (App.metrics_calc d)
         = Some (o, mkCalculator d (validate_physical_limits d) qi)
         /\ variable_count o = List.length qi
         /\ overall_quality_index o == Qsum (index_values qi) / Qlen qi.
Proof.
  destruct (all_columns_computed (App.metrics_calc d))
    as (completeness & consistency & H1 & H2 & K1 & K2).
  destruct (column_entries (App.metrics_calc d) col s completeness consistency
                           Hwf Hcol Hname H1 H2) as [Lc Lk].
  destruct (quality_index_lookup (App.metrics_calc d) None completeness
                                 consistency H1 H2) as (qi & Hqi & Kq & Lq).
  exists completeness, consistency, qi.
  assert (lookup col qi
          = Some (quality_entry
                    (completeness_percentage (completeness_of (len d) s))
                    (get_pct (calculate_validity (App.metrics_calc d) None) col
                             validity_percentage)
                    (consistency_percentage (consistency_of s)))) as Le.
  { rewrite Lq, Lc. simpl. unfold get_pct at 2. now rewrite Lk. }
  repeat split; try assumption.
  - rewrite <- (length_map fst qi), Kq, K1. reflexivity.
  - apply (overall_of_fresh d (validate_physical_limits d) qi _ Hqi eq_refl).
    intros ->. discriminate Le.
Qed.

Lemma validity_default_when_unranged :
  lookup col Config.PHYSICAL_LIMITS = None ->
  lookup col (validate_physical_limits d) = None
  /\ get_pct (calculate_validity (App.metrics_calc d) None) col validity_percentage = 0.
Proof.
  intros Hnolim.
  assert (lookup col (validate_physical_limits d) = None) as Hvr.
  { rewrite validate_physical_limits_lookup by assumption. rewrite Hnolim.
    destruct (String.eqb col "Data"); [reflexivity|].
    now destruct (lookup col (variables d)). }
  split; [assumption|].
  unfold get_pct.
  destruct (lookup col (calculate_validity (App.metrics_calc d) None)) as [v|] eqn:Hv;
    [|reflexivity].
  destruct (calculate_validity_lookup _ _ _ _ Hv) as [r [Hr _]].
  simpl in Hr. congruence.
Qed.

(** C10: a variable column without a configured physical range has no
    ValidationResult, yet [calculate_quality_index] gives it an entry: the
    entry is the one built from the column's own completeness and
    consistency percentages with the validity percentage 0, so its
    completeness and consistency scores are those percentages clamped to
    [0, 100], its validity score is 0 and its index is
    [completeness_score * 0.4 + consistency_score * 0.2], strictly below
    the index it would have with any positive validity percentage; the
    entry is one of those the overall index averages ([variable_count]
    counts every variable column). *)
Theorem C10_unranged_variable_is_scored_with_zero_validity
        (Hrows : (0 < len d)%nat)
        (Hnolim : lookup col Config.PHYSICAL_LIMITS = None) :
  lookup col (validate_physical_limits d) = None
  /\ exists qi self' e o,
       calculate_quality_index (App.metrics_calc d) None = Some (qi, self')
       /\ lookup col qi = Some e
       /\ e = quality_entry
                (completeness_percentage (completeness_of (len d) s))
                0
                (consistency_percentage (consistency_of s))
       /\ completeness_score e
          == clamp (completeness_percentage (completeness_of (len d) s))
       /\ consistency_score e
          == clamp (consistency_percentage (consistency_of s))
       /\ validity_score e == 0
       /\ quality_index e ==
            completeness_score e * (4 # 10) + consistency_score e * (2 # 10)
       /\ (forall valid_pct,
              0 < valid_pct ->
              quality_index e
              < quality_index
                  (quality_entry
                     (completeness_percentage (completeness_of (len d) s))
                     valid_pct
                     (consistency_percentage (consistency_of s))))
       /\ In (col, e) qi
       /\ get_overall_quality_index (App.metrics_calc d) = Some (o, self')
       /\ variable_count o = List.length (variable_names d)
       /\ overall_quality_index o == Qsum (index_values qi) / Qlen qi.
Proof.
  destruct (validity_default_when_unranged Hnolim) as [Hvr Hget].
  split; [assumption|].
  destruct fresh_calculator_scores_column
    as (completeness & consistency & qi & H1 & H2 & Lc & Lk & Hqi & Le & Hlen
        & o & Ho & Hcount & Hmean).
  rewrite Hget in Le.
  eexists qi, _, _, o.
  split; [exact Hqi|]. split; [exact Le|].
  split; [reflexivity|].
  split; [apply min_is_clamp, completeness_nonneg|].
  split; [apply min_is_clamp, consistency_nonneg|].
  split; [reflexivity|].
  split.
  { unfold quality_entry, quality_index, completeness_score, consistency_score.
    change (Qmin 0 100) with 0. unfold Config.W_completude, Config.W_validade,
      Config.W_consistencia. ring. }
  split.
  { intros valid_pct Hpos.
    unfold quality_entry, quality_index.
    change (Qmin 0 100) with 0.
    assert (0 < Qmin valid_pct 100) as Hmin
        by (apply Q.min_glb_lt; [assumption|reflexivity]).
    unfold Config.W_completude, Config.W_validade, Config.W_consistencia.
    set (a := Qmin (completeness_percentage (completeness_of (len d) s)) 100).
    set (b := Qmin (consistency_percentage (consistency_of s)) 100).
    set (v := Qmin valid_pct 100) in *.
    clearbody a b v. lra. }
  split; [now apply lookup_some_in|].
  split; [exact Ho|].
  split; [congruence|exact Hmean].
Qed.

End ScoredVariables.

Section VariablesWithoutData.

Import DataValidator QualityMetrics.

Lemma count_isna_notna (s : list cell) :
  (count (@isna Q) s + count (@notna Q) s = List.length s)%nat.
Proof.
  unfold count, notna. induction s as [|[x|] r IH]; simpl; lia.
Qed.

Lemma dropna_length (s : list cell) :
  List.length (dropna s) = count (@notna Q) s.
Proof.
  unfold count, notna. induction s as [|[x|] r IH]; simpl; lia.
Qed.

Lemma zero_percentage (total : nat) : (Qnat 0 / Qnat total) * 100 == 0.
Proof. unfold Qdiv. change (Qnat 0) with 0. ring. Qed.

Lemma min_of_zero (pct : Q) : pct == 0 -> Qmin pct 100 == 0.
Proof.
  intros H. rewrite Q.min_l; [assumption|]. rewrite H. discriminate.
Qed.

(** C2 (amended): in a table with at least one row, a variable with zero
    non-null values gets completeness 0, validity 0 when it has a
    validity entry at all, consistency 0 with the message
    "Dados insuficientes", and quality index 0; it is not left out of the
    overall index: [variable_count] counts every variable column and the
    overall index is the mean of all entries, this one included. *)
Theorem C2_variable_without_data_scores_zero_and_is_averaged
        (d : DataFrame) (col : string) (s : list cell)
        (Hwf : well_formed d = true)
        (Hcol : In (col, s) (variables d))
        (Hname : col <> "Data"%string)
        (Hrows : (0 < len d)%nat)
        (Hnull : count (@notna Q) s = 0%nat) :
  let self := App.metrics_calc d in
  exists completeness consistency qi self' c k e o,
    calculate_completeness self None = Some completeness
    /\ lookup col completeness = Some c
    /\ completeness_percentage c == 0
    /\ (forall v, lookup col (calculate_validity self None) = Some v ->
                  validity_percentage v == 0)
    /\ calculate_consistency self None = Some consistency
    /\ lookup col consistency = Some k
    /\ consistency_percentage k == 0
    /\ message k = Some "Dados insuficientes"%string
    /\ calculate_quality_index self None = Some (qi, self')
    /\ lookup col qi = Some e
    /\ quality_index e == 0
    /\ In (col, e) qi
    /\ get_overall_quality_index self = Some (o, self')
    /\ variable_count o = List.length (variable_names d)
    /\ overall_quality_index o == Qsum (index_values qi) / Qlen qi.
Proof.
  intros self.
  destruct (fresh_calculator_scores_column d col s Hwf Hcol Hname)
    as (completeness & consistency & qi & H1 & H2 & Lc & Lk & Hqi & Le & Hlen
        & o & Ho & Hcount & Hmean).
  fold self in H1, H2, Hqi, Le, Ho.
  assert (completeness_percentage (completeness_of (len d) s) == 0) as Zc.
  { simpl. fold (count (@notna Q) s). rewrite Hnull. apply zero_percentage. }
  assert (consistency_of s
          = mkConsistency 0 0 (Some "Dados insuficientes"%string) None None) as Ek.
  { unfold consistency_of. rewrite dropna_length, Hnull. reflexivity. }
  assert (forall v, lookup col (calculate_validity self None) = Some v ->
                    validity_percentage v == 0) as Zv.
  { intros v Hv.
    destruct (calculate_validity_lookup _ _ _ _ Hv) as [r [Hr ->]].
    simpl in Hr. rewrite validate_physical_limits_lookup in Hr by assumption.
    destruct (String.eqb col "Data"); [discriminate|].
    rewrite (lookup_in col s (variables d) (well_formed_NoDup d Hwf) Hcol) in Hr.
    destruct (lookup col Config.PHYSICAL_LIMITS) as [[lo hi]|]; [|discriminate].
    inversion Hr; subst r; clear Hr.
    unfold validity_of, validate_column; simpl.
    rewrite valid_mask_sum, invalid_mask_sum.
    pose proof (range_partition lo hi s) as Hp.
    pose proof (count_isna_notna s) as Hq.
    replace (count (in_range lo hi) s) with 0%nat by lia.
    replace (count (out_of_range lo hi) s) with 0%nat by lia.
    simpl. reflexivity. }
  eexists completeness, consistency, qi, _, _, _, _, o.
  split; [exact H1|]. split; [exact Lc|]. split; [exact Zc|].
  split; [exact Zv|]. split; [exact H2|]. split; [exact Lk|].
  split; [rewrite Ek; reflexivity|]. split; [rewrite Ek; reflexivity|].
  split; [exact Hqi|]. split; [exact Le|].
  split.
  { unfold quality_entry, quality_index.
    rewrite (min_of_zero _ Zc). rewrite Ek. simpl consistency_percentage.
    change (Qmin 0 100) with 0.
    assert (Qmin (get_pct (calculate_validity self None) col validity_percentage) 100
            == 0) as ->.
    { apply min_of_zero. unfold get_pct.
      destruct (lookup col (calculate_validity self None)) as [v|] eqn:Hv;
        [now apply Zv|reflexivity]. }
    ring. }
  split; [now apply lookup_some_in|].
  split; [exact Ho|].
  split; [congruence|exact Hmean].
Qed.

End VariablesWithoutData.

(* ================================================================== *)
(** * Consistency: the z-score test *)

Section ZScoreOverReals.

Import Reals Qreals.
Local Open Scope R_scope.

(** [|d / sqrt v| > 3] compares the squares. *)
Lemma abs_ratio_exceeds (d v : R) :
  0 < v -> (Rabs (d / sqrt v) > 3 <-> 3 * 3 * v < d * d).
Proof.
  intros Hv.
  pose proof (sqrt_lt_R0 v Hv) as Hs.
  pose proof (sqrt_sqrt v (Rlt_le _ _ Hv)) as Hsq.
  set (sd := sqrt v) in *. clearbody sd.
  unfold Rdiv. rewrite Rabs_mult, Rabs_inv, (Rabs_right sd) by Lra.lra.
  assert (Rabs d * Rabs d = d * d) as Habs.
  { pose proof (Rsqr_abs d) as H. unfold Rsqr in H. now symmetry. }
  pose proof (Rabs_pos d) as Hpos.
  set (a := Rabs d) in *. clearbody a.
  assert (a * / sd * sd = a) as Hx by (field; Lra.lra).
  set (x := a * / sd) in *. clearbody x.
  subst a. rewrite <- Habs, <- Hsq.
  set (y := x * sd) in *.
  split; intros H.
  - assert (3 * sd < y) as H1 by (unfold y; Lra.nra).
    assert (0 < (y - 3 * sd) * (y + 3 * sd)) as H2
        by (apply Rmult_lt_0_compat; Lra.lra).
    Lra.lra.
  - destruct (Rlt_le_dec 3 x) as [Hlt|Hle]; [assumption|exfalso].
    assert (y <= 3 * sd) as H1 by (unfold y; Lra.nra).
    assert (0 <= (3 * sd - y) * (3 * sd + y)) as H2
        by (apply Rmult_le_pos; Lra.lra).
    Lra.lra.
Qed.

(** The test [zscore_exceeds] is the source's test
    [np.abs((x - mean) / std) > 3] with [std] the square root of [var]. *)
Lemma zscore_exceeds_real (m var x : Q) :
  (0 < var)%Q ->
  (QualityMetrics.zscore_exceeds m var x = true
   <-> Rabs ((Q2R x - Q2R m) / sqrt (Q2R var)) > 3).
Proof.
  intros Hvar.
  assert (0 < Q2R var) as HvarR.
  { replace 0 with (Q2R 0) by (unfold Q2R; simpl; field). now apply Qlt_Rlt. }
  rewrite (abs_ratio_exceeds _ _ HvarR).
  unfold QualityMetrics.zscore_exceeds.
  rewrite negb_true_iff.
  assert (Q2R (3 * 3 * var) = 3 * 3 * Q2R var) as E1.
  { rewrite !Q2R_mult. unfold Q2R at 1 2. simpl. field. }
  assert (Q2R ((x - m) * (x - m)) = (Q2R x - Q2R m) * (Q2R x - Q2R m)) as E2.
  { now rewrite Q2R_mult, Q2R_minus. }
  rewrite <- E1, <- E2.
  split.
  - intros Hb. apply Qlt_Rlt. apply Qnot_le_lt. intros Hle.
    apply Qle_bool_iff in Hle. congruence.
  - intros Hlt. apply Rlt_Qlt in Hlt.
    destruct (Qle_bool ((x - m) * (x - m)) (3 * 3 * var)) eqn:Hb; [|reflexivity].
    apply Qle_bool_iff in Hb. exfalso. now apply (Qlt_not_le _ _ Hlt).
Qed.

(** [std == 0] is [var == 0]. *)
Lemma std_zero_iff (var : Q) :
  (0 <= var)%Q -> (sqrt (Q2R var) = 0 <-> (var == 0)%Q).
Proof.
  intros Hvar.
  assert (Q2R 0 = 0) as E0 by (unfold Q2R; simpl; field).
  split.
  - intros Hs. apply eqR_Qeq. rewrite E0. apply sqrt_eq_0; [|assumption].
    rewrite <- E0. now apply Qle_Rle.
  - intros Hz. rewrite (Qeq_eqR _ _ Hz), E0. apply sqrt_0.
Qed.

End ZScoreOverReals.

Section Consistency.

Import QualityMetrics.
Import Reals Qreals.

Lemma Qsum_nonneg (l : list Q) : Forall (fun x => 0 <= x) l -> 0 <= Qsum l.
Proof.
  induction 1 as [|x r Hx Hr IH]; simpl; [apply Qle_refl|].
  replace 0 with (0 + 0) by reflexivity. now apply Qplus_le_compat.
Qed.

Lemma sample_variance_nonneg (l : list Q) :
  (2 <= List.length l)%nat -> 0 <= sample_variance l.
Proof.
  intros Hn. unfold sample_variance. apply Qdiv_nonneg.
  - apply Qsum_nonneg. apply Forall_forall. intros y Hy.
    apply in_map_iff in Hy. destruct Hy as [x [<- _]].
    set (e := x - mean l). clearbody e. Lqa.nra.
  - assert (inject_Z 2 <= Qlen l) as H2
        by (unfold Qlen; rewrite <- Zle_Qle; lia).
    change (inject_Z 2) with 2 in H2. Lqa.lra.
Qed.


End Consistency.

(* ================================================================== *)
(** * The statements on the concrete tables *)

Section Examples.

Import DataValidator QualityMetrics.
Local Open Scope string_scope.

(** C4 on the temperature column of [three_days]. *)
Lemma C4_validation_counts_partition_witness :
  well_formed three_days = true
  /\ exists r,
       lookup "TEMPERATURA MEDIA, DIARIA (AUT)(°C)"
              (validate_physical_limits three_days) = Some r
       /\ (valid_count r + invalid_count r + null_count r = total_count r)%nat
       /\ total_count r = len three_days
       /\ valid_count r = count (in_range (-50) 60) temperature
       /\ invalid_count r = count (out_of_range (-50) 60) temperature
       /\ null_count r = count (@isna Q) temperature.
Proof.
  split; [reflexivity|].
  apply (C4_validation_counts_partition
           three_days "TEMPERATURA MEDIA, DIARIA (AUT)(°C)" temperature (-50) 60).
  - reflexivity.
  - left. reflexivity.
  - discriminate.
  - reflexivity.
Defined.

(** C9 on the rain column of [seven_days]. *)
Lemma C9_consecutive_null_runs_witness :
  well_formed seven_days = true
  /\ exists mp,
       In ("PRECIPITACAO TOTAL, DIARIO (AUT)(mm)", mp)
          (detect_missing_data_patterns seven_days)
       /\ mp_null_count mp = 4%nat
       /\ total_length (consecutive_nulls mp) = mp_null_count mp.
Proof.
  split; [reflexivity|].
  destruct (C9_consecutive_null_runs
              seven_days "PRECIPITACAO TOTAL, DIARIO (AUT)(mm)" rain)
    as [(mp & Hin & Hcount & _ & _ & _ & Hsum & _) _].
  - reflexivity.
  - left. reflexivity.
  - discriminate.
  - exists mp. split; [exact Hin|]. split; [exact Hcount|exact Hsum].
Defined.

(** C1 on the temperature column of [three_days]. *)
Lemma C1_quality_index_formula_witness :
  let self := App.metrics_calc three_days in
  (0 < len (df self))%nat
  /\ exists qi self' e,
       calculate_quality_index self None = Some (qi, self')
       /\ lookup "TEMPERATURA MEDIA, DIARIA (AUT)(°C)" qi = Some e
       /\ completeness_score e
          == clamp (completeness_percentage (completeness_of 3 temperature))
       /\ validity_score e
          == clamp (validity_percentage
                      (validity_of (validate_column 3 temperature (-50) 60)))
       /\ consistency_score e
          == clamp (consistency_percentage (consistency_of temperature))
       /\ quality_index e ==
            completeness_score e * (4 # 10) + validity_score e * (4 # 10)
            + consistency_score e * (2 # 10).
Proof.
  intros self. split; [vm_compute; lia|].
  eapply (C1_quality_index_formula self None
            "TEMPERATURA MEDIA, DIARIA (AUT)(°C)").
  - vm_compute; lia.
  - reflexivity.
  - reflexivity.
  - reflexivity.
  - reflexivity.
  - reflexivity.
Defined.

(** C10 on the radiation column of [unranged_table]. *)
Lemma C10_unranged_variable_witness :
  well_formed unranged_table = true
  /\ lookup "RADIACAO GLOBAL (KJ/m2)" Config.PHYSICAL_LIMITS = None
  /\ lookup "RADIACAO GLOBAL (KJ/m2)" (validate_physical_limits unranged_table)
     = None.
Proof.
  split; [reflexivity|]. split; [reflexivity|].
  apply (C10_unranged_variable_is_scored_with_zero_validity
           unranged_table "RADIACAO GLOBAL (KJ/m2)" radiation).
  - reflexivity.
  - left. reflexivity.
  - discriminate.
  - vm_compute; lia.
  - reflexivity.
Defined.

(** C2 (amended) on the wind column of [three_days]. *)
Lemma C2_variable_without_data_witness :
  well_formed three_days = true
  /\ count (@notna Q) no_wind = 0%nat
  /\ exists o self',
       get_overall_quality_index (App.metrics_calc three_days) = Some (o, self')
       /\ variable_count o = List.length (variable_names three_days).
Proof.
  split; [reflexivity|]. split; [reflexivity|].
  destruct (C2_variable_without_data_scores_zero_and_is_averaged
              three_days "VENTO, VELOCIDADE MEDIA DIARIA (AUT)(m/s)" no_wind)
    as (completeness & consistency & qi & self' & c & k & e & o & H).
  - reflexivity.
  - right. left. reflexivity.
  - discriminate.
  - vm_compute; lia.
  - reflexivity.
  - exists o, self'. split; apply H.
Defined.

(** C2 as stated fails: with a complete, valid temperature series and a
    wind series without values, the overall index is 50 over 2 variables,
    not the 100 of the mean over the variables that have data. *)
Lemma C2_variable_without_data_is_not_excluded :
  exists o self',
    get_overall_quality_index (App.metrics_calc three_days) = Some (o, self')
    /\ variable_count o = 2%nat
    /\ overall_quality_index o == 50
    /\ overall_excluding_empty_variables three_days (metrics self') == 100
    /\ ~ overall_quality_index o
         == overall_excluding_empty_variables three_days (metrics self').
Proof.
  eexists. eexists. split; [reflexivity|].
  split; [reflexivity|]. split; [reflexivity|]. split; [reflexivity|].
  intros H. vm_compute in H. discriminate H.
Qed.


End Examples.

Section ElevenValues.

Import QualityMetrics.
Import Reals Qreals.


End ElevenValues.

(* ================================================================== *)
(** * Further properties: the row indices a mask selects *)

Section MaskIndices.

Lemma enumerate_from_In {A} (k i : nat) (x : A) (l : list A) :
  In (i, x) (enumerate_from k l)
  <-> (k <= i)%nat /\ nth_error l (i - k) = Some x.
Proof.
  revert k. induction l as [|y r IH]; intros k; simpl.
  - split; [contradiction|]. intros [_ H]. now destruct (i - k)%nat.
  - rewrite IH. split.
    + intros [Heq|[Hle Hn]].
      * inversion Heq; subst. split; [lia|]. now rewrite Nat.sub_diag.
      * split; [lia|]. replace (i - k)%nat with (S (i - S k)) by lia. exact Hn.
    + intros [Hle Hn]. destruct (Nat.eq_dec i k) as [->|Hne].
      * rewrite Nat.sub_diag in Hn. simpl in Hn. inversion Hn. now left.
      * right. split; [lia|].
        replace (i - k)%nat with (S (i - S k)) in Hn by lia. exact Hn.
Qed.

Lemma enumerate_from_fst_sorted {A} (k : nat) (l : list A) (p : nat * A -> bool) :
  StronglySorted lt (map fst (filter p (enumerate_from k l)))
  /\ Forall (fun i => (k <= i)%nat) (map fst (filter p (enumerate_from k l))).
Proof.
  revert k. induction l as [|y r IH]; intros k; simpl.
  - split; constructor.
  - destruct (IH (S k)) as [Hs Hf].
    assert (Forall (fun i => (k <= i)%nat)
                   (map fst (filter p (enumerate_from (S k) r)))) as Hf'.
    { eapply Forall_impl; [|exact Hf]. intros a Ha. simpl in Ha. lia. }
    destruct (p (k, y)); simpl.
    + split.
      * constructor; [assumption|].
        eapply Forall_impl; [|exact Hf]. intros a Ha. simpl in Ha. lia.
      * constructor; [lia|assumption].
    + split; assumption.
Qed.

Lemma true_indices_In (m : list kbool) (i : nat) :
  In i (true_indices m) <-> nth_error m i = Some (Some true).
Proof.
  unfold true_indices, enumerate. rewrite in_map_iff. split.
  - intros [[j b] [Hj Hin]]. simpl in Hj. subst j.
    apply filter_In in Hin. destruct Hin as [Hin Hb]. simpl in Hb.
    apply enumerate_from_In in Hin. destruct Hin as [_ Hn].
    rewrite Nat.sub_0_r in Hn.
    destruct b as [[|]|]; try discriminate. exact Hn.
  - intros Hn. exists (i, Some true). split; [reflexivity|].
    apply filter_In. split; [|reflexivity].
    apply enumerate_from_In. split; [lia|]. now rewrite Nat.sub_0_r.
Qed.

Lemma true_indices_sorted (m : list kbool) : StronglySorted lt (true_indices m).
Proof. apply enumerate_from_fst_sorted. Qed.

Lemma true_indices_length (m : list kbool) :
  List.length (true_indices m) = mask_sum m.
Proof.
  unfold true_indices, mask_sum, enumerate. rewrite length_map.
  generalize 0%nat. induction m as [|b r IH]; intros k; simpl; [reflexivity|].
  destruct b as [[|]|]; simpl; now rewrite IH.
Qed.

Lemma nth_error_map_some {A B} (f : A -> B) (l : list A) (i : nat) (b : B) :
  nth_error (map f l) i = Some b <-> exists a, nth_error l i = Some a /\ f a = b.
Proof.
  rewrite nth_error_map. destruct (nth_error l i) as [a|]; simpl.
  - split.
    + intros H. inversion H. now exists a.
    + intros [a' [Ha Hf]]. inversion Ha; subst. reflexivity.
  - split; [discriminate|]. intros [a [Ha _]]. discriminate.
Qed.

End MaskIndices.

(* ================================================================== *)
(** * Further properties: physical limits *)

Section PhysicalLimitsFurther.

Import DataValidator QualityMetrics.

Lemma out_of_range_iff (lo hi : Q) (c : cell) :
  out_of_range lo hi c = true
  <-> exists x, c = Some x /\ ~ (lo <= x /\ x <= hi).
Proof.
  destruct c as [x|]; simpl.
  - rewrite negb_true_iff. split.
    + intros Hb. exists x. split; [reflexivity|]. intros [H1 H2].
      apply Qle_bool_iff in H1, H2. rewrite H1, H2 in Hb. discriminate.
    + intros [y [Hy Hn]]. inversion Hy; subst y.
      destruct (Qle_bool lo x) eqn:E1; [|reflexivity].
      destruct (Qle_bool x hi) eqn:E2; [|reflexivity].
      exfalso. apply Hn. split; now apply Qle_bool_iff.
  - split; [discriminate|]. intros [x [Hx _]]. discriminate.
Qed.

Lemma invalid_mask_entry (lo hi : Q) (s : list cell) :
  map (fun p => kand (knot (fst p)) (knot (snd p)))
      (combine (map (fun c => kand (ge_mask c lo) (le_mask c hi)) s)
               (map (fun c : cell => Some (isna c)) s))
  = map (fun c => kand (knot (kand (ge_mask c lo) (le_mask c hi)))
                       (knot (Some (isna c)))) s.
Proof. now rewrite combine_map_same, map_map. Qed.

(** X1: the [invalid_indices] of a validation result list, in increasing
    order and without repetition, exactly the rows whose value is present
    and outside the inclusive range; there are [invalid_count] of them. *)
Theorem X1_invalid_indices_are_the_out_of_range_rows
        (d : DataFrame) (col : string) (s : list cell) (lo hi : Q)
        (Hwf : well_formed d = true)
        (Hcol : In (col, s) (variables d))
        (Hname : col <> "Data"%string)
        (Hlim : lookup col Config.PHYSICAL_LIMITS = Some (lo, hi)) :
  exists r,
    lookup col (validate_physical_limits d) = Some r
    /\ (forall i,
           In i (invalid_indices r)
           <-> exists x, nth_error s i = Some (Some x) /\ ~ (lo <= x /\ x <= hi))
    /\ StronglySorted lt (invalid_indices r)
    /\ List.length (invalid_indices r) = invalid_count r.
Proof.
  exists (validate_column (len d) s lo hi).
  split.
  { rewrite validate_physical_limits_lookup by assumption.
    destruct (String.eqb_spec col "Data"); [contradiction|].
    rewrite (lookup_in col s (variables d) (well_formed_NoDup d Hwf) Hcol).
    now rewrite Hlim. }
  unfold validate_column; simpl.
  split.
  { intros i. rewrite true_indices_In, invalid_mask_entry.
    rewrite nth_error_map_some. split.
    - intros [c [Hc Hk]].
      destruct c as [x|]; simpl in Hk.
      + exists x. split; [assumption|].
        intros [H1 H2]. apply Qle_bool_iff in H1, H2.
        unfold ge_mask, le_mask in Hk. simpl in Hk. rewrite H1, H2 in Hk.
        discriminate.
      + discriminate.
    - intros [x [Hx Hn]]. exists (Some x). split; [assumption|].
      unfold ge_mask, le_mask. simpl.
      destruct (Qle_bool lo x) eqn:E1; [|reflexivity].
      destruct (Qle_bool x hi) eqn:E2; [|reflexivity].
      exfalso. apply Hn. split; now apply Qle_bool_iff. }
  split; [apply true_indices_sorted|apply true_indices_length].
Qed.

(** X2: [validate_physical_limits] has one entry per column that is not
    the date column and has a configured range, in column order, and none
    for any other column. *)
Theorem X2_validated_columns_are_the_ranged_ones (d : DataFrame) :
  map fst (validate_physical_limits d)
  = filter (fun c => negb (String.eqb c "Data"%string)
                     && match lookup c Config.PHYSICAL_LIMITS with
                        | Some _ => true
                        | None => false
                        end)
           (map fst (variables d)).
Proof.
  unfold validate_physical_limits.
  generalize (len d) as n. intros n.
  generalize Config.PHYSICAL_LIMITS as limits. intros limits.
  induction (variables d) as [|[k s] r IH]; simpl; [reflexivity|].
  destruct (String.eqb k "Data"); simpl; [assumption|].
  destruct (lookup k limits) as [[lo hi]|]; simpl; [now rewrite IH|assumption].
Qed.

Lemma Qnat_plus (a b : nat) : Qnat (a + b) == Qnat a + Qnat b.
Proof.
  unfold Qnat. rewrite Nat2Z.inj_add, inject_Z_plus. reflexivity.
Qed.

Lemma Qnat_nonzero (n : nat) : (0 < n)%nat -> ~ Qnat n == 0.
Proof. intros H E. pose proof (Qnat_pos n H) as Hp. rewrite E in Hp. lra. Qed.

Lemma Qdiv_le_anti (v n t : Q) : 0 <= v -> 0 < n -> n <= t -> v / t <= v / n.
Proof.
  intros Hv Hn Ht. apply Qle_shift_div_r; [lra|].
  assert (v / n * t == v * t / n) as E by (field; lra).
  rewrite E. apply Qle_shift_div_l; [assumption|]. nra.
Qed.

(** X3: the validator's [valid_percentage] (valid rows over all rows) is
    the metrics' validity (valid over non-null rows) scaled by the
    completeness of the column, so it never exceeds the validity. *)
Theorem X3_valid_percentage_is_validity_times_completeness
        (d : DataFrame) (col : string) (s : list cell)
        (r : ValidationResult)
        (Hwf : well_formed d = true)
        (Hcol : In (col, s) (variables d))
        (Hrows : (0 < len d)%nat)
        (Hr : lookup col (validate_physical_limits d) = Some r) :
  valid_percentage r
  == validity_percentage (validity_of r)
     * completeness_percentage (completeness_of (len d) s) / 100
  /\ valid_percentage r <= validity_percentage (validity_of r).
Proof.
  rewrite validate_physical_limits_lookup in Hr by assumption.
  destruct (String.eqb col "Data"); [discriminate|].
  rewrite (lookup_in col s (variables d) (well_formed_NoDup d Hwf) Hcol) in Hr.
  destruct (lookup col Config.PHYSICAL_LIMITS) as [[lo' hi']|]; [|discriminate].
  injection Hr as Er. rename lo' into lo, hi' into hi.
  pose proof (well_formed_length d col s Hwf Hcol) as Hlen.
  pose proof (range_partition lo hi s) as Hp.
  pose proof (count_isna_notna s) as Hq.
  assert (valid_count r = count (in_range lo hi) s) as Hv
      by (rewrite <- Er; unfold validate_column; simpl; apply valid_mask_sum).
  assert (invalid_count r = count (out_of_range lo hi) s) as Hi
      by (rewrite <- Er; unfold validate_column; simpl; apply invalid_mask_sum).
  assert (valid_percentage r == (Qnat (valid_count r) / Qnat (len d)) * 100) as E1
      by (rewrite <- Er; unfold validate_column; simpl; reflexivity).
  clear Er.
  assert (completeness_percentage (completeness_of (len d) s)
          == (Qnat (valid_count r + invalid_count r) / Qnat (len d)) * 100) as E2.
  { simpl completeness_percentage. fold (count (@notna Q) s).
    replace (count (@notna Q) s) with (valid_count r + invalid_count r)%nat by lia.
    reflexivity. }
  pose proof (Qnat_nonzero (len d) Hrows) as HT.
  pose proof (Qnat_pos (len d) Hrows) as HTpos.
  pose proof (Qnat_nonneg (valid_count r)) as HV0.
  pose proof (Qnat_nonneg (invalid_count r)) as HI0.
  rewrite E1, E2. unfold validity_of; cbn [validity_percentage].
  destruct (Nat.ltb_spec 0 (valid_count r + invalid_count r)) as [Hpos|Hzero].
  - pose proof (Qnat_nonzero _ Hpos) as HN.
    pose proof (Qnat_pos _ Hpos) as HNpos.
    split; [field; split; assumption|].
    apply Qmult_le_compat_r; [|discriminate].
    apply Qdiv_le_anti; [assumption|assumption|]. apply Qnat_le. lia.
  - assert (valid_count r = 0%nat) as -> by lia.
    change (Qnat 0) with 0. split; [field; assumption|].
    unfold Qdiv. rewrite !Qmult_0_l. apply Qle_refl.
Qed.

End PhysicalLimitsFurther.

(* ================================================================== *)
(** * Further properties: missing data *)

Section MissingDataFurther.

Import DataValidator QualityMetrics.
Local Open Scope nat_scope.

Variable dates : list datecell.

(** After the rows of the prefix [p], every null row of [p] lies in a
    closed run or at or after the start of the open one. *)
Lemma scan_covers_prefix (p : list bool) :
  let st := fold_left (scan_step dates) (enumerate p) (None, []) in
  (forall i, nth i p false = true ->
             (exists r, In r (snd st) /\ run_start r <= i <= run_end r)
             \/ (exists s, fst st = Some s /\ s <= i))
  /\ (forall s, fst st = Some s -> s < List.length p).
Proof.
  induction p as [|b p IH] using rev_ind.
  - simpl. split; [intros [|i] H; discriminate|discriminate].
  - unfold enumerate in *. rewrite enumerate_from_app, fold_left_app. simpl.
    cbv zeta in IH.
    destruct (fold_left (scan_step dates) (enumerate_from 0 p) (None, []))
      as [start runs]. simpl in IH. destruct IH as [Hcov Hlt].
    rewrite length_app. simpl List.length.
    assert (forall i, nth i (p ++ [b]) false = true ->
                      i < List.length p /\ nth i p false = true
                      \/ i = List.length p /\ b = true) as Hsplit.
    { intros i Hi. destruct (Nat.lt_ge_cases i (List.length p)) as [Hl|Hg].
      - left. split; [assumption|]. now rewrite app_nth1 in Hi.
      - right. destruct (Nat.eq_dec i (List.length p)) as [->|Hne].
        + split; [reflexivity|]. now rewrite nth_middle in Hi.
        + rewrite nth_overflow in Hi; [discriminate|].
          rewrite length_app. simpl. lia. }
    destruct start as [s|]; destruct b; simpl.
    + split; [|intros s' E; injection E as <-; specialize (Hlt s eq_refl); lia].
      intros i Hi. destruct (Hsplit i Hi) as [[Hl Hn]|[-> _]].
      * destruct (Hcov i Hn) as [Hr|[s' [E Hs']]]; [now left|].
        right. exists s'. now split.
      * right. exists s. split; [reflexivity|].
        specialize (Hlt s eq_refl). lia.
    + split; [|discriminate].
      intros i Hi. destruct (Hsplit i Hi) as [[Hl Hn]|[_ E]]; [|discriminate].
      left. destruct (Hcov i Hn) as [[r [Hr Hb]]|[s' [E Hs']]].
      * exists r. split; [apply in_or_app; now left|assumption].
      * inversion E; subst s'.
        eexists. split; [apply in_or_app; right; left; reflexivity|].
        simpl. lia.
    + split; [|intros s' E; inversion E; lia].
      intros i Hi. destruct (Hsplit i Hi) as [[Hl Hn]|[-> _]].
      * destruct (Hcov i Hn) as [Hr|[s' [E _]]]; [now left|discriminate].
      * right. exists (List.length p). now split.
    + split; [|discriminate].
      intros i Hi. destruct (Hsplit i Hi) as [[Hl Hn]|[_ E]]; [|discriminate].
      destruct (Hcov i Hn) as [Hr|[s' [E _]]]; [now left|discriminate].
Qed.

Lemma scan_null_runs_cover (m : list bool) (i : nat) :
  nth i m false = true ->
  exists r, In r (scan_null_runs dates (List.length m) m)
            /\ run_start r <= i <= run_end r.
Proof.
  intros Hi. unfold scan_null_runs.
  pose proof (scan_covers_prefix m) as H. cbv zeta in H.
  destruct (fold_left (scan_step dates) (enumerate m) (None, []))
    as [start runs]. simpl in H. destruct H as [Hcov Hlt].
  assert (i < List.length m) as Hil.
  { destruct (Nat.lt_ge_cases i (List.length m)) as [Hl|Hg]; [assumption|].
    rewrite nth_overflow in Hi by assumption. discriminate. }
  destruct (Hcov i Hi) as [[r [Hr Hb]]|[s [E Hs]]].
  - exists r. split; [|assumption].
    destruct start; [apply in_or_app; now left|assumption].
  - subst start. eexists. split; [apply in_or_app; right; left; reflexivity|].
    simpl. lia.
Qed.

Lemma disjoint_runs_unique (rs : list NullRun) :
  ordered_disjoint rs ->
  Forall (fun r => run_start r <= run_end r) rs ->
  forall r1 r2 i,
    In r1 rs -> In r2 rs ->
    run_start r1 <= i <= run_end r1 -> run_start r2 <= i <= run_end r2 ->
    r1 = r2.
Proof.
  unfold ordered_disjoint.
  induction 1 as [|a rs Hs IH Ha]; intros Hle r1 r2 i H1 H2 B1 B2;
    [contradiction|].
  inversion Hle as [|? ? Hla Hlrs]; subst.
  rewrite Forall_forall in Ha.
  destruct H1 as [<-|H1], H2 as [<-|H2].
  - reflexivity.
  - specialize (Ha _ H2). simpl in Ha. lia.
  - specialize (Ha _ H1). simpl in Ha. lia.
  - now apply (IH Hlrs r1 r2 i).
Qed.

Lemma isna_mask_nth (s : list cell) (i : nat) :
  nth i (map (@isna Q) s) false = true <-> nth_error s i = Some None.
Proof.
  revert i. induction s as [|c r IH]; intros [|i]; simpl;
    try (split; discriminate).
  - destruct c; simpl; split; try discriminate; reflexivity.
  - apply IH.
Qed.

End MissingDataFurther.

(** X4: in the pattern [detect_missing_data_patterns] reports for a
    variable, a row is null exactly when it lies in one of the runs, and
    then it lies in only one. *)
Theorem X4_null_rows_are_the_rows_of_the_runs
        (d : DataFrame) (col : string) (s : list cell)
        (Hwf : well_formed d = true)
        (Hcol : In (col, s) (variables d))
        (Hname : col <> "Data"%string) :
  exists mp,
    In (col, mp) (DataValidator.detect_missing_data_patterns d)
    /\ (forall i,
           nth_error s i = Some None
           <-> exists r, In r (DataValidator.consecutive_nulls mp)
                         /\ (DataValidator.run_start r <= i
                             <= DataValidator.run_end r)%nat)
    /\ (forall r1 r2 i,
           In r1 (DataValidator.consecutive_nulls mp) ->
           In r2 (DataValidator.consecutive_nulls mp) ->
           (DataValidator.run_start r1 <= i <= DataValidator.run_end r1)%nat ->
           (DataValidator.run_start r2 <= i <= DataValidator.run_end r2)%nat ->
           r1 = r2).
Proof.
  pose proof (well_formed_length d col s Hwf Hcol) as Hlen.
  exists (DataValidator.missing_pattern (Data d) (len d) s).
  split.
  { unfold DataValidator.detect_missing_data_patterns.
    apply in_flat_map. exists (col, s). split; [assumption|]. simpl.
    destruct (String.eqb_spec col "Data"); [contradiction|]. now left. }
  rewrite <- Hlen.
  destruct (missing_pattern_spec (Data d) s) as (H1 & H2 & H3 & H4 & H5).
  split.
  - intros i. rewrite <- isna_mask_nth. split.
    + intros Hi. unfold DataValidator.missing_pattern.
      destruct (Nat.eqb_spec
                  (DataValidator.null_count_of (map (@isna Q) s)) 0) as [Hz|Hnz].
      * rewrite (no_null_no_true _ i Hz) in Hi. discriminate.
      * simpl.
        pose proof (scan_null_runs_cover (Data d) (map (@isna Q) s) i Hi) as Hc.
        rewrite length_map in Hc. exact Hc.
    + intros [r [Hr Hb]]. rewrite Forall_forall in H2.
      destruct (H2 r Hr) as (_ & _ & Hn & _). now apply Hn.
  - apply disjoint_runs_unique; [assumption|].
    eapply Forall_impl; [|exact H2]. intros r (Hb & _). lia.
Qed.

Lemma completeness_plus_null_percentage
      (d : DataFrame) (col : string) (s : list cell)
      (Hwf : well_formed d = true)
      (Hcol : In (col, s) (variables d))
      (Hrows : (0 < len d)%nat) :
  QualityMetrics.completeness_percentage
    (QualityMetrics.completeness_of (len d) s)
  + DataValidator.null_percentage
      (DataValidator.missing_pattern (Data d) (len d) s)
  == 100.
Proof.
  pose proof (well_formed_length d col s Hwf Hcol) as Hlen.
  pose proof (count_isna_notna s) as Hq.
  pose proof (null_count_of_isna s) as Hn.
  pose proof (Qnat_nonzero (len d) Hrows) as HT.
  unfold DataValidator.missing_pattern. rewrite Hn.
  simpl QualityMetrics.completeness_percentage.
  fold (count (@notna Q) s).
  assert (Qnat (count (@notna Q) s) + Qnat (count (@isna Q) s) == Qnat (len d)) as E.
  { rewrite <- Qnat_plus. replace (count (@notna Q) s + count (@isna Q) s)%nat
      with (len d) by lia. reflexivity. }
  destruct (Nat.eqb_spec (count (@isna Q) s) 0) as [Hz|Hnz]; simpl.
  - rewrite Hz in E. change (Qnat 0) with 0 in E.
    rewrite Qplus_0_r in E. rewrite E. field. assumption.
  - assert (Qnat (count (@notna Q) s) == Qnat (len d) - Qnat (count (@isna Q) s))
      as -> by lra.
    field. assumption.
Qed.

(** X5: for a variable of a table with at least one row, the completeness
    the metrics report and the [null_percentage] the validator reports add up
    to 100. *)
Theorem X5_completeness_and_null_percentage_sum_to_100
        (d : DataFrame) (col : string) (s : list cell)
        (Hwf : well_formed d = true)
        (Hcol : In (col, s) (variables d))
        (Hname : col <> "Data"%string)
        (Hrows : (0 < len d)%nat) :
  exists completeness c mp,
    QualityMetrics.calculate_completeness (App.metrics_calc d) None
    = Some completeness
    /\ lookup col completeness = Some c
    /\ In (col, mp) (DataValidator.detect_missing_data_patterns d)
    /\ QualityMetrics.completeness_percentage c
       + DataValidator.null_percentage mp == 100.
Proof.
  destruct (all_columns_computed (App.metrics_calc d))
    as (completeness & consistency & H1 & H2 & _).
  destruct (column_entries (App.metrics_calc d) col s completeness consistency
                           Hwf Hcol Hname H1 H2) as [Lc _].
  exists completeness, (QualityMetrics.completeness_of (len d) s),
         (DataValidator.missing_pattern (Data d) (len d) s).
  split; [exact H1|]. split; [exact Lc|]. split.
  - unfold DataValidator.detect_missing_data_patterns.
    apply in_flat_map. exists (col, s). split; [assumption|]. simpl.
    destruct (String.eqb_spec col "Data"); [contradiction|]. now left.
  - now apply (completeness_plus_null_percentage d col s).
Qed.

(* ================================================================== *)
(** * Further properties: the date sequence *)

Section DateSequenceFurther.

Import DataValidator.
Local Open Scope Z_scope.

Lemma diff_from_nth (prev : Z) (l : list Z) (i : nat) :
  nth_error (diff_from prev l) i
  = match nth_error l i with
    | Some x => Some (Some (x - nth i (prev :: l) 0))
    | None => None
    end.
Proof.
  revert prev i. induction l as [|a l IH]; intros prev [|i]; simpl;
    try reflexivity.
  rewrite IH. destruct (nth_error l i); [|reflexivity].
  destruct i; reflexivity.
Qed.

(** The entries of [dates.diff().dt.days]: NaN first, then the difference
    to the previous date. *)
Lemma diff_days_nth (l : list Z) (i : nat) (x : option Z) :
  nth_error (diff_days l) i = Some x
  <-> (i = 0%nat /\ l <> [] /\ x = None)
      \/ (exists j, i = S j /\ (S j < List.length l)%nat
                    /\ x = Some (nth (S j) l 0 - nth j l 0)).
Proof.
  destruct l as [|a l].
  - cbn [diff_days]. destruct i; cbn [nth_error]; split; try discriminate.
    + intros [(_ & H & _)|(j & E & _)]; [now contradiction H|discriminate].
    + intros [(E & _)|(j & _ & H & _)]; [discriminate|simpl in H; lia].
  - cbn [diff_days]. destruct i as [|i]; cbn [nth_error].
    + split.
      * intros H. injection H as <-. left. repeat split. discriminate.
      * intros [(_ & _ & ->)|(j & E & _)]; [reflexivity|discriminate].
    + rewrite diff_from_nth. split.
      * destruct (nth_error l i) as [y|] eqn:E; [|discriminate].
        intros H. injection H as <-. right. exists i.
        assert (i < List.length l)%nat as Hi
            by (apply nth_error_Some; congruence).
        split; [reflexivity|]. split; [cbn [List.length]; lia|].
        change (nth (S i) (a :: l) 0) with (nth i l 0).
        now rewrite (nth_error_nth l i 0 E).
      * intros [(E & _)|(j & E & Hlt & ->)]; [discriminate|].
        injection E as <-. cbn [List.length] in Hlt.
        destruct (nth_error l i) as [y|] eqn:E.
        -- change (nth (S i) (a :: l) 0) with (nth i l 0).
           now rewrite (nth_error_nth l i 0 E).
        -- apply nth_error_None in E. lia.
Qed.

(** The gaps found: one per date whose distance to the previous date is
    neither 0 nor 1 day. *)
Lemma find_gaps_In (dates : list Z) (g : Gap) :
  In g (find_gaps dates (diff_days dates))
  <-> exists i,
        (S i < List.length dates)%nat
        /\ gap_date g = nth (S i) dates 0
        /\ gap_days g = nth (S i) dates 0 - nth i dates 0
        /\ gap_days g <> 1 /\ gap_days g <> 0.
Proof.
  unfold find_gaps. rewrite in_flat_map. split.
  - intros [[i x] [Hin Hg]]. simpl in Hg.
    apply enumerate_from_In in Hin. destruct Hin as [_ Hn].
    rewrite Nat.sub_0_r in Hn.
    destruct x as [v|]; [|contradiction].
    apply diff_days_nth in Hn.
    destruct Hn as [(_ & _ & E)|(j & -> & Hlt & E)]; [discriminate|].
    injection E as ->.
    destruct (Z.eqb_spec (nth (S j) dates 0 - nth j dates 0) 1) as [E1|N1];
      simpl in Hg; [contradiction|].
    destruct (Z.eqb_spec (nth (S j) dates 0 - nth j dates 0) 0) as [E0|N0];
      simpl in Hg; [contradiction|].
    destruct Hg as [<-|[]]. exists j. simpl. repeat split; assumption.
  - intros (i & Hlt & Hd & Hv & N1 & N0).
    exists (S i, Some (nth (S i) dates 0 - nth i dates 0)). split.
    + apply enumerate_from_In. split; [lia|]. rewrite Nat.sub_0_r.
      apply diff_days_nth. right. exists i. repeat split. assumption.
    + simpl. rewrite <- Hv.
      destruct (Z.eqb_spec (gap_days g) 1); [contradiction|].
      destruct (Z.eqb_spec (gap_days g) 0); [contradiction|].
      simpl. left. destruct g as [gd gv]. simpl in *. now subst.
Qed.

(** The loop over the differences, from the date [prev] at position
    [length pre] on. *)
Lemma find_gaps_from (pre : list Z) (prev : Z) (l : list Z) :
  flat_map
    (fun p : nat * option Z =>
       match snd p with
       | Some v =>
           if negb (v =? 1) && negb (v =? 0)
           then [ {| gap_date := nth (fst p) (pre ++ prev :: l) 0; gap_days := v |} ]
           else []
       | None => []
       end)
    (enumerate_from (S (List.length pre)) (diff_from prev l))
  = map (gap_at (pre ++ prev :: l))
        (filter (fun i =>
                   negb (nth (S i) (pre ++ prev :: l) 0
                         - nth i (pre ++ prev :: l) 0 =? 1)
                   && negb (nth (S i) (pre ++ prev :: l) 0
                            - nth i (pre ++ prev :: l) 0 =? 0))
                (seq (List.length pre) (List.length l))).
Proof.
  revert pre prev. induction l as [|x r IH]; intros pre prev; [reflexivity|].
  cbn [diff_from enumerate_from flat_map List.length seq filter snd fst].
  assert (nth (List.length pre) (pre ++ prev :: x :: r) 0 = prev) as Ek
      by (rewrite app_nth2, Nat.sub_diag by lia; reflexivity).
  assert (nth (S (List.length pre)) (pre ++ prev :: x :: r) 0 = x) as Ek'.
  { rewrite app_nth2 by lia.
    replace (S (List.length pre) - List.length pre)%nat with 1%nat by lia.
    reflexivity. }
  rewrite Ek, Ek'.
  specialize (IH (pre ++ [prev]) x).
  rewrite length_app in IH. cbn [List.length] in IH.
  rewrite Nat.add_1_r in IH. rewrite <- app_assoc in IH. cbn [app] in IH.
  rewrite IH.
  destruct (negb (x - prev =? 1) && negb (x - prev =? 0)); [|reflexivity].
  cbn [app map]. unfold gap_at at 2. now rewrite Ek, Ek'.
Qed.

(** The list of gaps, entry by entry. *)
Lemma find_gaps_list (dates : list Z) :
  find_gaps dates (diff_days dates) = map (gap_at dates) (gap_steps dates).
Proof.
  destruct dates as [|a l]; [reflexivity|].
  unfold find_gaps, enumerate, gap_steps.
  replace (List.length (a :: l) - 1)%nat with (List.length l)
    by (cbn [List.length]; lia).
  cbn [diff_days enumerate_from flat_map snd app].
  apply (find_gaps_from [] a l).
Qed.

(** X6: with at least two non-null dates, the list of gaps
    [validate_date_sequence] reports has, in date order and once each, one
    entry for every step between consecutive non-null dates whose length is
    neither 0 nor 1 day (a backward step is a gap too), holding the later
    date and that signed length; [gap_count] is the number of such steps
    and [total_dates] and [actual_days] count the non-null dates. *)
Theorem X6_gaps_are_the_steps_other_than_0_or_1
        (d : DataFrame) (Hn : (2 <= List.length (dropna (Data d)))%nat) :
  let dates := dropna (Data d) in
  exists r,
    validate_date_sequence d = DateReport r
    /\ gaps r = map (gap_at dates) (gap_steps dates)
    /\ gap_count r = List.length (gap_steps dates)
    /\ (forall g,
           In g (gaps r)
           <-> exists i,
                 (S i < List.length dates)%nat
                 /\ gap_date g = nth (S i) dates 0
                 /\ gap_days g = nth (S i) dates 0 - nth i dates 0
                 /\ gap_days g <> 1 /\ gap_days g <> 0)
    /\ gap_count r = List.length (gaps r)
    /\ total_dates r = List.length dates
    /\ actual_days r = List.length dates.
Proof.
  intros dates. unfold validate_date_sequence. fold dates.
  destruct dates as [|a [|b l]] eqn:E; try (simpl in Hn; unfold dates in E;
    rewrite E in Hn; simpl in Hn; lia).
  eexists. split; [reflexivity|]. cbn [gaps gap_count total_dates actual_days].
  split; [apply find_gaps_list|].
  split; [now rewrite find_gaps_list, length_map|].
  split; [intros g; apply find_gaps_In|]. repeat split.
Qed.

Lemma strictly_increasing_tail (a : Z) (l : list Z) :
  strictly_increasing (a :: l) = true -> strictly_increasing l = true.
Proof.
  destruct l as [|b l]; [reflexivity|]. simpl.
  intros H. apply andb_prop in H. apply H.
Qed.

Lemma increasing_min (a : Z) (l : list Z) :
  strictly_increasing (a :: l) = true -> fold_left Z.min l a = a.
Proof.
  assert (forall l a c, c <= a -> strictly_increasing (a :: l) = true ->
                        fold_left Z.min l c = c) as H.
  { clear. induction l as [|b l IH]; intros a c Hc Hs; [reflexivity|].
    simpl in Hs. apply andb_prop in Hs. destruct Hs as [Hab Hs].
    apply Z.ltb_lt in Hab. simpl.
    rewrite Z.min_l by lia. apply (IH b); [lia|assumption]. }
  intros Hs. now apply (H l a a); [lia|].
Qed.

Lemma last_cons (b : Z) (l : list Z) (a : Z) : last (b :: l) a = last l b.
Proof.
  revert a b. induction l as [|c l IH]; intros a b; [reflexivity|].
  change (last (b :: c :: l) a) with (last (c :: l) a).
  now rewrite !IH.
Qed.

Lemma increasing_max (a : Z) (l : list Z) :
  strictly_increasing (a :: l) = true -> fold_left Z.max l a = last l a.
Proof.
  revert a. induction l as [|b l IH]; intros a Hs; [reflexivity|].
  simpl in Hs. apply andb_prop in Hs. destruct Hs as [Hab Hs].
  apply Z.ltb_lt in Hab. cbn [fold_left].
  rewrite Z.max_r by lia. rewrite (IH b Hs).
  now rewrite last_cons.
Qed.

Lemma increasing_span (a : Z) (l : list Z) :
  strictly_increasing (a :: l) = true ->
  Z.of_nat (List.length l) <= last l a - a.
Proof.
  revert a. induction l as [|b l IH]; intros a Hs; [simpl; lia|].
  simpl in Hs. apply andb_prop in Hs. destruct Hs as [Hab Hs].
  apply Z.ltb_lt in Hab. specialize (IH b Hs).
  rewrite last_cons. simpl List.length. lia.
Qed.

Lemma increasing_unit_steps (a : Z) (l : list Z) :
  strictly_increasing (a :: l) = true ->
  ((forall i, (S i < List.length (a :: l))%nat ->
              nth (S i) (a :: l) 0 - nth i (a :: l) 0 = 1)
   <-> last l a - a = Z.of_nat (List.length l)).
Proof.
  revert a. induction l as [|b l IH]; intros a Hs.
  - simpl. split; [lia|]. intros _ i Hi. lia.
  - pose proof Hs as Hs0.
    simpl in Hs. apply andb_prop in Hs. destruct Hs as [Hab Hs].
    apply Z.ltb_lt in Hab.
    pose proof (increasing_span b l Hs) as Hspan.
    rewrite last_cons.
    specialize (IH b Hs). split.
    + intros H.
      assert (b - a = 1) as H0 by (apply (H 0%nat); simpl; lia).
      assert (last l b - b = Z.of_nat (List.length l)) as H1.
      { apply IH. intros i Hi. apply (H (S i)). simpl in *. lia. }
      simpl List.length. lia.
    + intros H. simpl List.length in H.
      assert (b - a = 1) as H0 by lia.
      assert (last l b - b = Z.of_nat (List.length l)) as H1 by lia.
      intros [|i] Hi; [exact H0|].
      apply (proj2 IH H1 i). simpl in *. lia.
Qed.

(** X7: when the non-null dates go up strictly (no duplicate day),
    [date_range] is (first, last), [expected_days] is at least
    [actual_days], and no gap is reported exactly when the two are equal. *)
Theorem X7_no_gap_iff_expected_days_equal_actual_days
        (d : DataFrame)
        (Hn : (2 <= List.length (dropna (Data d)))%nat)
        (Hinc : strictly_increasing (dropna (Data d)) = true) :
  let dates := dropna (Data d) in
  exists r,
    validate_date_sequence d = DateReport r
    /\ date_range r = (hd 0 dates, last dates 0)
    /\ Z.of_nat (actual_days r) <= expected_days r
    /\ (gap_count r = 0%nat <-> expected_days r = Z.of_nat (actual_days r)).
Proof.
  intros dates. unfold validate_date_sequence. fold dates.
  fold dates in Hn, Hinc.
  destruct dates as [|a [|b l]] eqn:E; try (simpl in Hn; lia).
  eexists. split; [reflexivity|].
  cbn [date_range expected_days actual_days gap_count gaps].
  unfold dates_min, dates_max.
  set (l' := b :: l) in *. clearbody l'. clear E.
  assert (fold_left Z.min (a :: l') a = a) as Emin.
  { cbn [fold_left]. rewrite Z.min_id. now apply increasing_min. }
  assert (fold_left Z.max (a :: l') a = last l' a) as Emax.
  { cbn [fold_left]. rewrite Z.max_id. now apply increasing_max. }
  rewrite Emin, Emax.
  assert (last (a :: l') 0 = last l' a) as El by apply last_cons.
  pose proof (increasing_span a l' Hinc) as Hspan.
  split; [simpl hd; now rewrite El|].
  split; [simpl List.length; lia|].
  rewrite length_zero_iff_nil.
  pose proof (increasing_unit_steps a l' Hinc) as Hunit.
  split.
  - intros Hnil.
    assert (last l' a - a = Z.of_nat (List.length l')) as H.
    { apply Hunit. intros i Hi.
      destruct (Z.eq_dec (nth (S i) (a :: l') 0 - nth i (a :: l') 0) 1)
        as [E1|N1]; [assumption|exfalso].
      assert (In (mkGap (nth (S i) (a :: l') 0)
                        (nth (S i) (a :: l') 0 - nth i (a :: l') 0))
                 (find_gaps (a :: l') (diff_days (a :: l')))) as Hin.
      { apply find_gaps_In. exists i. cbn [gap_date gap_days].
        repeat split; try assumption.
        (* the dates go up at every step, so the step is not 0 *)
        intros E0.
        assert (forall (l0 : list Z) (c : Z) (k : nat),
                   strictly_increasing (c :: l0) = true ->
                   (S k < List.length (c :: l0))%nat ->
                   nth k (c :: l0) 0 < nth (S k) (c :: l0) 0) as Hstep.
        { clear. induction l0 as [|e l0 IH]; intros c k Hs Hk;
            [simpl in Hk; lia|].
          simpl in Hs. apply andb_prop in Hs. destruct Hs as [Hce Hs].
          apply Z.ltb_lt in Hce.
          destruct k as [|k]; [simpl; lia|].
          apply (IH e k Hs). simpl in *. lia. }
        specialize (Hstep l' a i Hinc Hi). lia. }
      rewrite Hnil in Hin. contradiction. }
    simpl List.length. lia.
  - intros Heq.
    assert (last l' a - a = Z.of_nat (List.length l')) as H
        by (simpl List.length in Heq; lia).
    destruct (find_gaps (a :: l') (diff_days (a :: l'))) as [|g gs] eqn:Eg;
      [reflexivity|exfalso].
    assert (In g (find_gaps (a :: l') (diff_days (a :: l')))) as Hin
        by (rewrite Eg; now left).
    apply find_gaps_In in Hin. destruct Hin as (i & Hi & _ & Hv & N1 & _).
    apply N1. rewrite Hv. now apply (proj2 Hunit H).
Qed.

End DateSequenceFurther.

(* ================================================================== *)
(** * Further properties: quantiles and the IQR detector *)

Section Quantiles.

Lemma insert_sorted_length (x : Q) (l : list Q) :
  List.length (insert_sorted x l) = S (List.length l).
Proof.
  induction l as [|y r IH]; simpl; [reflexivity|].
  destruct (Qle_bool x y); simpl; [reflexivity|now rewrite IH].
Qed.

Lemma sort_values_length (l : list Q) :
  List.length (sort_values l) = List.length l.
Proof.
  induction l as [|x r IH]; simpl; [reflexivity|].
  now rewrite insert_sorted_length, IH.
Qed.

Lemma insert_sorted_In (x y : Q) (l : list Q) :
  In y (insert_sorted x l) <-> y = x \/ In y l.
Proof.
  induction l as [|z r IH]; simpl; [intuition|].
  destruct (Qle_bool x z); simpl; [intuition|].
  rewrite IH. intuition.
Qed.

Lemma insert_sorted_sorted (x : Q) (l : list Q) :
  StronglySorted Qle l -> StronglySorted Qle (insert_sorted x l).
Proof.
  induction 1 as [|y r Hr IH Hy]; simpl.
  - repeat constructor.
  - destruct (Qle_bool x y) eqn:E.
    + apply Qle_bool_iff in E. constructor; [now constructor|].
      constructor; [assumption|].
      eapply Forall_impl; [|exact Hy]. intros z Hz. simpl in Hz. lra.
    + assert (y <= x) as Hyx.
      { apply Qlt_le_weak, Qnot_le_lt. intros H. apply Qle_bool_iff in H.
        congruence. }
      constructor; [assumption|].
      apply Forall_forall. intros z Hz. apply insert_sorted_In in Hz.
      destruct Hz as [->|Hz]; [assumption|].
      rewrite Forall_forall in Hy. now apply Hy.
Qed.

Lemma sort_values_sorted (l : list Q) : StronglySorted Qle (sort_values l).
Proof.
  induction l as [|x r IH]; simpl; [constructor|].
  now apply insert_sorted_sorted.
Qed.

Lemma sorted_nth_le (l : list Q) (i j : nat) :
  StronglySorted Qle l -> (i <= j < List.length l)%nat ->
  nth i l 0 <= nth j l 0.
Proof.
  intros Hs. revert i j. induction Hs as [|x r Hr IH Hx]; intros i j Hij.
  - simpl in Hij. lia.
  - destruct i as [|i], j as [|j]; simpl in *; try lia.
    + apply Qle_refl.
    + rewrite Forall_forall in Hx. apply Hx. apply nth_In. lia.
    + apply IH. lia.
Qed.

(** The interpolated value at position [h] of the sorted values [a]. *)
Lemma interpolation_monotone (a : list Q) (h1 h2 : Q) :
  StronglySorted Qle a ->
  0 <= h1 -> h1 <= h2 -> h2 <= Qnat (List.length a - 1) ->
  (0 < List.length a)%nat ->
  let value h :=
    nth (Z.to_nat (Qfloor h)) a 0
    + (nth (Nat.min (S (Z.to_nat (Qfloor h))) (List.length a - 1)) a 0
       - nth (Z.to_nat (Qfloor h)) a 0) * (h - inject_Z (Qfloor h)) in
  value h1 <= value h2.
Proof.
  intros Hs H0 H12 Hn Hlen value. unfold value.
  pose proof (Qfloor_le h1) as F1. pose proof (Qlt_floor h1) as G1.
  pose proof (Qfloor_le h2) as F2. pose proof (Qlt_floor h2) as G2.
  assert (0 <= Qfloor h1)%Z as Z1.
  { change 0%Z with (Qfloor 0). now apply Qfloor_resp_le. }
  assert (Qfloor h1 <= Qfloor h2)%Z as Z12 by now apply Qfloor_resp_le.
  assert (Qfloor h2 <= Z.of_nat (List.length a - 1))%Z as Z2.
  { rewrite <- (Qfloor_Z (Z.of_nat (List.length a - 1))).
    now apply Qfloor_resp_le. }
  set (z1 := Qfloor h1) in *. set (z2 := Qfloor h2) in *.
  set (n := List.length a) in *.
  assert (forall i j, (i <= j < n)%nat -> nth i a 0 <= nth j a 0) as Hmono
      by (intros i j Hij; now apply sorted_nth_le).
  rewrite inject_Z_plus in G1, G2. change (inject_Z 1) with 1 in G1, G2.
  assert (Z.to_nat z1 <= Z.to_nat z2 < n)%nat as Hlo by lia.
  set (lo1 := Z.to_nat z1) in *. set (lo2 := Z.to_nat z2) in *.
  pose proof (Hmono lo1 (Nat.min (S lo1) (n - 1))) as D1.
  pose proof (Hmono lo2 (Nat.min (S lo2) (n - 1))) as D2.
  assert (nth lo1 a 0 <= nth (Nat.min (S lo1) (n - 1)) a 0) as D1' by (apply D1; lia).
  assert (nth lo2 a 0 <= nth (Nat.min (S lo2) (n - 1)) a 0) as D2' by (apply D2; lia).
  clear D1 D2.
  destruct (Z.eq_dec z1 z2) as [Ez|Nz].
  - assert (lo1 = lo2) as El by (unfold lo1, lo2; now rewrite Ez).
    rewrite <- El, <- Ez in *.
    set (x := nth lo1 a 0) in *.
    set (y := nth (Nat.min (S lo1) (n - 1)) a 0) in *.
    clearbody x y. nra.
  - assert (S lo1 <= lo2)%nat as Hlt by lia.
    assert (nth (Nat.min (S lo1) (n - 1)) a 0 <= nth lo2 a 0) as Hmid.
    { apply Hmono. lia. }
    set (x1 := nth lo1 a 0) in *.
    set (y1 := nth (Nat.min (S lo1) (n - 1)) a 0) in *.
    set (x2 := nth lo2 a 0) in *.
    set (y2 := nth (Nat.min (S lo2) (n - 1)) a 0) in *.
    clearbody x1 y1 x2 y2.
    assert (x1 + (y1 - x1) * (h1 - inject_Z z1) <= y1) as U1 by nra.
    assert (x2 <= x2 + (y2 - x2) * (h2 - inject_Z z2)) as U2 by nra.
    lra.
Qed.

(** [quantile] goes up with the level. *)
Lemma quantile_monotone (data : list Q) (q1 q2 : Q) :
  (0 < List.length data)%nat -> 0 <= q1 -> q1 <= q2 -> q2 <= 1 ->
  quantile q1 data <= quantile q2 data.
Proof.
  intros Hlen H0 H12 H1. unfold quantile.
  assert (Qlen data - 1 == Qnat (List.length data - 1)) as En.
  { unfold Qlen, Qnat. rewrite Nat2Z.inj_sub by lia.
    unfold Zminus. rewrite inject_Z_plus, inject_Z_opp. reflexivity. }
  pose proof (Qnat_nonneg (List.length data - 1)) as Hn0.
  pose proof (interpolation_monotone (sort_values data)
                ((Qlen data - 1) * q1) ((Qlen data - 1) * q2)
                (sort_values_sorted data)) as H.
  rewrite sort_values_length in H. apply H.
  - rewrite En. apply Qmult_le_0_compat; assumption.
  - rewrite En. set (N := Qnat (List.length data - 1)) in *. clearbody N. nra.
  - rewrite En. set (N := Qnat (List.length data - 1)) in *. clearbody N. nra.
  - assumption.
Qed.

End Quantiles.

Section IQRDetector.

Import DataValidator.

Lemma getitem_variable (d : DataFrame) (col : string) (s : list cell) :
  well_formed d = true -> In (col, s) (variables d) -> col <> "Data"%string ->
  getitem d col = Some (Numeric s).
Proof.
  intros Hwf Hcol Hname. unfold getitem.
  destruct (String.eqb_spec col "Data"); [contradiction|].
  now rewrite (lookup_in col s (variables d) (well_formed_NoDup d Hwf) Hcol).
Qed.

Lemma on_column_variable {A} (d : DataFrame) (col : string) (s : list cell)
      (body : list cell -> Outcome A) :
  well_formed d = true -> In (col, s) (variables d) -> col <> "Data"%string ->
  on_column d col body = body s.
Proof.
  intros Hwf Hcol Hname. unfold on_column.
  now rewrite (getitem_variable d col s Hwf Hcol Hname).
Qed.

Lemma insert_sorted_perm (x : Q) (l : list Q) :
  Permutation (insert_sorted x l) (x :: l).
Proof.
  induction l as [|y r IH]; simpl; [reflexivity|].
  destruct (Qle_bool x y); [reflexivity|].
  rewrite IH. apply perm_swap.
Qed.

Lemma sort_values_perm (l : list Q) : Permutation (sort_values l) l.
Proof.
  induction l as [|x r IH]; simpl; [reflexivity|].
  rewrite insert_sorted_perm. now constructor.
Qed.

(** [quantile] reads the sorted values at the position [(n - 1) * q]. *)
Lemma quantile_position (q : Q) (data : list Q) :
  quantile q data
  = value_at_position (sort_values data) ((Qlen data - 1) * q).
Proof.
  unfold quantile, value_at_position. now rewrite sort_values_length.
Qed.

(** The rows the IQR detector selects for given bounds. *)
Lemma iqr_mask_indices (s : list cell) (lower upper : Q) (i : nat) :
  In i (true_indices
          (map (fun p => kand (fst p) (snd p))
               (combine (map (fun c => kor (lt_mask c lower) (gt_mask c upper)) s)
                        (map (fun c : cell => Some (notna c)) s))))
  <-> exists x, nth_error s i = Some (Some x) /\ (x < lower \/ upper < x).
Proof.
  rewrite true_indices_In, combine_map_same, map_map, nth_error_map_some.
  cbn [fst snd]. split.
  - intros [[x|] [Hc Hk]]; [|discriminate].
    exists x. split; [assumption|].
    unfold lt_mask, gt_mask in Hk. simpl in Hk.
    destruct (Qle_bool lower x) eqn:E1; simpl in Hk.
    + destruct (Qle_bool x upper) eqn:E2; simpl in Hk; [discriminate|].
      right. apply Qnot_le_lt. intros H. apply Qle_bool_iff in H. congruence.
    + left. apply Qnot_le_lt. intros H. apply Qle_bool_iff in H. congruence.
  - intros [x [Hx Hout]]. exists (Some x). split; [assumption|].
    unfold lt_mask, gt_mask. simpl.
    destruct (Qle_bool lower x) eqn:E1; simpl.
    + destruct (Qle_bool x upper) eqn:E2; simpl; [|reflexivity].
      apply Qle_bool_iff in E1, E2. destruct Hout; lra.
    + reflexivity.
Qed.


(** X9: with a non-negative multiplier the IQR statistics are ordered,
    lower_bound <= Q1 <= Q3 <= upper_bound with IQR >= 0, so a value between
    the quartiles is never reported as an outlier. *)
Theorem X9_iqr_bounds_are_ordered
        (d : DataFrame) (col : string) (s : list cell) (multiplier : Q)
        (idx : list nat) (stats : IQRStats)
        (Hwf : well_formed d = true)
        (Hcol : In (col, s) (variables d))
        (Hname : col <> "Data"%string)
        (Hmult : 0 <= multiplier)
        (Hres : detect_outliers_iqr d col multiplier = Returns (idx, Some stats)) :
  lower_bound stats <= Q1 stats
  /\ Q1 stats <= Q3 stats
  /\ Q3 stats <= upper_bound stats
  /\ 0 <= IQR stats
  /\ (forall i x,
         nth_error s i = Some (Some x) ->
         Q1 stats <= x -> x <= Q3 stats -> ~ In i idx).
Proof.
  unfold detect_outliers_iqr in Hres.
  rewrite (on_column_variable d col s _ Hwf Hcol Hname) in Hres.
  unfold outliers_iqr in Hres.
  destruct (Nat.ltb_spec (List.length (dropna s)) 4) as [Hlt|Hge];
    [discriminate|].
  injection Hres as Hidx Hstats. subst stats.
  cbn [lower_bound upper_bound IQR Q1 Q3].
  assert (quantile (25 # 100) (dropna s) <= quantile (75 # 100) (dropna s)) as Hq.
  { apply quantile_monotone; [lia| | |]; discriminate. }
  set (q1 := quantile (25 # 100) (dropna s)) in *.
  set (q3 := quantile (75 # 100) (dropna s)) in *.
  assert (0 <= multiplier * (q3 - q1)) as Hm
      by (apply Qmult_le_0_compat; [assumption|lra]).
  split; [lra|]. split; [assumption|]. split; [lra|]. split; [lra|].
  intros i x Hx H1 H3 Hin. rewrite <- Hidx in Hin.
  apply iqr_mask_indices in Hin. destruct Hin as [y [Hy Hout]].
  rewrite Hx in Hy. injection Hy as <-. destruct Hout; lra.
Qed.

End IQRDetector.

(* ================================================================== *)
(** * Further properties: z-scores *)

Section ZScores.

Import DataValidator QualityMetrics.

Lemma sqdev_nonneg (m x : Q) : 0 <= sqdev m x.
Proof. unfold sqdev. set (e := x - m). clearbody e. nra. Qed.

Lemma indexed_dropna_In {A} (s : list (option A)) (i : nat) (x : A) :
  In (i, x) (indexed_dropna s) <-> nth_error s i = Some (Some x).
Proof.
  unfold indexed_dropna, enumerate. rewrite in_flat_map. split.
  - intros [[j c] [Hin Hx]]. apply enumerate_from_In in Hin.
    destruct Hin as [_ Hn]. rewrite Nat.sub_0_r in Hn. simpl in Hx.
    destruct c as [y|]; [|contradiction].
    destruct Hx as [E|[]]. injection E as <- <-. exact Hn.
  - intros Hn. exists (i, Some x). split; [|now left].
    apply enumerate_from_In. split; [lia|]. now rewrite Nat.sub_0_r.
Qed.

Lemma indexed_dropna_values {A} (s : list (option A)) :
  map snd (indexed_dropna s) = dropna s.
Proof.
  unfold indexed_dropna, enumerate. generalize 0%nat.
  induction s as [|[x|] r IH]; intros k; simpl; [reflexivity| |apply IH].
  now rewrite IH.
Qed.

Lemma indexed_dropna_sorted {A} (s : list (option A)) (p : nat * A -> bool) :
  StronglySorted lt (map fst (filter p (indexed_dropna s))).
Proof.
  unfold indexed_dropna, enumerate.
  assert (forall k,
             StronglySorted lt
               (map fst (filter p
                  (flat_map (fun q : nat * option A =>
                               match snd q with
                               | Some x => [(fst q, x)]
                               | None => []
                               end) (enumerate_from k s))))
             /\ Forall (fun i => (k <= i)%nat)
                  (map fst (filter p
                     (flat_map (fun q : nat * option A =>
                                  match snd q with
                                  | Some x => [(fst q, x)]
                                  | None => []
                                  end) (enumerate_from k s))))) as H.
  { induction s as [|c r IH]; intros k; simpl; [split; constructor|].
    destruct (IH (S k)) as [Hs Hf].
    assert (Forall (fun i => (k <= i)%nat)
              (map fst (filter p
                 (flat_map (fun q : nat * option A =>
                              match snd q with
                              | Some x => [(fst q, x)]
                              | None => []
                              end) (enumerate_from (S k) r))))) as Hf'.
    { eapply Forall_impl; [|exact Hf]. intros a Ha. simpl in Ha. lia. }
    destruct c as [x|]; simpl; [|split; assumption].
    destruct (p (k, x)); simpl; [|split; assumption].
    split.
    - constructor; [assumption|].
      eapply Forall_impl; [|exact Hf]. intros a Ha. simpl in Ha. lia.
    - constructor; [lia|assumption]. }
  apply H.
Qed.

Lemma filter_snd_length {A B} (f : B -> bool) (l : list (A * B)) :
  List.length (filter (fun p => f (snd p)) l)
  = List.length (filter f (map snd l)).
Proof.
  induction l as [|[a b] r IH]; simpl; [reflexivity|].
  destruct (f b); simpl; now rewrite IH.
Qed.

Lemma filter_length_mono {A} (p q : A -> bool) (l : list A) :
  (forall x, In x l -> p x = true -> q x = true) ->
  (List.length (filter p l) <= List.length (filter q l))%nat.
Proof.
  induction l as [|x r IH]; intros H; simpl; [lia|].
  assert (List.length (filter p r) <= List.length (filter q r))%nat as Hr.
  { apply IH. intros y Hy. apply H. now right. }
  destruct (p x) eqn:Ep.
  - rewrite (H x (or_introl eq_refl) Ep). simpl. lia.
  - destruct (q x); simpl; lia.
Qed.

(** Values each more than [c] away (in squared deviation) cannot be many:
    their number times [c] stays below the whole sum of squares. *)
Lemma flagged_sum_le (m c : Q) (p : Q -> bool) (l : list Q) :
  (forall x, In x l -> p x = true -> c < sqdev m x) ->
  Qnat (List.length (filter p l)) * c <= Qsum (map (sqdev m) l).
Proof.
  induction l as [|x r IH]; intros H; simpl.
  - change (Qnat 0) with 0. lra.
  - assert (Qnat (List.length (filter p r)) * c <= Qsum (map (sqdev m) r)) as Hr.
    { apply IH. intros y Hy. apply H. now right. }
    pose proof (sqdev_nonneg m x) as Hx.
    destruct (p x) eqn:Ep; simpl.
    + pose proof (H x (or_introl eq_refl) Ep) as Hc.
      change (S (List.length (filter p r)))
        with (1 + List.length (filter p r))%nat.
      rewrite Qnat_plus. change (Qnat 1) with 1. lra.
    + lra.
Qed.

Lemma flagged_sum_lt (m c : Q) (p : Q -> bool) (l : list Q) :
  (forall x, In x l -> p x = true -> c < sqdev m x) ->
  (0 < List.length (filter p l))%nat ->
  Qnat (List.length (filter p l)) * c < Qsum (map (sqdev m) l).
Proof.
  induction l as [|x r IH]; intros H Hpos; simpl in *; [lia|].
  pose proof (sqdev_nonneg m x) as Hx.
  assert (forall y, In y r -> p y = true -> c < sqdev m y) as Hr
      by (intros y Hy; apply H; now right).
  destruct (p x) eqn:Ep; simpl in *.
  - pose proof (H x (or_introl eq_refl) Ep) as Hc.
    pose proof (flagged_sum_le m c p r Hr) as Hle.
    change (S (List.length (filter p r)))
      with (1 + List.length (filter p r))%nat.
    rewrite Qnat_plus. change (Qnat 1) with 1. lra.
  - specialize (IH Hr Hpos). lra.
Qed.

Lemma Qsum_zero_all (m : Q) (l : list Q) :
  Qsum (map (sqdev m) l) == 0 -> forall x, In x l -> x == m.
Proof.
  induction l as [|y r IH]; intros Hs x Hx; [contradiction|].
  simpl in Hs.
  pose proof (sqdev_nonneg m y) as Hy.
  assert (0 <= Qsum (map (sqdev m) r)) as Hr.
  { apply Qsum_nonneg. apply Forall_forall. intros z Hz.
    apply in_map_iff in Hz. destruct Hz as [w [<- _]]. apply sqdev_nonneg. }
  destruct Hx as [->|Hx].
  - assert (sqdev m x == 0) as E by lra. unfold sqdev in E.
    assert (x - m == 0) as E'.
    { set (e := x - m) in *. clearbody e.
      destruct (Qeq_dec e 0) as [Z|NZ]; [assumption|].
      exfalso. assert (0 < e * e) by nra. lra. }
    lra.
  - apply IH; [lra|assumption].
Qed.

Lemma Qlen_pos {A} (l : list A) : (0 < List.length l)%nat -> 0 < Qlen l.
Proof. intros H. unfold Qlen. change 0 with (inject_Z 0). rewrite <- Zlt_Qlt. lia. Qed.

Lemma Qlen_ge_2 {A} (l : list A) : (2 <= List.length l)%nat -> 2 <= Qlen l.
Proof. intros H. unfold Qlen. change 2 with (inject_Z 2). rewrite <- Zle_Qle. lia. Qed.

Lemma pvariance_sum (l : list Q) :
  (0 < List.length l)%nat ->
  pvariance l * Qlen l == Qsum (map (sqdev (mean l)) l).
Proof.
  intros H. pose proof (Qlen_pos l H) as Hp. unfold pvariance.
  change (fun x : Q => (x - mean l) * (x - mean l)) with (sqdev (mean l)).
  field. lra.
Qed.

Lemma sample_variance_sum (l : list Q) :
  (2 <= List.length l)%nat ->
  sample_variance l * (Qlen l - 1) == Qsum (map (sqdev (mean l)) l).
Proof.
  intros H. pose proof (Qlen_ge_2 l H) as Hp. unfold sample_variance.
  change (fun x : Q => (x - mean l) * (x - mean l)) with (sqdev (mean l)).
  field. lra.
Qed.

Lemma pvariance_nonneg (l : list Q) : (0 < List.length l)%nat -> 0 <= pvariance l.
Proof.
  intros H. unfold pvariance. apply Qdiv_nonneg.
  - apply Qsum_nonneg. apply Forall_forall. intros y Hy.
    apply in_map_iff in Hy. destruct Hy as [x [<- _]]. apply (sqdev_nonneg (mean l)).
  - apply Qlt_le_weak. now apply Qlen_pos.
Qed.

Lemma flagged_sum_bound (m c : Q) (p : Q -> bool) (l : list Q) :
  (forall x, In x l -> p x = true -> c <= sqdev m x) ->
  Qnat (List.length (filter p l)) * c <= Qsum (map (sqdev m) l).
Proof.
  induction l as [|x r IH]; intros H; simpl.
  - change (Qnat 0) with 0. lra.
  - assert (Qnat (List.length (filter p r)) * c <= Qsum (map (sqdev m) r)) as Hr.
    { apply IH. intros y Hy. apply H. now right. }
    pose proof (sqdev_nonneg m x) as Hx.
    destruct (p x) eqn:Ep; simpl.
    + pose proof (H x (or_introl eq_refl) Ep) as Hc.
      change (S (List.length (filter p r)))
        with (1 + List.length (filter p r))%nat.
      rewrite Qnat_plus. change (Qnat 1) with 1. lra.
    + lra.
Qed.

Lemma Qsum_app (a b : list Q) : Qsum (a ++ b) == Qsum a + Qsum b.
Proof.
  unfold Qsum. induction a as [|x r IH]; simpl; [ring|]. rewrite IH. ring.
Qed.

Lemma Qlen_cons {A} (x : A) (l : list A) : Qlen (x :: l) == 1 + Qlen l.
Proof.
  unfold Qlen. cbn [List.length]. rewrite Nat2Z.inj_succ, <- Z.add_1_l.
  rewrite inject_Z_plus. reflexivity.
Qed.

Lemma Qlen_app {A} (a b : list A) : Qlen (a ++ b) == Qlen a + Qlen b.
Proof.
  unfold Qlen. rewrite length_app, Nat2Z.inj_add, inject_Z_plus. reflexivity.
Qed.

Lemma Qlen_nonneg {A} (l : list A) : 0 <= Qlen l.
Proof. unfold Qlen. change 0 with (inject_Z 0). rewrite <- Zle_Qle. lia. Qed.

Lemma Qsum_deviations (m : Q) (l : list Q) :
  Qsum (map (fun y => y - m) l) == Qsum l - Qlen l * m.
Proof.
  induction l as [|x r IH].
  - unfold Qlen. simpl. change (inject_Z 0) with 0. ring.
  - rewrite Qlen_cons. cbn [map]. unfold Qsum in *. cbn [fold_right].
    rewrite IH. ring.
Qed.

Lemma Qsum_sqdev (m : Q) (l : list Q) :
  Qsum (map (sqdev m) l)
  == Qsum (map (fun e => e * e) (map (fun y => y - m) l)).
Proof.
  induction l as [|x r IH]; [reflexivity|].
  cbn [map]. unfold Qsum in *. cbn [fold_right]. rewrite IH.
  unfold sqdev. ring.
Qed.

(** Cauchy-Schwarz against the constant 1: the square of a sum is at most
    the number of terms times the sum of the squares. *)
Lemma square_of_sum (l : list Q) :
  Qsum l * Qsum l <= Qlen l * Qsum (map (fun e => e * e) l).
Proof.
  induction l as [|a r IH].
  - unfold Qlen. simpl. change (inject_Z 0) with 0. lra.
  - rewrite Qlen_cons. cbn [map]. unfold Qsum in *. cbn [fold_right].
    pose proof (Qlen_nonneg r) as Hk.
    assert (0 <= fold_right Qplus 0 (map (fun e => e * e) r)) as Hq.
    { apply (Qsum_nonneg (map (fun e => e * e) r)). apply Forall_forall.
      intros y Hy. apply in_map_iff in Hy. destruct Hy as [e [<- _]].
      nra. }
    set (S := fold_right Qplus 0 r) in *.
    set (T := fold_right Qplus 0 (map (fun e => e * e) r)) in *.
    set (k := Qlen r) in *. clearbody S T k.
    assert (2 * a * S <= k * (a * a) + T) as Hmix.
    { destruct (Qlt_le_dec 0 k) as [Hpos|Hzero].
      - assert (forall e : Q, 0 <= e * e) as Hsqr by (intros e; nra).
        pose proof (Hsqr (k * a - S)) as Hsq.
        assert (k * (2 * a * S) <= k * (k * (a * a) + T)) as Hk2 by lra.
        apply Qmult_le_l with (z := k); assumption.
      - assert (k == 0) as Ek by lra.
        assert (S * S <= 0) as HS by (rewrite Ek in IH; lra).
        assert (S == 0) as ES.
        { destruct (Qeq_dec S 0) as [|NZ]; [assumption|].
          exfalso. assert (0 < S * S) by nra. lra. }
        rewrite ES, Ek. lra. }
    nra.
Qed.

(** No value lies more than sqrt(n - 1) population deviations from the
    mean: n * (x - mean)^2 <= (n - 1) * (sum of the squared deviations). *)
Lemma deviation_of_one_value (data : list Q) (x : Q) :
  In x data ->
  Qlen data * sqdev (mean data) x
  <= (Qlen data - 1) * Qsum (map (sqdev (mean data)) data).
Proof.
  intros Hin.
  assert (0 < Qlen data) as Hn
      by (apply Qlen_pos; destruct data; [contradiction|simpl; lia]).
  assert (Qsum data - Qlen data * mean data == 0) as Hmean
      by (unfold mean; field; lra).
  set (m := mean data) in *. clearbody m.
  apply in_split in Hin. destruct Hin as [l1 [l2 ->]].
  pose proof (square_of_sum (map (fun y => y - m) (l1 ++ l2))) as Hcs.
  rewrite <- Qsum_sqdev in Hcs.
  rewrite Qsum_deviations in Hcs.
  assert (Qlen (map (fun y : Q => y - m) (l1 ++ l2)) == Qlen (l1 ++ l2)) as El
      by (unfold Qlen; now rewrite length_map).
  rewrite El in Hcs. clear El.
  rewrite map_app, Qsum_app in Hcs. rewrite Qsum_app, Qlen_app in Hcs.
  rewrite map_app, Qsum_app. cbn [map].
  rewrite Qsum_app, Qlen_app, Qlen_cons in Hmean.
  rewrite Qlen_app, Qlen_cons.
  unfold Qsum in *. cbn [fold_right] in *.
  pose proof (Qlen_nonneg l1) as H1. pose proof (Qlen_nonneg l2) as H2.
  unfold sqdev at 1 3.
  set (s1 := fold_right Qplus 0 l1) in *. set (s2 := fold_right Qplus 0 l2) in *.
  set (q1 := fold_right Qplus 0 (map (sqdev m) l1)) in *.
  set (q2 := fold_right Qplus 0 (map (sqdev m) l2)) in *.
  set (k1 := Qlen l1) in *. set (k2 := Qlen l2) in *.
  clearbody s1 s2 q1 q2 k1 k2.
  assert (s1 + s2 - (k1 + k2) * m == - (x - m)) as Eo by lra.
  rewrite Eo in Hcs.
  set (e := x - m) in *. clearbody e.
  assert (e * e <= (k1 + k2) * (q1 + q2)) as Hcs' by lra.
  nra.
Qed.

(** What a flag of the z-score test says about the exact values. *)
Lemma abs_zscore_flag (fl : Rounding) (m v t x : Q) :
  0 < v -> 0 <= t -> 0 <= tolerance fl ->
  (abs_zscore_exceeds fl m v t x = true ->
   (1 - tolerance fl) * (t * t * v) <= sqdev m x)
  /\ ((1 + tolerance fl) * (t * t * v) < sqdev m x ->
      abs_zscore_exceeds fl m v t x = true).
Proof.
  intros Hv Ht Htol. unfold abs_zscore_exceeds, sqdev.
  destruct (Qeq_bool v 0) eqn:Ev; [apply Qeq_bool_iff in Ev; lra|].
  assert (Qle_bool 0 t = true) as -> by now apply Qle_bool_iff.
  cbv zeta.
  assert (0 <= t * t * v) as Hlim by (apply Qmult_le_0_compat; nra).
  set (limit := t * t * v) in *. set (d2 := (x - m) * (x - m)).
  set (tol := tolerance fl) in *. clearbody limit d2 tol.
  assert (0 <= tol * limit) as Hband by (apply Qmult_le_0_compat; assumption).
  destruct (Qle_bool ((1 - tol) * limit) d2) eqn:E1;
    destruct (Qle_bool d2 ((1 + tol) * limit)) eqn:E2; cbn [andb].
  - apply Qle_bool_iff in E1, E2. split; intros H; [assumption|lra].
  - split; intros H.
    + apply negb_true_iff in H.
      assert (limit < d2) as Hlt
          by (apply Qnot_le_lt; intros H'; apply Qle_bool_iff in H'; congruence).
      lra.
    + apply negb_true_iff.
      destruct (Qle_bool d2 limit) eqn:El; [|reflexivity].
      apply Qle_bool_iff in El. lra.
  - split; intros H.
    + apply negb_true_iff in H.
      assert (limit < d2) as Hlt
          by (apply Qnot_le_lt; intros H'; apply Qle_bool_iff in H'; congruence).
      lra.
    + apply Qle_bool_iff in E2. lra.
  - split; intros H.
    + apply negb_true_iff in H.
      assert (limit < d2) as Hlt
          by (apply Qnot_le_lt; intros H'; apply Qle_bool_iff in H'; congruence).
      lra.
    + apply negb_true_iff.
      destruct (Qle_bool d2 limit) eqn:El; [|reflexivity].
      apply Qle_bool_iff in El. lra.
Qed.

Lemma abs_zscore_no_spread (fl : Rounding) (data : list Q) (t x : Q) :
  (0 < List.length data)%nat -> pvariance data == 0 -> In x data ->
  abs_zscore_exceeds fl (mean data) (pvariance data) t x = false.
Proof.
  intros Hn Hv Hx. unfold abs_zscore_exceeds.
  assert (Qeq_bool (pvariance data) 0 = true) as -> by now apply Qeq_bool_iff.
  apply negb_false_iff, Qeq_bool_iff.
  apply (Qsum_zero_all (mean data) data); [|assumption].
  rewrite <- (pvariance_sum data Hn), Hv. ring.
Qed.

Lemma filter_none {A} (p : A -> bool) (l : list A) :
  (forall x, In x l -> p x = false) -> filter p l = [].
Proof.
  induction l as [|x r IH]; intros H; simpl; [reflexivity|].
  rewrite (H x (or_introl eq_refl)). apply IH. intros y Hy. apply H. now right.
Qed.

(** The number of values [detect_outliers_zscore] flags, whatever the
    rounding does near the threshold. *)
Lemma zscore_count_bound (fl : Rounding) (data : list Q) (threshold : Q) :
  (2 <= List.length data)%nat -> 0 <= threshold -> 0 <= tolerance fl ->
  Qnat (List.length
          (filter (abs_zscore_exceeds fl (mean data) (pvariance data) threshold)
                  data))
  * ((1 - tolerance fl) * (threshold * threshold)) <= Qlen data.
Proof.
  intros Hn Hthr Htol.
  pose proof (Qlen_pos data ltac:(lia)) as Hlen.
  pose proof (pvariance_sum data ltac:(lia)) as Hsum.
  pose proof (pvariance_nonneg data ltac:(lia)) as Hv.
  destruct (Qeq_dec (pvariance data) 0) as [Zv|NZv].
  - rewrite filter_none.
    + change (Qnat (List.length [])) with 0. lra.
    + intros x Hx. apply abs_zscore_no_spread; [lia|assumption|assumption].
  - assert (0 < pvariance data) as Hvpos by lra.
    pose proof (flagged_sum_bound (mean data)
                  ((1 - tolerance fl)
                   * (threshold * threshold * pvariance data))
                  (abs_zscore_exceeds fl (mean data) (pvariance data) threshold)
                  data) as Hb.
    rewrite <- Hsum in Hb.
    assert (Qnat (List.length
                    (filter (abs_zscore_exceeds fl (mean data) (pvariance data)
                                                threshold) data))
            * ((1 - tolerance fl) * (threshold * threshold * pvariance data))
            <= pvariance data * Qlen data) as H.
    { apply Hb. intros x _ Hf.
      now apply (abs_zscore_flag fl (mean data) (pvariance data) threshold x
                   Hvpos Hthr Htol). }
    set (k := Qnat _) in *. set (v := pvariance data) in *.
    set (t2 := threshold * threshold) in *. set (tol := tolerance fl) in *.
    clearbody k v t2 tol.
    assert (k * ((1 - tol) * t2) * v <= Qlen data * v) as H' by lra.
    apply Qmult_le_r with (z := v); assumption.
Qed.

(** With fewer than threshold^2 + 1 values nothing is flagged. *)
Lemma zscore_none_flagged (fl : Rounding) (data : list Q) (threshold x : Q) :
  (2 <= List.length data)%nat -> 0 <= threshold -> 0 <= tolerance fl ->
  Qlen data - 1 < (1 - tolerance fl) * (threshold * threshold) -> In x data ->
  abs_zscore_exceeds fl (mean data) (pvariance data) threshold x = false.
Proof.
  intros Hn Hthr Htol Hsmall Hx.
  pose proof (Qlen_pos data ltac:(lia)) as Hlen.
  pose proof (pvariance_sum data ltac:(lia)) as Hsum.
  pose proof (pvariance_nonneg data ltac:(lia)) as Hv.
  destruct (Qeq_dec (pvariance data) 0) as [Zv|NZv].
  { apply abs_zscore_no_spread; [lia|assumption|assumption]. }
  assert (0 < pvariance data) as Hvpos by lra.
  destruct (abs_zscore_exceeds fl (mean data) (pvariance data) threshold x)
    eqn:E; [exfalso|reflexivity].
  apply (abs_zscore_flag fl (mean data) (pvariance data) threshold x
           Hvpos Hthr Htol) in E.
  pose proof (deviation_of_one_value data x Hx) as Hone.
  rewrite <- Hsum in Hone.
  set (d2 := sqdev (mean data) x) in *. set (v := pvariance data) in *.
  set (n := Qlen data) in *.
  set (t2 := (1 - tolerance fl) * (threshold * threshold)) in *.
  assert (t2 * v <= d2) as E' by (unfold t2; lra).
  clearbody d2 v n t2.
  assert (n * (t2 * v) <= n * d2) as H1 by nra.
  assert ((n * v) * t2 <= (n * v) * (n - 1)) as H3 by lra.
  assert (0 < n * v) as Hnv by nra.
  assert (t2 <= n - 1) as H4 by (apply Qmult_le_l with (z := n * v); assumption).
  lra.
Qed.

Lemma zscore_flagged_length (s : list cell) (f : Q -> bool) :
  List.length (map fst (filter (fun p : nat * Q => f (snd p)) (indexed_dropna s)))
  = List.length (filter f (dropna s)).
Proof.
  rewrite length_map, filter_snd_length. now rewrite indexed_dropna_values.
Qed.

Lemma indexed_dropna_value_In (s : list cell) (i : nat) (x : Q) :
  nth_error s i = Some (Some x) -> In x (dropna s).
Proof.
  intros H. apply indexed_dropna_In in H.
  rewrite <- (indexed_dropna_values s). apply in_map_iff. now exists (i, x).
Qed.

(** X10: on a variable column with n >= 2 non-null values and a
    non-negative threshold, [detect_outliers_zscore] reports, in increasing
    order, row labels of non-null values: every value whose squared distance
    to the mean is above threshold^2 times the population variance is
    reported and no value below that is, up to the rounding of the doubles
    near the threshold (relative tolerance tol).  However that rounding
    falls, the number of outliers times (1 - tol) * threshold^2 is at most
    n, and there is no outlier at all when n - 1 < (1 - tol) * threshold^2:
    with the default threshold 3 (or more) a column of at most 9 non-null
    values never has an outlier. *)
Theorem X10_zscore_outliers_are_at_most_n_over_threshold_squared
        (fl : Rounding)
        (d : DataFrame) (col : string) (s : list cell) (threshold : Q)
        (Hwf : well_formed d = true)
        (Hcol : In (col, s) (variables d))
        (Hname : col <> "Data"%string)
        (Hthr : 0 <= threshold)
        (Htol : 0 <= tolerance fl)
        (Hn : (2 <= List.length (dropna s))%nat) :
  exists idx stats,
    detect_outliers_zscore fl d col threshold = Returns (idx, Some stats)
    /\ StronglySorted lt idx
    /\ (forall i,
           In i idx ->
           exists x, nth_error s i = Some (Some x)
                     /\ (1 - tolerance fl)
                        * (threshold * threshold * pvariance (dropna s))
                        <= sqdev (mean (dropna s)) x)
    /\ (forall i x,
           nth_error s i = Some (Some x) ->
           (1 + tolerance fl) * (threshold * threshold * pvariance (dropna s))
           < sqdev (mean (dropna s)) x ->
           In i idx)
    /\ z_outlier_count stats = List.length idx
    /\ z_mean stats = mean (dropna s)
    /\ Qnat (List.length idx) * ((1 - tolerance fl) * (threshold * threshold))
       <= Qlen (dropna s)
    /\ (Qlen (dropna s) - 1 < (1 - tolerance fl) * (threshold * threshold) ->
        idx = [])
    /\ (3 <= threshold -> tolerance fl < 1 # 9 ->
        (List.length (dropna s) <= 9)%nat -> idx = []).
Proof.
  unfold detect_outliers_zscore.
  rewrite (on_column_variable d col s _ Hwf Hcol Hname).
  unfold outliers_zscore.
  destruct (Nat.ltb_spec (List.length (dropna s)) 2) as [Hlt|_]; [lia|].
  eexists. eexists. split; [reflexivity|].
  cbn [z_outlier_count z_mean].
  set (f := abs_zscore_exceeds fl (mean (dropna s)) (pvariance (dropna s))
                               threshold).
  pose proof (Qlen_pos (dropna s) ltac:(lia)) as Hlen.
  pose proof (pvariance_nonneg (dropna s) ltac:(lia)) as Hv.
  assert (Qlen (dropna s) - 1 < (1 - tolerance fl) * (threshold * threshold) ->
          map fst (filter (fun p : nat * Q => f (snd p)) (indexed_dropna s)) = [])
    as Hnone.
  { intros Hsmall. rewrite filter_none; [reflexivity|].
    intros [i x] Hin. cbn [snd]. unfold f.
    apply zscore_none_flagged; try assumption.
    apply (indexed_dropna_value_In s i x). now apply indexed_dropna_In. }
  split; [apply indexed_dropna_sorted|].
  split.
  { intros i Hi. apply in_map_iff in Hi. destruct Hi as [[j x] [<- Hin]].
    apply filter_In in Hin. destruct Hin as [Hin Hf]. cbn [snd fst] in *.
    exists x. split; [now apply indexed_dropna_In|].
    destruct (Qeq_dec (pvariance (dropna s)) 0) as [Zv|NZv].
    - exfalso. unfold f in Hf.
      rewrite abs_zscore_no_spread in Hf; [discriminate|lia|assumption|].
      apply (indexed_dropna_value_In s j x). now apply indexed_dropna_In.
    - apply (abs_zscore_flag fl _ _ threshold x); try assumption. lra. }
  split.
  { intros i x Hx Hfar. apply in_map_iff. exists (i, x). split; [reflexivity|].
    apply filter_In. split; [now apply indexed_dropna_In|]. cbn [snd].
    destruct (Qeq_dec (pvariance (dropna s)) 0) as [Zv|NZv].
    - exfalso.
      assert (x == mean (dropna s)) as Ex.
      { apply (Qsum_zero_all (mean (dropna s)) (dropna s)).
        - rewrite <- (pvariance_sum (dropna s) ltac:(lia)), Zv. ring.
        - now apply (indexed_dropna_value_In s i x). }
      unfold sqdev in Hfar. rewrite Zv, Ex in Hfar. lra.
    - apply (abs_zscore_flag fl _ _ threshold x); try assumption. lra. }
  split; [reflexivity|]. split; [reflexivity|].
  split.
  { rewrite zscore_flagged_length. apply zscore_count_bound; assumption. }
  split; [exact Hnone|].
  intros H3 Hsmalltol H9. apply Hnone.
  assert (Qlen (dropna s) <= 9) as Hle.
  { unfold Qlen. change 9 with (inject_Z 9). rewrite <- Zle_Qle. lia. }
  assert (9 <= threshold * threshold) as Ht2 by nra.
  set (t2 := threshold * threshold) in *. set (tol := tolerance fl) in *.
  clearbody t2 tol. nra.
Qed.

(** Values at least 3 sample deviations from the mean, up to the
    tolerance: how many there can be, and that the z-score detector flags
    them too. *)
Lemma sample_flag_bounds (fl : Rounding) (data : list Q) (flag : Q -> bool) :
  (2 <= List.length data)%nat ->
  0 <= tolerance fl -> tolerance fl * (2 * Qlen data - 1) < 1 ->
  ~ sample_variance data == 0 ->
  (forall x, In x data -> flag x = true ->
             (1 - tolerance fl) * (3 * 3 * sample_variance data)
             <= sqdev (mean data) x) ->
  Qnat (List.length (filter flag data)) * ((1 - tolerance fl) * 9)
  <= Qlen data - 1
  /\ (List.length (filter flag data)
      <= List.length
           (filter (abs_zscore_exceeds fl (mean data) (pvariance data) 3)
                   data))%nat.
Proof.
  intros Hn Htol Htoln Hnz Hflag.
  pose proof (Qlen_ge_2 data Hn) as Hlen.
  pose proof (sample_variance_sum data Hn) as Hss.
  pose proof (pvariance_sum data ltac:(lia)) as Hps.
  pose proof (sample_variance_nonneg data Hn) as Hsv.
  pose proof (pvariance_nonneg data ltac:(lia)) as Hpv.
  assert (0 < sample_variance data) as Hpos by lra.
  assert (pvariance data * Qlen data == sample_variance data * (Qlen data - 1))
    as Heq by lra.
  assert (0 < pvariance data) as Hppos.
  { destruct (Qlt_le_dec 0 (pvariance data)) as [|Hc]; [assumption|].
    exfalso. assert (pvariance data == 0) as Z by lra.
    rewrite Z in Heq.
    set (sv := sample_variance data) in *. set (n := Qlen data) in *.
    clearbody sv n. nra. }
  split.
  - pose proof (flagged_sum_bound (mean data)
                  ((1 - tolerance fl) * (3 * 3 * sample_variance data))
                  flag data Hflag) as Hb.
    rewrite <- Hss in Hb.
    set (k := Qnat _) in *. set (v := sample_variance data) in *.
    set (tol := tolerance fl) in *. clearbody k v tol.
    assert (k * ((1 - tol) * 9) * v <= (Qlen data - 1) * v) as H by lra.
    apply Qmult_le_r with (z := v); assumption.
  - apply filter_length_mono. intros x Hx Hf.
    apply (abs_zscore_flag fl (mean data) (pvariance data) 3 x Hppos
             ltac:(discriminate) Htol).
    specialize (Hflag x Hx Hf).
    (* (1 + tol) * 9 * pvar < (1 - tol) * 9 * svar, as tol * (2n - 1) < 1 *)
    assert ((1 + tolerance fl) * pvariance data
            < (1 - tolerance fl) * sample_variance data) as Hgap.
    { set (sv := sample_variance data) in *. set (pv := pvariance data) in *.
      set (n := Qlen data) in *. set (tol := tolerance fl) in *.
      clearbody sv pv n tol.
      assert (0 < n) as Hnpos by lra.
      apply Qmult_lt_r with (z := n); [assumption|].
      assert ((1 + tol) * pv * n == (1 + tol) * (sv * (n - 1))) as -> by
          (rewrite <- Heq; ring).
      assert ((1 + tol) * (n - 1) < (1 - tol) * n) as Hc by lra.
      nra. }
    lra.
Qed.


End ZScores.

(* ================================================================== *)
(** * Further properties: the quality index and the overall index *)

Section QualityBounds.

Import DataValidator QualityMetrics.

Lemma percentage_le_100 (a b : nat) :
  (a <= b)%nat -> (0 < b)%nat -> (Qnat a / Qnat b) * 100 <= 100.
Proof.
  intros Hab Hb. pose proof (Qnat_pos b Hb). pose proof (Qnat_le a b Hab).
  assert (Qnat a / Qnat b <= 1) by (apply Qle_shift_div_r; [assumption|lra]).
  lra.
Qed.

Lemma completeness_le_100 (total : nat) (s : list cell) :
  List.length s = total -> (0 < total)%nat ->
  completeness_percentage (completeness_of total s) <= 100.
Proof.
  intros Hlen Hpos. simpl. apply percentage_le_100; [|assumption].
  subst total. apply filter_length_le.
Qed.

Lemma validity_le_100 (r : ValidationResult) :
  validity_percentage (validity_of r) <= 100.
Proof.
  simpl. destruct (Nat.ltb_spec 0 (valid_count r + invalid_count r)).
  - apply percentage_le_100; lia.
  - discriminate.
Qed.

Lemma consistency_le_100 (s : list cell) :
  consistency_percentage (consistency_of s) <= 100.
Proof.
  unfold consistency_of.
  destruct (Nat.ltb_spec (List.length (dropna s)) 2) as [|Hn]; simpl;
    [discriminate|].
  set (a := Qnat _). assert (0 <= a) as Ha by apply Qnat_nonneg.
  pose proof (Qlen_ge_2 (dropna s) Hn) as Hlen.
  set (n := Qlen (dropna s)) in *. clearbody a n.
  assert ((n - a) / n <= 1) by (apply Qle_shift_div_r; lra).
  lra.
Qed.

(** The entry of a column in the dict [calculate_quality_index] returns is
    built from three percentages that all lie in [0, 100]. *)
Lemma quality_entry_of_column (self : QualityMetricsCalculator)
      (column : option string) (qi : list (string * QualityIndex))
      (self' : QualityMetricsCalculator) (col : string) (e : QualityIndex) :
  well_formed (df self) = true -> (0 < len (df self))%nat ->
  calculate_quality_index self column = Some (qi, self') ->
  lookup col qi = Some e ->
  exists completeness consistency,
    calculate_completeness self column = Some completeness
    /\ calculate_consistency self column = Some consistency
    /\ e = quality_entry
             (get_pct completeness col completeness_percentage)
             (get_pct (calculate_validity self column) col validity_percentage)
             (get_pct consistency col consistency_percentage)
    /\ 0 <= get_pct completeness col completeness_percentage <= 100
    /\ 0 <= get_pct (calculate_validity self column) col validity_percentage <= 100
    /\ 0 <= get_pct consistency col consistency_percentage <= 100.
Proof.
  intros Hwf Hrows Hqi He.
  destruct (calculate_completeness self column) as [completeness|] eqn:Hc.
  2:{ unfold calculate_quality_index in Hqi. rewrite Hc in Hqi. discriminate. }
  destruct (calculate_consistency self column) as [consistency|] eqn:Hk.
  2:{ unfold calculate_quality_index in Hqi. rewrite Hc, Hk in Hqi. discriminate. }
  destruct (quality_index_lookup self column completeness consistency Hc Hk)
    as [qi' [Hqi' [_ Hl]]].
  rewrite Hqi in Hqi'. injection Hqi' as <- _.
  rewrite Hl in He.
  destruct (lookup col completeness) as [c|] eqn:Elc; [|discriminate].
  simpl in He. injection He as <-.
  exists completeness, consistency.
  split; [reflexivity|]. split; [reflexivity|].
  assert (get_pct completeness col completeness_percentage
          = completeness_percentage c) as ->
      by (unfold get_pct; now rewrite Elc).
  split; [reflexivity|].
  split.
  { destruct (for_columns_lookup _ _ _ _ _ _ Hc Elc) as [s [Hs ->]].
    split; [apply completeness_nonneg|].
    apply completeness_le_100; [|assumption].
    apply (well_formed_length (df self) col s Hwf).
    now apply lookup_some_in. }
  split.
  { unfold get_pct.
    destruct (lookup col (calculate_validity self column)) as [v|] eqn:Ev.
    - destruct (calculate_validity_lookup _ _ _ _ Ev) as [r [_ ->]].
      split; [apply validity_nonneg|apply validity_le_100].
    - split; discriminate. }
  unfold get_pct.
  destruct (lookup col consistency) as [k|] eqn:Ek.
  - destruct (for_columns_lookup _ _ _ _ _ _ Hk Ek) as [s [_ ->]].
    split; [apply consistency_nonneg|apply consistency_le_100].
  - split; discriminate.
Qed.

(** X12: over a well-formed table with at least one row, in every entry
    [calculate_quality_index] returns the three scores are the three
    percentages themselves (the [min(pct, 100)] never cuts), each score and
    the quality index lie in [0, 100], and the index lies between the
    smallest and the largest of the three scores. *)
Theorem X12_scores_are_the_percentages_and_the_index_is_within_0_and_100
        (self : QualityMetricsCalculator) (column : option string)
        (qi : list (string * QualityIndex)) (self' : QualityMetricsCalculator)
        (col : string) (e : QualityIndex)
        (Hwf : well_formed (df self) = true)
        (Hrows : (0 < len (df self))%nat)
        (Hqi : calculate_quality_index self column = Some (qi, self'))
        (He : lookup col qi = Some e) :
  exists completeness consistency,
    calculate_completeness self column = Some completeness
    /\ calculate_consistency self column = Some consistency
    /\ completeness_score e == get_pct completeness col completeness_percentage
    /\ validity_score e
       == get_pct (calculate_validity self column) col validity_percentage
    /\ consistency_score e == get_pct consistency col consistency_percentage
    /\ 0 <= completeness_score e <= 100
    /\ 0 <= validity_score e <= 100
    /\ 0 <= consistency_score e <= 100
    /\ 0 <= quality_index e <= 100
    /\ Qmin (Qmin (completeness_score e) (validity_score e)) (consistency_score e)
       <= quality_index e
       <= Qmax (Qmax (completeness_score e) (validity_score e)) (consistency_score e).
Proof.
  destruct (quality_entry_of_column self column qi self' col e Hwf Hrows Hqi He)
    as [completeness [consistency [Hc [Hk [-> [[Hc0 Hc1] [[Hv0 Hv1] [Hk0 Hk1]]]]]]]].
  exists completeness, consistency.
  split; [assumption|]. split; [assumption|].
  set (c := get_pct completeness col completeness_percentage) in *.
  set (v := get_pct (calculate_validity self column) col validity_percentage) in *.
  set (k := get_pct consistency col consistency_percentage) in *.
  clearbody c v k.
  unfold quality_entry.
  cbn [completeness_score validity_score consistency_score quality_index].
  unfold Config.W_completude, Config.W_validade, Config.W_consistencia.
  assert (Qmin c 100 == c) as Ec by (apply Q.min_l; assumption).
  assert (Qmin v 100 == v) as Ev by (apply Q.min_l; assumption).
  assert (Qmin k 100 == k) as Ek by (apply Q.min_l; assumption).
  rewrite Ec, Ev, Ek.
  split; [reflexivity|]. split; [reflexivity|]. split; [reflexivity|].
  split; [split; assumption|]. split; [split; assumption|].
  split; [split; assumption|].
  split; [split; lra|].
  pose proof (Q.le_min_l (Qmin c v) k). pose proof (Q.le_min_r (Qmin c v) k).
  pose proof (Q.le_min_l c v). pose proof (Q.le_min_r c v).
  pose proof (Q.le_max_l (Qmax c v) k). pose proof (Q.le_max_r (Qmax c v) k).
  pose proof (Q.le_max_l c v). pose proof (Q.le_max_r c v).
  set (lo := Qmin (Qmin c v) k) in *. set (hi := Qmax (Qmax c v) k) in *.
  set (lo' := Qmin c v) in *. set (hi' := Qmax c v) in *.
  clearbody lo hi lo' hi'. split; lra.
Qed.

Lemma Qsum_bounds (lo hi : Q) (l : list Q) :
  (forall x, In x l -> lo <= x <= hi) ->
  Qlen l * lo <= Qsum l <= Qlen l * hi.
Proof.
  induction l as [|x r IH]; intros H.
  - unfold Qlen. simpl. change (inject_Z 0) with 0. split; lra.
  - destruct IH as [I1 I2]; [intros y Hy; apply H; now right|].
    destruct (H x (or_introl eq_refl)) as [H1 H2].
    assert (Qlen (x :: r) == 1 + Qlen r) as E.
    { unfold Qlen. cbn [List.length]. rewrite Nat2Z.inj_succ, <- Z.add_1_l.
      rewrite inject_Z_plus. reflexivity. }
    simpl Qsum. rewrite E. split; lra.
Qed.

Lemma mean_bounds (lo hi : Q) (l : list Q) :
  l <> [] -> (forall x, In x l -> lo <= x <= hi) ->
  lo <= Qsum l / Qlen l <= hi.
Proof.
  intros Hne H. destruct (Qsum_bounds lo hi l H) as [H1 H2].
  assert (0 < Qlen l) as Hpos.
  { apply Qlen_pos. destruct l; [contradiction|simpl; lia]. }
  split.
  - apply Qle_shift_div_l; [assumption|lra].
  - apply Qle_shift_div_r; [assumption|lra].
Qed.

Lemma Qsum_weighted {A} (f a b c : A -> Q) (w1 w2 w3 : Q) (m : list A) :
  (forall e, In e m -> f e == a e * w1 + b e * w2 + c e * w3) ->
  Qsum (map f m)
  == Qsum (map a m) * w1 + Qsum (map b m) * w2 + Qsum (map c m) * w3.
Proof.
  induction m as [|e r IH]; intros H; simpl; [ring|].
  rewrite IH by (intros y Hy; apply H; now right).
  rewrite (H e (or_introl eq_refl)). ring.
Qed.

Lemma np_mean_nonempty (l : list Q) :
  l <> [] -> np_mean l = Some (Qsum l / Qlen l).
Proof. destruct l; [contradiction|reflexivity]. Qed.

(** The overall record over entries whose scores lie in [0, 100] and whose
    index is the weighted sum of the scores. *)
Lemma overall_of_weighted (m : list (string * QualityIndex)) :
  m <> [] ->
  (forall p, In p m ->
             0 <= completeness_score (snd p) <= 100
             /\ 0 <= validity_score (snd p) <= 100
             /\ 0 <= consistency_score (snd p) <= 100
             /\ quality_index (snd p)
                == completeness_score (snd p) * (4 # 10)
                   + validity_score (snd p) * (4 # 10)
                   + consistency_score (snd p) * (2 # 10)) ->
  exists ac av ak,
    average_completeness (overall_of m) = Some ac
    /\ average_validity (overall_of m) = Some av
    /\ average_consistency (overall_of m) = Some ak
    /\ 0 <= ac <= 100 /\ 0 <= av <= 100 /\ 0 <= ak <= 100
    /\ overall_quality_index (overall_of m)
       == ac * (4 # 10) + av * (4 # 10) + ak * (2 # 10).
Proof.
  intros Hne H.
  assert (forall f : string * QualityIndex -> Q, Qlen (map f m) = Qlen m) as Hlen
      by (intros f; unfold Qlen; now rewrite length_map).
  assert (forall f : string * QualityIndex -> Q, map f m <> []) as Hmne
      by (intros f; destruct m; [contradiction|discriminate]).
  unfold overall_of.
  cbn [average_completeness average_validity average_consistency
       overall_quality_index].
  rewrite !np_mean_nonempty by apply Hmne.
  eexists. eexists. eexists.
  split; [reflexivity|]. split; [reflexivity|]. split; [reflexivity|].
  split.
  { apply mean_bounds; [apply Hmne|]. intros x Hx.
    apply in_map_iff in Hx. destruct Hx as [q [<- Hq]]. now apply H. }
  split.
  { apply mean_bounds; [apply Hmne|]. intros x Hx.
    apply in_map_iff in Hx. destruct Hx as [q [<- Hq]]. now apply H. }
  split.
  { apply mean_bounds; [apply Hmne|]. intros x Hx.
    apply in_map_iff in Hx. destruct Hx as [q [<- Hq]]. now apply H. }
  rewrite !Hlen.
  rewrite (Qsum_weighted (fun e => quality_index (snd e))
             (fun e => completeness_score (snd e))
             (fun e => validity_score (snd e))
             (fun e => consistency_score (snd e))
             (4 # 10) (4 # 10) (2 # 10) m)
    by (intros q Hq; now apply H).
  assert (0 < Qlen m) as Hpos
      by (apply Qlen_pos; destruct m; [contradiction|simpl; lia]).
  field. lra.
Qed.

Lemma variable_names_NoDup (d : DataFrame) :
  well_formed d = true -> NoDup (variable_names d).
Proof.
  intros H. unfold variable_names. apply NoDup_filter.
  now apply well_formed_NoDup.
Qed.

(** X13: on a calculator that has not computed anything yet, over a
    well-formed table with at least one row, [get_overall_quality_index]
    counts every variable column and its index lies in [0, 100].  Without a
    variable column the index is 0, the recommendation "Inadequado" and the
    three averages are NaN; otherwise the three averages lie in [0, 100] and
    the overall index is their weighted sum 0.4 / 0.4 / 0.2. *)
Theorem X13_overall_index_is_the_weighted_sum_of_the_three_averages
        (self : QualityMetricsCalculator)
        (Hwf : well_formed (df self) = true)
        (Hrows : (0 < len (df self))%nat)
        (Hfresh : metrics self = []) :
  exists o self',
    get_overall_quality_index self = Some (o, self')
    /\ variable_count o = List.length (variable_names (df self))
    /\ 0 <= overall_quality_index o <= 100
    /\ (variable_names (df self) = [] ->
        overall_quality_index o == 0
        /\ recommendation o = "Inadequado"%string
        /\ average_completeness o = None
        /\ average_validity o = None
        /\ average_consistency o = None)
    /\ (variable_names (df self) <> [] ->
        exists ac av ak,
          average_completeness o = Some ac
          /\ average_validity o = Some av
          /\ average_consistency o = Some ak
          /\ 0 <= ac <= 100 /\ 0 <= av <= 100 /\ 0 <= ak <= 100
          /\ overall_quality_index o
             == ac * (4 # 10) + av * (4 # 10) + ak * (2 # 10)).
Proof.
  destruct (all_columns_computed self)
    as [completeness [consistency [Hc [Hk [Hkeys _]]]]].
  destruct (quality_index_lookup self None completeness consistency Hc Hk)
    as [qi [Hqi [Hfst _]]].
  unfold get_overall_quality_index. rewrite Hfresh, Hqi. cbn [metrics].
  eexists. eexists. split; [reflexivity|].
  assert (List.length qi = List.length (variable_names (df self))) as Hlen.
  { rewrite <- Hkeys, <- Hfst. now rewrite length_map. }
  split; [exact Hlen|].
  assert (forall p, In p qi ->
             0 <= completeness_score (snd p) <= 100
             /\ 0 <= validity_score (snd p) <= 100
             /\ 0 <= consistency_score (snd p) <= 100
             /\ quality_index (snd p)
                == completeness_score (snd p) * (4 # 10)
                   + validity_score (snd p) * (4 # 10)
                   + consistency_score (snd p) * (2 # 10)) as Hentries.
  { intros [name e] Hin. cbn [snd].
    assert (lookup name qi = Some e) as Hl.
    { apply lookup_in; [|assumption]. rewrite Hfst, Hkeys.
      now apply variable_names_NoDup. }
    destruct (quality_entry_of_column self None qi _ name e Hwf Hrows Hqi Hl)
      as [c' [k' [_ [_ [-> [[Hc0 Hc1] [[Hv0 Hv1] [Hk0 Hk1]]]]]]]].
    unfold quality_entry.
    cbn [completeness_score validity_score consistency_score quality_index].
    rewrite !Q.min_l by assumption.
    repeat split; try assumption. }
  destruct qi as [|p r] eqn:Eqi.
  - (* no variable column *)
    assert (variable_names (df self) = []) as Hnone
        by (apply length_zero_iff_nil; simpl in Hlen; lia).
    split; [split; discriminate|].
    split; [intros _; repeat split; reflexivity|].
    intros Hne. contradiction.
  - rewrite <- Eqi in *.
    assert (qi <> []) as Hne by (rewrite Eqi; discriminate).
    destruct (overall_of_weighted qi Hne Hentries)
      as [ac [av [ak [Ha [Hv [Hk' [Bc [Bv [Bk Hw]]]]]]]]].
    split; [rewrite Hw; split; lra|].
    split.
    + intros Hnone. rewrite Hnone in Hlen. rewrite Eqi in Hlen. discriminate.
    + intros _. exists ac, av, ak. repeat split; try assumption; tauto.
Qed.

(** X14: [calculate_quality_index] with a column name leaves only that
    column in [self.metrics], and [get_overall_quality_index] then reuses
    it: however many variables the table has, the overall record reports one
    variable and the index of that column alone. *)
Theorem X14_overall_index_after_a_single_column_call_covers_that_column_only
        (self : QualityMetricsCalculator) (col : string) (s : list cell)
        (Hwf : well_formed (df self) = true)
        (Hcol : In (col, s) (variables (df self)))
        (Hname : col <> "Data"%string)
        (Hne : col <> ""%string) :
  exists e self1 o,
    calculate_quality_index self (Some col) = Some ([(col, e)], self1)
    /\ get_overall_quality_index self1 = Some (o, self1)
    /\ variable_count o = 1%nat
    /\ overall_quality_index o == quality_index e
    /\ recommendation o = fst (get_recommendation (quality_index e)).
Proof.
  assert (lookup col (variables (df self)) = Some s) as Hs
      by (apply lookup_in; [now apply well_formed_NoDup|assumption]).
  unfold calculate_quality_index, calculate_completeness, calculate_consistency.
  unfold columns_for.
  destruct (String.eqb_spec col "") as [|_]; [contradiction|].
  cbn [for_columns]. rewrite Hs. cbn [map fst snd].
  eexists. eexists. eexists. split; [reflexivity|].
  unfold get_overall_quality_index. cbn [metrics].
  split; [reflexivity|]. split; [reflexivity|].
  set (e := quality_entry _ _ _).
  assert (overall_quality_index (overall_of [(col, e)]) == quality_index e) as E.
  { unfold overall_of. cbn [overall_quality_index map snd np_mean].
    unfold Qlen. cbn [List.length]. change (inject_Z (Z.of_nat 1)) with 1.
    set (x := quality_index e). clearbody x.
    unfold Qsum. cbn [fold_right]. field. }
  split; [exact E|].
  unfold overall_of. cbn [recommendation map snd np_mean].
  unfold get_recommendation.
  assert (forall a b c : Q, a == b -> Qle_bool c a = Qle_bool c b) as Hcompat.
  { intros a b c Hab. destruct (Qle_bool c a) eqn:E1; symmetry.
    - apply Qle_bool_iff. apply Qle_bool_iff in E1. lra.
    - destruct (Qle_bool c b) eqn:E2; [|reflexivity].
      apply Qle_bool_iff in E2.
      assert (Qle_bool c a = true) by (apply Qle_bool_iff; lra). congruence. }
  unfold overall_of in E. cbn [overall_quality_index map snd np_mean] in E.
  rewrite (Hcompat _ _ Config.RC_adequado E).
  rewrite (Hcompat _ _ Config.RC_parcialmente_adequado E).
  destruct (Qle_bool Config.RC_adequado (quality_index e)); [reflexivity|].
  destruct (Qle_bool Config.RC_parcialmente_adequado (quality_index e));
    reflexivity.
Qed.

(** X15: the colour the overview shows always agrees with the
    recommendation of the summary it is given: green with "Adequado",
    orange with "Parcialmente Adequado", red with "Inadequado". *)
Theorem X15_overview_colour_agrees_with_the_recommendation
        (self self' : QualityMetricsCalculator) (summary : QualitySummary)
        (Hs : get_quality_summary self = Some (summary, self')) :
  (recommendation (qs_overall summary) = "Adequado"%string
   <-> App.quality_color (overall_quality_index (qs_overall summary))
       = ("green", "quality-good")%string)
  /\ (recommendation (qs_overall summary) = "Parcialmente Adequado"%string
      <-> App.quality_color (overall_quality_index (qs_overall summary))
          = ("orange", "quality-warning")%string)
  /\ (recommendation (qs_overall summary) = "Inadequado"%string
      <-> App.quality_color (overall_quality_index (qs_overall summary))
          = ("red", "quality-error")%string).
Proof.
  unfold get_quality_summary in Hs.
  destruct (calculate_completeness self None); [|discriminate].
  destruct (calculate_consistency self None); [|discriminate].
  destruct (get_overall_quality_index self) as [[o s1]|] eqn:Ho; [|discriminate].
  injection Hs as <- _. cbn [qs_overall].
  assert (exists m, o = overall_of m) as [m ->].
  { unfold get_overall_quality_index in Ho.
    destruct (metrics self) as [|p r].
    - destruct (calculate_quality_index self None) as [[qi s2]|]; [|discriminate].
      injection Ho as <- _. now eexists.
    - injection Ho as <- _. now eexists. }
  unfold overall_of. cbn [recommendation overall_quality_index].
  set (q := match np_mean _ with Some v => v | None => 0 end). clearbody q.
  unfold get_recommendation, App.quality_color.
  destruct (Qle_bool Config.RC_adequado q).
  { cbn [fst]. repeat split; intros; try reflexivity; discriminate. }
  destruct (Qle_bool Config.RC_parcialmente_adequado q).
  { cbn [fst]. repeat split; intros; try reflexivity; discriminate. }
  cbn [fst]. repeat split; intros; try reflexivity; discriminate.
Qed.

End QualityBounds.

(* ================================================================== *)
(** * Further properties: change points *)

Section ChangePointsFacts.

Import DataValidator.

Lemma enumerate_sorted_by {A} (g : A -> nat) (f : nat * A -> bool) (l : list A) :
  StronglySorted lt (map g l) ->
  forall k,
    StronglySorted lt (map (fun p => g (snd p)) (filter f (enumerate_from k l))).
Proof.
  induction l as [|x r IH]; intros Hs k; simpl; [constructor|].
  inversion Hs as [|? ? Hr Hall]; subst.
  destruct (f (k, x)); simpl; [|now apply IH].
  constructor; [now apply IH|].
  apply Forall_forall. intros y Hy.
  apply in_map_iff in Hy. destruct Hy as [[j a] [<- Hin]].
  apply filter_In in Hin. destruct Hin as [Hin _].
  apply enumerate_from_In in Hin. destruct Hin as [_ Hn].
  apply nth_error_In in Hn. rewrite Forall_forall in Hall.
  apply Hall. simpl. now apply in_map.
Qed.

Lemma indexed_dropna_labels_sorted {A} (s : list (option A)) :
  StronglySorted lt (map fst (indexed_dropna s)).
Proof.
  pose proof (indexed_dropna_sorted s (fun _ => true)) as H.
  assert (forall l : list (nat * A), filter (fun _ => true) l = l) as E.
  { induction l as [|x r IH]; simpl; [reflexivity|now rewrite IH]. }
  now rewrite E in H.
Qed.

Lemma filter_positions_length {A} (f : nat * A -> bool) (lo hi : nat) (l : list A) :
  forall k,
    (forall p, In p (enumerate_from k l) -> f p = true ->
               (lo <= fst p < hi)%nat) ->
    (List.length (filter f (enumerate_from k l))
     <= Nat.min hi (k + List.length l) - Nat.max lo k)%nat.
Proof.
  induction l as [|x r IH]; intros k H; simpl; [lia|].
  assert (List.length (filter f (enumerate_from (S k) r))
          <= Nat.min hi (S k + List.length r) - Nat.max lo (S k))%nat as Hr.
  { apply IH. intros p Hp. apply H. now right. }
  destruct (f (k, x)) eqn:E; simpl.
  - pose proof (H (k, x) (or_introl eq_refl) E) as Hk. simpl in Hk. lia.
  - lia.
Qed.

Lemma slice_In {A} (a b : nat) (l : list A) (x : A) :
  In x (slice a b l) -> In x l.
Proof.
  unfold slice. intros H.
  rewrite <- (firstn_skipn a l). apply in_or_app. right.
  rewrite <- (firstn_skipn (b - a) (skipn a l)). apply in_or_app. now left.
Qed.

Lemma slice_length {A} (a b : nat) (l : list A) :
  (a <= b)%nat -> (b <= List.length l)%nat ->
  List.length (slice a b l) = (b - a)%nat.
Proof.
  intros Hab Hb. unfold slice. rewrite length_firstn, length_skipn. lia.
Qed.

(** A complete window around position [i]: [i] is neither among the
    first [w / 2] nor among the last [(w - 1) / 2] positions. *)
Lemma rolling_window_some (w : nat) (data win : list Q) (i : nat) :
  rolling_window w data i = Some win ->
  (w <= i + 1 + (w - 1) / 2)%nat
  /\ (i + (w - 1) / 2 < List.length data)%nat
  /\ List.length win = w
  /\ (forall x, In x win -> In x data).
Proof.
  unfold rolling_window.
  set (o := ((w - 1) / 2)%nat). clearbody o. cbv zeta.
  destruct (Nat.leb_spec w (i + 1 + o)) as [H1|]; [|discriminate].
  destruct (Nat.leb_spec (i + 1 + o) (List.length data)) as [H2|];
    [|discriminate].
  cbn [andb]. intros E. injection E as <-.
  split; [assumption|]. split; [lia|].
  split; [rewrite slice_length; lia|].
  intros x. apply slice_In.
Qed.

Lemma change_flag_true (w : nat) (data : list Q) (i : nat) (x : Q) :
  change_flag w data i x = true ->
  (2 <= w)%nat /\ (w / 2 <= i)%nat /\ (i + (w - 1) / 2 < List.length data)%nat.
Proof.
  unfold change_flag.
  destruct (rolling_window w data i) as [win|] eqn:E; [|discriminate].
  destruct (Nat.ltb_spec w 2) as [|Hw]; [discriminate|].
  intros _. apply rolling_window_some in E. destruct E as [H1 [H2 _]].
  split; [assumption|]. split; [|assumption].
  pose proof (Nat.div_mod_eq w 2) as Hd.
  pose proof (Nat.div_mod_eq (w - 1) 2) as Hd'.
  pose proof (Nat.mod_upper_bound w 2 ltac:(lia)).
  pose proof (Nat.mod_upper_bound (w - 1) 2 ltac:(lia)).
  lia.
Qed.

Lemma change_flag_constant (w : nat) (data : list Q) (i : nat) (x : Q) :
  (forall y z, In y data -> In z data -> y == z) ->
  In x data -> change_flag w data i x = false.
Proof.
  intros Hconst Hx. unfold change_flag.
  destruct (rolling_window w data i) as [win|] eqn:E; [|reflexivity].
  destruct (Nat.ltb_spec w 2) as [|Hw]; [reflexivity|].
  apply rolling_window_some in E. destruct E as [_ [_ [Hlen Hin]]].
  apply negb_false_iff. apply Qle_bool_iff.
  assert (win <> []) as Hne by (intros ->; simpl in Hlen; lia).
  assert (x <= mean win <= x) as [M1 M2].
  { apply mean_bounds; [assumption|]. intros y Hy.
    pose proof (Hconst x y Hx (Hin y Hy)). split; lra. }
  pose proof (sample_variance_nonneg win ltac:(lia)) as Hv.
  assert (x - mean win == 0) as E0 by lra.
  rewrite E0. lra.
Qed.

(** X16: on a variable column, [detect_change_points] answers "Dados
    insuficientes" exactly when fewer than 2 * window_size values are
    non-null.  Otherwise a negative window_size is a ValueError, and on a
    table without rows the percentage is a ZeroDivisionError; on a table
    with rows the change points are row labels of non-null values in
    increasing order; none is among the first window_size / 2 or the last
    (window_size - 1) / 2 non-null observations, so at most
    n - (window_size - 1) of the n observations can be reported; a window
    of fewer than 2 values and a column whose non-null values are all equal
    give no change point. *)
Theorem X16_change_points_lie_inside_complete_windows
        (d : DataFrame) (col : string) (s : list cell) (window_size : Z)
        (Hwf : well_formed d = true)
        (Hcol : In (col, s) (variables d))
        (Hname : col <> "Data"%string) :
  ((Z.of_nat (List.length (dropna s)) < window_size * 2)%Z ->
   detect_change_points d col window_size
   = Returns (ChangeInsufficient [] "Dados insuficientes"))
  /\ ((window_size < 0)%Z ->
      detect_change_points d col window_size = Raises ValueError)
  /\ ((0 <= window_size)%Z ->
      (window_size * 2 <= Z.of_nat (List.length (dropna s)))%Z ->
      len d = 0%nat ->
      detect_change_points d col window_size = Raises ZeroDivisionError)
  /\ ((0 <= window_size)%Z ->
      (window_size * 2 <= Z.of_nat (List.length (dropna s)))%Z ->
      (0 < len d)%nat ->
      exists cps,
        detect_change_points d col window_size
        = Returns (ChangeReport cps (List.length cps)
                                ((Qnat (List.length cps) / Qnat (len d)) * 100))
        /\ StronglySorted lt cps
        /\ (forall i,
               In i cps ->
               exists j x,
                 nth_error (indexed_dropna s) j = Some (i, x)
                 /\ nth_error s i = Some (Some x)
                 /\ (Z.to_nat window_size / 2 <= j)%nat
                 /\ (j + (Z.to_nat window_size - 1) / 2
                     < List.length (dropna s))%nat)
        /\ (List.length cps + (Z.to_nat window_size - 1)
            <= List.length (dropna s))%nat
        /\ ((window_size < 2)%Z -> cps = [])
        /\ ((forall y z, In y (dropna s) -> In z (dropna s) -> y == z) ->
            cps = [])).
Proof.
  unfold detect_change_points.
  rewrite (on_column_variable d col s _ Hwf Hcol Hname).
  unfold change_points_of.
  split.
  { intros Hlt.
    destruct (Z.ltb_spec (Z.of_nat (List.length (dropna s))) (window_size * 2));
      [reflexivity|lia]. }
  split.
  { intros Hneg.
    destruct (Z.ltb_spec (Z.of_nat (List.length (dropna s))) (window_size * 2));
      [lia|].
    destruct (Z.ltb_spec window_size 0); [reflexivity|lia]. }
  split.
  { intros Hw Hge Hrows.
    destruct (Z.ltb_spec (Z.of_nat (List.length (dropna s))) (window_size * 2));
      [lia|].
    destruct (Z.ltb_spec window_size 0); [lia|].
    now rewrite Hrows. }
  intros Hw Hge Hrows.
  destruct (Z.ltb_spec (Z.of_nat (List.length (dropna s))) (window_size * 2));
    [lia|].
  destruct (Z.ltb_spec window_size 0); [lia|].
  destruct (Nat.eqb_spec (len d) 0); [lia|].
  set (w := Z.to_nat window_size).
  eexists. split; [reflexivity|].
  set (f := fun p : nat * (nat * Q) =>
              change_flag w (dropna s) (fst p) (snd (snd p))).
  assert (forall p, In p (enumerate (indexed_dropna s)) -> f p = true ->
                    (w / 2 <= fst p
                     < List.length (dropna s) - (w - 1) / 2)%nat) as Hpos.
  { intros [j [i x]] _ Hf. unfold f in Hf. cbn [fst snd] in *.
    apply change_flag_true in Hf. lia. }
  split.
  { apply (enumerate_sorted_by (@fst nat Q) f (indexed_dropna s)).
    apply indexed_dropna_labels_sorted. }
  split.
  { intros i Hi. apply in_map_iff in Hi. destruct Hi as [[j [i' x]] [Ei Hin]].
    cbn [fst snd] in Ei. subst i'.
    apply filter_In in Hin. destruct Hin as [Hin Hf].
    pose proof (Hpos _ Hin Hf) as Hj. cbn [fst] in Hj.
    apply enumerate_from_In in Hin. destruct Hin as [_ Hn].
    rewrite Nat.sub_0_r in Hn.
    exists j, x. split; [assumption|].
    split; [apply indexed_dropna_In; eapply nth_error_In; eassumption|].
    lia. }
  split.
  { rewrite length_map.
    pose proof (filter_positions_length f (w / 2)
                  (List.length (dropna s) - (w - 1) / 2)
                  (indexed_dropna s) 0 Hpos) as Hcount.
    fold (enumerate (indexed_dropna s)) in Hcount.
    assert (List.length (indexed_dropna s) = List.length (dropna s)) as El
        by (rewrite <- (indexed_dropna_values s); now rewrite length_map).
    rewrite El in Hcount.
    pose proof (Nat.div_mod_eq w 2) as Hd.
    pose proof (Nat.div_mod_eq (w - 1) 2) as Hd'.
    pose proof (Nat.mod_upper_bound w 2 ltac:(lia)).
    pose proof (Nat.mod_upper_bound (w - 1) 2 ltac:(lia)).
    lia. }
  split.
  { intros Hw2. rewrite filter_none; [reflexivity|].
    intros p _. destruct (f p) eqn:E; [|reflexivity].
    apply change_flag_true in E. unfold w in E. lia. }
  intros Hconst. rewrite filter_none; [reflexivity|].
  intros [j [i x]] Hin. unfold f. cbn [fst snd].
  apply change_flag_constant; [assumption|].
  apply enumerate_from_In in Hin. destruct Hin as [_ Hn].
  apply nth_error_In in Hn.
  rewrite <- (indexed_dropna_values s).
  apply in_map_iff. now exists (i, x).
Qed.

End ChangePointsFacts.

(* ================================================================== *)
(** * Further properties: the loader *)

Section LoaderFacts.

Import DataLoader.
Local Open Scope string_scope.

Lemma comma_prefix (s : string) :
  String.prefix "," s = true -> exists r, s = String ","%char r.
Proof.
  destruct s as [|c r]; [discriminate|]. simpl.
  destruct (Ascii.ascii_dec c ","%char) as [->|Hne]; [now exists r|].
  intros H. exfalso.
  destruct c as [[] [] [] [] [] [] [] []]; simpl in H;
    try discriminate; now apply Hne.
Qed.

(** X17: [fix_malformed_numbers] is idempotent, and it never changes what
    the conversion that follows gives: a cell converts to the same number,
    or to null, with the repair and without it. *)
Theorem X17_number_repair_never_changes_the_converted_value (v : value) :
  fix_malformed_numbers (fix_malformed_numbers v) = fix_malformed_numbers v
  /\ repair_and_convert v = to_numeric v.
Proof.
  destruct v as [s|]; [|split; reflexivity].
  destruct (String.prefix "," s) eqn:E.
  - split.
    + rewrite (repair_prepends_zero s E). unfold fix_malformed_numbers.
      assert (String.prefix "," ("0" ++ s) = false) as ->; [|reflexivity].
      simpl. destruct (Ascii.ascii_dec "," "0"); [discriminate|reflexivity].
    + rewrite (repaired_field_is_null s E).
      destruct (comma_prefix s E) as [r ->]. reflexivity.
  - unfold repair_and_convert, fix_malformed_numbers. rewrite E.
    cbn beta iota. rewrite E. split; reflexivity.
Qed.

Local Close Scope string_scope.

Lemma text_eqb_eq (a b : text) : text_eqb a b = true <-> a = b.
Proof.
  revert b. induction a as [|x r IH]; intros [|y t]; simpl;
    try (split; [discriminate|discriminate]); [tauto|].
  rewrite andb_true_iff, N.eqb_eq, IH. split.
  - intros [-> ->]. reflexivity.
  - intros E. injection E as -> ->. tauto.
Qed.

Lemma text_eqb_refl (a : text) : text_eqb a a = true.
Proof. now apply text_eqb_eq. Qed.

Lemma startswith_spec (p s : text) :
  startswith p s = true <-> exists post, s = p ++ post.
Proof.
  revert s. induction p as [|c r IH]; intros s; simpl.
  - split; [intros _; now exists s|reflexivity].
  - destruct s as [|x t].
    + split; [discriminate|]. intros [post H]. discriminate.
    + rewrite andb_true_iff, N.eqb_eq, IH. split.
      * intros [-> [post ->]]. now exists post.
      * intros [post H]. injection H as -> ->. split; [reflexivity|now exists post].
Qed.

(** [pattern in line]: the pattern is a contiguous part of the line. *)
Lemma contains_spec (p s : text) :
  contains p s = true <-> exists pre post, s = pre ++ p ++ post.
Proof.
  induction s as [|x t IH].
  - simpl. rewrite orb_false_r, startswith_spec. split.
    + intros [post H]. now exists [], post.
    + intros [pre [post H]]. destruct pre as [|y pre]; [|discriminate].
      now exists post.
  - cbn [contains]. rewrite orb_true_iff, startswith_spec, IH. split.
    + intros [[post H]|[pre [post H]]].
      * now exists [], post.
      * exists (x :: pre), post. simpl. now rewrite H.
    + intros [pre [post H]]. destruct pre as [|y pre].
      * left. now exists post.
      * right. injection H as _ H. now exists pre, post.
Qed.

Lemma find_marker_from_spec (lines : list text) (k : nat) :
  match find_marker_from k lines with
  | Some i =>
      (k <= i)%nat
      /\ (exists line, nth_error lines (i - k) = Some line
                       /\ contains header_marker line = true)
      /\ (forall j line, (j < i - k)%nat -> nth_error lines j = Some line ->
                         contains header_marker line = false)
  | None => forall line, In line lines -> contains header_marker line = false
  end.
Proof.
  revert k. induction lines as [|l r IH]; intros k; simpl.
  - intros line [].
  - rewrite orb_diag. destruct (contains header_marker l) eqn:E.
    + split; [lia|]. rewrite Nat.sub_diag. split.
      * exists l. split; [reflexivity|assumption].
      * intros j line Hj. lia.
    + specialize (IH (S k)). destruct (find_marker_from (S k) r) as [i|].
      * destruct IH as [Hk [[line [Hn Hc]] Hbefore]].
        split; [lia|]. split.
        -- exists line. split; [|assumption].
           replace (i - k)%nat with (S (i - S k)) by lia. exact Hn.
        -- intros j line' Hj Hn'. destruct j as [|j].
           ++ simpl in Hn'. injection Hn' as <-. assumption.
           ++ apply (Hbefore j); [lia|exact Hn'].
      * intros line [<-|Hin]; [assumption|now apply IH].
Qed.

(** X18: [find_header_line] returns the number of the first line that
    contains the text "Data Medicao" anywhere in it; when no line of the
    file does, it returns the default 10, whatever the length of the
    file. *)
Theorem X18_header_line_is_the_first_line_with_the_marker (lines : list text) :
  (exists line,
      nth_error lines (find_header_line lines) = Some line
      /\ (exists pre post, line = pre ++ header_marker ++ post)
      /\ (forall j other pre post,
             (j < find_header_line lines)%nat ->
             nth_error lines j = Some other ->
             other <> pre ++ header_marker ++ post))
  \/ ((forall line pre post,
          In line lines -> line <> pre ++ header_marker ++ post)
      /\ find_header_line lines = 10%nat).
Proof.
  unfold find_header_line.
  pose proof (find_marker_from_spec lines 0) as H.
  destruct (find_marker_from 0 lines) as [i|].
  - left. destruct H as [_ [[line [Hn Hc]] Hbefore]].
    rewrite Nat.sub_0_r in *. exists line. split; [assumption|].
    split; [now apply contains_spec|].
    intros j other pre post Hj Hn' ->.
    specialize (Hbefore j _ ltac:(lia) Hn').
    assert (contains header_marker (pre ++ header_marker ++ post) = true) as Ht
        by (apply contains_spec; now exists pre, post).
    congruence.
  - right. split; [|reflexivity].
    intros line pre post Hin ->. specialize (H _ Hin).
    assert (contains header_marker (pre ++ header_marker ++ post) = true) as Ht
        by (apply contains_spec; now exists pre, post).
    congruence.
Qed.

Lemma lstrip_In (s : text) (c : N) : In c (lstrip s) -> In c s.
Proof.
  induction s as [|x r IH]; simpl; [tauto|].
  destruct (isspace x); [intros H; right; now apply IH|tauto].
Qed.

Lemma lstrip_length (s : text) : (List.length (lstrip s) <= List.length s)%nat.
Proof.
  induction s as [|x r IH]; simpl; [lia|]. destruct (isspace x); simpl; lia.
Qed.

Lemma lstrip_idem (s : text) : lstrip (lstrip s) = lstrip s.
Proof.
  induction s as [|x r IH]; simpl; [reflexivity|].
  destruct (isspace x) eqn:E; [assumption|]. simpl. now rewrite E.
Qed.

Lemma lstrip_fixed_head (c : N) (r : text) :
  lstrip (c :: r) = c :: r -> isspace c = false.
Proof.
  simpl. destruct (isspace c); [|reflexivity].
  intros H. pose proof (lstrip_length r) as Hl. rewrite H in Hl. simpl in Hl. lia.
Qed.

Lemma lstrip_keeps_last (l : text) (c : N) :
  isspace c = false -> exists l', lstrip (l ++ [c]) = l' ++ [c].
Proof.
  intros Hc. induction l as [|x r IH]; simpl.
  - rewrite Hc. now exists [].
  - destruct (isspace x); [assumption|]. now exists (x :: r).
Qed.

Lemma rstrip_In (s : text) (c : N) : In c (rstrip s) -> In c s.
Proof.
  unfold rstrip. intros H. apply in_rev in H. apply lstrip_In in H.
  now apply in_rev.
Qed.

Lemma rstrip_keeps_clean_head (s : text) :
  lstrip s = s -> lstrip (rstrip s) = rstrip s.
Proof.
  destruct s as [|c r]; [reflexivity|]. intros H.
  apply lstrip_fixed_head in H. unfold rstrip. cbn [rev].
  destruct (lstrip_keeps_last (rev r) c H) as [l' ->].
  rewrite rev_app_distr. simpl. now rewrite H.
Qed.

Lemma strip_In (s : text) (c : N) : In c (strip s) -> In c s.
Proof. unfold strip. intros H. apply rstrip_In in H. now apply lstrip_In. Qed.

(** What [strip] returns has no white space at either end, so stripping
    it again changes nothing. *)
Lemma strip_idem (s : text) : strip (strip s) = strip s.
Proof.
  unfold strip at 1.
  assert (lstrip (strip s) = strip s) as ->.
  { unfold strip. apply rstrip_keeps_clean_head. apply lstrip_idem. }
  unfold strip, rstrip. rewrite rev_involutive, lstrip_idem. reflexivity.
Qed.

Lemma split_key_no_colon (s : text) :
  has_colon (fst (split_first_colon s)) = false.
Proof.
  unfold has_colon. induction s as [|c r IH]; simpl; [reflexivity|].
  destruct (N.eqb_spec c colon) as [|Hne]; [reflexivity|].
  destruct (split_first_colon r) as [k v]. cbn [fst existsb] in *.
  rewrite IH, orb_false_r. apply N.eqb_neq. congruence.
Qed.

Lemma no_colon_strip (s : text) : has_colon s = false -> has_colon (strip s) = false.
Proof.
  unfold has_colon. intros H.
  destruct (existsb (N.eqb colon) (strip s)) eqn:E; [|reflexivity].
  apply existsb_exists in E. destruct E as [c [Hin Hc]].
  apply strip_In in Hin.
  assert (existsb (N.eqb colon) s = true) by (apply existsb_exists; now exists c).
  congruence.
Qed.

Lemma metadata_step_key (metadata : list (text * text)) (raw : text) :
  metadata_step metadata raw
  = match line_key raw with
    | Some k => dict_set k (line_value raw) metadata
    | None => metadata
    end.
Proof.
  unfold metadata_step, line_key, line_value.
  destruct (has_colon (strip raw)); [|reflexivity].
  now destruct (split_first_colon (strip raw)).
Qed.

Lemma dict_get_set (k k' v : text) (d : list (text * text)) :
  dict_get k (dict_set k' v d)
  = if text_eqb k k' then Some v else dict_get k d.
Proof.
  induction d as [|[a b] r IH]; simpl.
  - reflexivity.
  - destruct (text_eqb k' a) eqn:E.
    + apply text_eqb_eq in E. subst a. simpl.
      destruct (text_eqb k k'); reflexivity.
    + simpl. destruct (text_eqb k a) eqn:E'.
      * destruct (text_eqb k k') eqn:E''; [|reflexivity].
        apply text_eqb_eq in E', E''. subst.
        rewrite text_eqb_refl in E. discriminate.
      * exact IH.
Qed.

(** What the loop of [extract_metadata] leaves under a key: the value of
    the last line that has this key, or what was there before. *)
Lemma metadata_fold_get (ls : list text) (d : list (text * text)) (k v : text) :
  dict_get k (fold_left metadata_step ls d) = Some v
  <-> (exists i raw,
          nth_error ls i = Some raw
          /\ line_key raw = Some k /\ line_value raw = v
          /\ forall j other, (i < j)%nat -> nth_error ls j = Some other ->
                             line_key other <> Some k)
      \/ (dict_get k d = Some v
          /\ forall raw, In raw ls -> line_key raw <> Some k).
Proof.
  induction ls as [|x ls IH] using rev_ind.
  - simpl. split.
    + intros H. right. split; [assumption|]. intros raw [].
    + intros [[i [raw [Hn _]]]|[H _]]; [now destruct i|assumption].
  - rewrite fold_left_app. cbn [fold_left]. rewrite metadata_step_key.
    destruct (line_key x) as [kx|] eqn:Ex.
    + rewrite dict_get_set. destruct (text_eqb k kx) eqn:Ek.
      * apply text_eqb_eq in Ek. subst kx. split.
        -- intros H. injection H as <-. left.
           exists (List.length ls), x.
           split; [now rewrite nth_error_app2, Nat.sub_diag by lia|].
           split; [assumption|]. split; [reflexivity|].
           intros j other Hj Hn. exfalso.
           assert (j < List.length (ls ++ [x]))%nat as Hlt
               by (apply nth_error_Some; congruence).
           rewrite length_app in Hlt. simpl in Hlt. lia.
        -- intros [[i [raw [Hn [Hk [Hv Hlast]]]]]|[_ Hnone]].
           ++ destruct (Nat.lt_ge_cases i (List.length ls)) as [Hlt|Hge].
              ** exfalso. apply (Hlast (List.length ls) x Hlt); [|assumption].
                 now rewrite nth_error_app2, Nat.sub_diag by lia.
              ** rewrite nth_error_app2 in Hn by lia.
                 destruct (i - List.length ls)%nat as [|n] eqn:En.
                 --- simpl in Hn. injection Hn as <-. now rewrite Hv.
                 --- simpl in Hn. now destruct n.
           ++ exfalso. apply (Hnone x); [|assumption].
              apply in_or_app. right. now left.
      * assert (line_key x <> Some k) as Hx.
        { rewrite Ex. intros E. injection E as ->.
          rewrite text_eqb_refl in Ek. discriminate. }
        rewrite IH. split.
        -- intros [[i [raw [Hn [Hk [Hv Hlast]]]]]|[Hd Hnone]].
           ++ left. exists i, raw.
              assert (i < List.length ls)%nat as Hlt
                  by (apply nth_error_Some; congruence).
              split; [now rewrite nth_error_app1|].
              split; [assumption|]. split; [assumption|].
              intros j other Hj Hn'.
              destruct (Nat.lt_ge_cases j (List.length ls)) as [Hjl|Hjg].
              ** rewrite nth_error_app1 in Hn' by assumption.
                 now apply (Hlast j).
              ** rewrite nth_error_app2 in Hn' by lia.
                 destruct (j - List.length ls)%nat as [|n].
                 --- simpl in Hn'. injection Hn' as <-. assumption.
                 --- simpl in Hn'. now destruct n.
           ++ right. split; [assumption|].
              intros raw Hin. apply in_app_or in Hin.
              destruct Hin as [Hin|[<-|[]]]; [now apply Hnone|assumption].
        -- intros [[i [raw [Hn [Hk [Hv Hlast]]]]]|[Hd Hnone]].
           ++ left. exists i, raw.
              destruct (Nat.lt_ge_cases i (List.length ls)) as [Hlt|Hge].
              ** rewrite nth_error_app1 in Hn by assumption.
                 split; [assumption|]. split; [assumption|].
                 split; [assumption|].
                 intros j other Hj Hn'. apply (Hlast j); [assumption|].
                 rewrite nth_error_app1; [assumption|].
                 apply nth_error_Some. congruence.
              ** exfalso. rewrite nth_error_app2 in Hn by lia.
                 destruct (i - List.length ls)%nat as [|n].
                 --- simpl in Hn. injection Hn as <-. contradiction.
                 --- simpl in Hn. now destruct n.
           ++ right. split; [assumption|].
              intros raw Hin. apply Hnone. apply in_or_app. now left.
    + rewrite IH. split.
      * intros [[i [raw [Hn [Hk [Hv Hlast]]]]]|[Hd Hnone]].
        -- left. exists i, raw.
           assert (i < List.length ls)%nat as Hlt
               by (apply nth_error_Some; congruence).
           split; [now rewrite nth_error_app1|].
           split; [assumption|]. split; [assumption|].
           intros j other Hj Hn'.
           destruct (Nat.lt_ge_cases j (List.length ls)) as [Hjl|Hjg].
           ++ rewrite nth_error_app1 in Hn' by assumption. now apply (Hlast j).
           ++ rewrite nth_error_app2 in Hn' by lia.
              destruct (j - List.length ls)%nat as [|n].
              ** simpl in Hn'. injection Hn' as <-. congruence.
              ** simpl in Hn'. now destruct n.
        -- right. split; [assumption|].
           intros raw Hin. apply in_app_or in Hin.
           destruct Hin as [Hin|[<-|[]]]; [now apply Hnone|congruence].
      * intros [[i [raw [Hn [Hk [Hv Hlast]]]]]|[Hd Hnone]].
        -- left. exists i, raw.
           destruct (Nat.lt_ge_cases i (List.length ls)) as [Hlt|Hge].
           ++ rewrite nth_error_app1 in Hn by assumption.
              split; [assumption|]. split; [assumption|]. split; [assumption|].
              intros j other Hj Hn'. apply (Hlast j); [assumption|].
              rewrite nth_error_app1; [assumption|].
              apply nth_error_Some. congruence.
           ++ exfalso. rewrite nth_error_app2 in Hn by lia.
              destruct (i - List.length ls)%nat as [|n].
              ** simpl in Hn. injection Hn as <-. congruence.
              ** simpl in Hn. now destruct n.
        -- right. split; [assumption|].
           intros raw Hin. apply Hnone. apply in_or_app. now left.
Qed.

Lemma readline_lines (lines : list text) (n i : nat) :
  nth_error (map (readline lines) (seq 0 n)) i
  = if (i <? n)%nat then Some (nth i lines []) else None.
Proof.
  destruct (Nat.ltb_spec i n) as [Hlt|Hge].
  - rewrite nth_error_map, nth_error_seq.
    assert ((i <? n)%nat = true) as -> by now apply Nat.ltb_lt.
    reflexivity.
  - apply nth_error_None. rewrite length_map, length_seq. assumption.
Qed.

(** X19: [extract_metadata] reads the first 9 lines only.  A key is in
    the result with a value exactly when one of these lines, stripped, has a
    colon with that key (stripped) before the first one, and the value is
    the stripped rest of the last such line; keys and values come back
    without surrounding white space and a key never holds a colon. *)
Theorem X19_metadata_keeps_the_last_value_of_each_key_in_the_first_9_lines
        (lines : list text) (k v : text) :
  extract_metadata lines = extract_metadata (firstn 9 lines)
  /\ (dict_get k (extract_metadata lines) = Some v
      <-> exists i,
            (i < 9)%nat
            /\ line_key (nth i lines []) = Some k
            /\ line_value (nth i lines []) = v
            /\ forall j, (i < j < 9)%nat -> line_key (nth j lines []) <> Some k)
  /\ (dict_get k (extract_metadata lines) = Some v ->
      strip k = k /\ strip v = v /\ has_colon k = false).
Proof.
  assert (dict_get k (extract_metadata lines) = Some v
          <-> exists i,
                (i < 9)%nat
                /\ line_key (nth i lines []) = Some k
                /\ line_value (nth i lines []) = v
                /\ forall j, (i < j < 9)%nat ->
                             line_key (nth j lines []) <> Some k) as Hget.
  { unfold extract_metadata. rewrite metadata_fold_get.
    change Config.METADATA_END_LINE with 9%nat. split.
    - intros [[i [raw [Hn [Hk [Hv Hlast]]]]]|[Hd _]]; [|discriminate].
      rewrite readline_lines in Hn.
      destruct (Nat.ltb_spec i 9) as [Hlt|]; [|discriminate].
      injection Hn as <-. exists i. split; [assumption|].
      split; [assumption|]. split; [assumption|].
      intros j Hj. apply (Hlast j); [lia|].
      rewrite readline_lines.
      assert ((j <? 9)%nat = true) as -> by (apply Nat.ltb_lt; lia).
      reflexivity.
    - intros [i [Hlt [Hk [Hv Hlast]]]]. left.
      exists i, (nth i lines []).
      split.
      { rewrite readline_lines.
        assert ((i <? 9)%nat = true) as -> by now apply Nat.ltb_lt.
        reflexivity. }
      split; [assumption|]. split; [assumption|].
      intros j other Hj Hn. rewrite readline_lines in Hn.
      destruct (Nat.ltb_spec j 9) as [Hj9|]; [|discriminate].
      injection Hn as <-. apply Hlast. lia. }
  split.
  { unfold extract_metadata. f_equal. apply map_ext_in.
    intros i Hi. apply in_seq in Hi. unfold readline.
    change Config.METADATA_END_LINE with 9%nat in Hi.
    rewrite nth_firstn.
    assert ((i <? 9)%nat = true) as -> by (apply Nat.ltb_lt; lia).
    reflexivity. }
  split; [exact Hget|].
  intros H. apply Hget in H. destruct H as [i [_ [Hk [Hv _]]]].
  unfold line_key in Hk. unfold line_value in Hv.
  destruct (has_colon (strip (nth i lines []))); [|discriminate].
  injection Hk as <-. subst v.
  split; [apply strip_idem|]. split; [apply strip_idem|].
  apply no_colon_strip. apply split_key_no_colon.
Qed.

End LoaderFacts.

(* ================================================================== *)
(** * Further properties: the anomalies of one variable *)

Section AnomaliesFacts.

Import DataValidator.

Lemma dropna_length_le (s : list cell) :
  (List.length (dropna s) <= List.length s)%nat.
Proof. induction s as [|[x|] r IH]; simpl; lia. Qed.

(** With the default window the change points of a variable column are
    always computed: 60 non-null values mean at least 60 rows. *)
Lemma default_change_points (d : DataFrame) (col : string) (s : list cell) :
  well_formed d = true -> In (col, s) (variables d) -> col <> "Data"%string ->
  exists cp, detect_change_points d col 30 = Returns cp.
Proof.
  intros Hwf Hcol Hname. unfold detect_change_points.
  rewrite (on_column_variable d col s _ Hwf Hcol Hname).
  unfold change_points_of.
  destruct (Z.ltb_spec (Z.of_nat (List.length (dropna s))) (30 * 2)) as [|Hge];
    [now eexists|].
  change (30 <? 0)%Z with false. cbn iota.
  pose proof (dropna_length_le s) as Hle.
  rewrite (well_formed_length d col s Hwf Hcol) in Hle.
  destruct (Nat.eqb_spec (len d) 0) as [E|_]; [lia|]. now eexists.
Qed.

(** X20: for a variable column [get_anomalies_for_variable] gives the same
    answer on a validator that has not validated anything yet and on one
    that has, and leaves the validation results stored in both cases: the
    physical-limits part is the entry [validate_physical_limits] has for
    the column (none for a column without a range) and the three other
    parts are what the detectors return with their defaults 1.5, 3.0 and
    30.  A name that is neither the date column nor a column of the table
    is a KeyError. *)
Theorem X20_anomalies_do_not_depend_on_the_stored_validation
        (fl : Rounding)
        (d : DataFrame) (col : string) (s : list cell)
        (Hwf : well_formed d = true)
        (Hcol : In (col, s) (variables d))
        (Hname : col <> "Data"%string) :
  exists a,
    get_anomalies_for_variable fl (new_validator d) col
    = (Returns a, mkValidator d (validate_physical_limits d))
    /\ get_anomalies_for_variable
         fl (mkValidator d (validate_physical_limits d)) col
       = (Returns a, mkValidator d (validate_physical_limits d))
    /\ a_column a = col
    /\ a_physical_limits a = lookup col (validate_physical_limits d)
    /\ detect_outliers_iqr d col (15 # 10) = Returns (a_outliers_iqr a)
    /\ detect_outliers_zscore fl d col 3 = Returns (a_outliers_zscore a)
    /\ detect_change_points d col 30 = Returns (a_change_points a)
    /\ (forall self other,
           v_df self = d -> other <> "Data"%string ->
           lookup other (variables d) = None ->
           fst (get_anomalies_for_variable fl self other)
           = Raises KeyError).
Proof.
  assert (String.eqb col "Data" = false) as Hd by now apply String.eqb_neq.
  assert (detect_outliers_iqr d col (15 # 10)
          = Returns (outliers_iqr (len d) s (15 # 10))) as Hi
      by (unfold detect_outliers_iqr;
          now rewrite (on_column_variable d col s _ Hwf Hcol Hname)).
  assert (detect_outliers_zscore fl d col 3
          = Returns (outliers_zscore fl (len d) s 3)) as Hz
      by (unfold detect_outliers_zscore;
          now rewrite (on_column_variable d col s _ Hwf Hcol Hname)).
  destruct (default_change_points d col s Hwf Hcol Hname) as [cp Hc].
  exists (mkAnomalies col (lookup col (validate_physical_limits d))
                      (outliers_iqr (len d) s (15 # 10))
                      (outliers_zscore fl (len d) s 3) cp).
  split.
  { unfold get_anomalies_for_variable, new_validator.
    cbn [v_validation_results lookup].
    rewrite Hd. unfold run_validate_physical_limits. cbn [v_df].
    rewrite Hi, Hz, Hc. reflexivity. }
  split.
  { unfold get_anomalies_for_variable. cbn [v_validation_results v_df].
    destruct (lookup col (validate_physical_limits d)) as [r|] eqn:E.
    - cbn [v_df]. rewrite Hi, Hz, Hc. reflexivity.
    - rewrite Hd. unfold run_validate_physical_limits. cbn [v_df].
      rewrite Hi, Hz, Hc, E. reflexivity. }
  cbn [a_column a_physical_limits a_outliers_iqr a_outliers_zscore a_change_points].
  split; [reflexivity|]. split; [reflexivity|].
  split; [exact Hi|]. split; [exact Hz|]. split; [exact Hc|].
  intros self other Hdf Hother Hnone.
  assert (detect_outliers_iqr d other (15 # 10) = Raises KeyError) as Hk.
  { unfold detect_outliers_iqr, on_column, getitem.
    destruct (String.eqb_spec other "Data"); [contradiction|].
    now rewrite Hnone. }
  unfold get_anomalies_for_variable.
  destruct (lookup other (v_validation_results self)) as [r|].
  - cbn [fst]. rewrite Hdf, Hk. reflexivity.
  - destruct (String.eqb other "Data").
    + cbn [fst]. rewrite Hdf, Hk. reflexivity.
    + unfold run_validate_physical_limits. cbn [v_df fst].
      rewrite Hdf, Hk. reflexivity.
Qed.

End AnomaliesFacts.

(* ================================================================== *)
(** * The further properties on sample tables *)

Section FurtherExamples.

Import DataValidator QualityMetrics.
Local Open Scope string_scope.

(** X1 on the humidity column: rows 1 and 4 are out of range. *)
Lemma X1_invalid_indices_witness :
  well_formed humidity_table = true
  /\ lookup "UMIDADE RELATIVA DO AR, MEDIA DIARIA (AUT)(%)" Config.PHYSICAL_LIMITS
     = Some (0, 100)
  /\ exists r,
       lookup "UMIDADE RELATIVA DO AR, MEDIA DIARIA (AUT)(%)"
              (validate_physical_limits humidity_table) = Some r
       /\ StronglySorted lt (invalid_indices r)
       /\ List.length (invalid_indices r) = invalid_count r.
Proof.
  split; [reflexivity|]. split; [reflexivity|].
  destruct (X1_invalid_indices_are_the_out_of_range_rows
              humidity_table "UMIDADE RELATIVA DO AR, MEDIA DIARIA (AUT)(%)"
              humidity 0 100) as [r [H1 [_ [H3 H4]]]].
  - reflexivity.
  - left. reflexivity.
  - discriminate.
  - reflexivity.
  - exists r. split; [exact H1|]. split; [exact H3|exact H4].
Defined.

(** X3 on the humidity column. *)
Lemma X3_valid_percentage_witness :
  well_formed humidity_table = true
  /\ (0 < len humidity_table)%nat
  /\ valid_percentage (validate_column 6 humidity 0 100)
     <= validity_percentage (validity_of (validate_column 6 humidity 0 100)).
Proof.
  split; [reflexivity|]. split; [vm_compute; lia|].
  destruct (X3_valid_percentage_is_validity_times_completeness
              humidity_table "UMIDADE RELATIVA DO AR, MEDIA DIARIA (AUT)(%)"
              humidity (validate_column 6 humidity 0 100)) as [_ H].
  - reflexivity.
  - left. reflexivity.
  - vm_compute; lia.
  - reflexivity.
  - exact H.
Defined.

(** X4 on the rain column of [seven_days]. *)
Lemma X4_null_rows_witness :
  well_formed seven_days = true
  /\ exists mp,
       In ("PRECIPITACAO TOTAL, DIARIO (AUT)(mm)", mp)
          (detect_missing_data_patterns seven_days)
       /\ forall i,
            nth_error rain i = Some None
            <-> exists r, In r (consecutive_nulls mp)
                          /\ (run_start r <= i <= run_end r)%nat.
Proof.
  split; [reflexivity|].
  destruct (X4_null_rows_are_the_rows_of_the_runs
              seven_days "PRECIPITACAO TOTAL, DIARIO (AUT)(mm)" rain)
    as [mp [Hin [Hrows _]]].
  - reflexivity.
  - left. reflexivity.
  - discriminate.
  - exists mp. split; [exact Hin|exact Hrows].
Defined.

(** X5 on the rain column of [seven_days]. *)
Lemma X5_completeness_and_null_percentage_witness :
  well_formed seven_days = true
  /\ (0 < len seven_days)%nat
  /\ exists completeness c mp,
       calculate_completeness (App.metrics_calc seven_days) None
       = Some completeness
       /\ lookup "PRECIPITACAO TOTAL, DIARIO (AUT)(mm)" completeness = Some c
       /\ In ("PRECIPITACAO TOTAL, DIARIO (AUT)(mm)", mp)
             (detect_missing_data_patterns seven_days)
       /\ completeness_percentage c + null_percentage mp == 100.
Proof.
  split; [reflexivity|]. split; [vm_compute; lia|].
  apply (X5_completeness_and_null_percentage_sum_to_100
           seven_days "PRECIPITACAO TOTAL, DIARIO (AUT)(mm)" rain).
  - reflexivity.
  - left. reflexivity.
  - discriminate.
  - vm_compute; lia.
Defined.

(** X6 on [four_days]: one gap of 2 days, at 2024-01-04. *)
Lemma X6_gaps_witness :
  (2 <= List.length (dropna (Data four_days)))%nat
  /\ exists r,
       validate_date_sequence four_days = DateReport r
       /\ gaps r = [mkGap 19726 2]
       /\ gap_count r = 1%nat
       /\ actual_days r = List.length (dropna (Data four_days)).
Proof.
  split; [vm_compute; lia|].
  destruct (X6_gaps_are_the_steps_other_than_0_or_1 four_days)
    as [r [H1 [H2 [H3 [_ [_ [_ H5]]]]]]].
  - vm_compute; lia.
  - exists r. split; [exact H1|]. split; [exact H2|].
    split; [exact H3|exact H5].
Defined.

(** X7 on [four_days]: four dates over five days. *)
Lemma X7_expected_and_actual_days_witness :
  (2 <= List.length (dropna (Data four_days)))%nat
  /\ strictly_increasing (dropna (Data four_days)) = true
  /\ exists r,
       validate_date_sequence four_days = DateReport r
       /\ (Z.of_nat (actual_days r) <= expected_days r)%Z
       /\ (gap_count r = 0%nat <-> expected_days r = Z.of_nat (actual_days r)).
Proof.
  split; [vm_compute; lia|]. split; [reflexivity|].
  destruct (X7_no_gap_iff_expected_days_equal_actual_days four_days)
    as [r [H1 [_ [H3 H4]]]].
  - vm_compute; lia.
  - reflexivity.
  - exists r. split; [exact H1|]. split; [exact H3|exact H4].
Defined.


(** X9 on the pressure column: the quartiles are 1011.25 and 1012.75,
    the bounds 1009 and 1015, and row 6 (1100) is the outlier. *)
Lemma X9_iqr_bounds_witness :
  well_formed pressure_table = true
  /\ 0 <= 15 # 10
  /\ exists idx stats,
       detect_outliers_iqr pressure_table
                           "PRESSAO ATMOSFERICA MEDIA DIARIA (AUT)(mB)" (15 # 10)
       = Returns (idx, Some stats)
       /\ idx = [6%nat]
       /\ lower_bound stats == 1009 /\ upper_bound stats == 1015
       /\ lower_bound stats <= Q1 stats
       /\ Q1 stats <= Q3 stats
       /\ Q3 stats <= upper_bound stats.
Proof.
  split; [reflexivity|]. split; [discriminate|].
  eexists. eexists. split; [reflexivity|].
  split; [reflexivity|]. split; [reflexivity|]. split; [reflexivity|].
  destruct (X9_iqr_bounds_are_ordered
              pressure_table "PRESSAO ATMOSFERICA MEDIA DIARIA (AUT)(mB)"
              pressure (15 # 10) _ _
              eq_refl (or_introl eq_refl) ltac:(discriminate)
              ltac:(discriminate) eq_refl)
    as [H1 [H2 [H3 _]]].
  split; [exact H1|]. split; [exact H2|exact H3].
Defined.

(** X10 on the pressure column: six values, no z-score outlier, whichever
    way the doubles round. *)
Lemma X10_zscore_outliers_witness :
  well_formed pressure_table = true
  /\ 0 <= tolerance doubles
  /\ (2 <= List.length (dropna pressure))%nat
  /\ exists idx stats,
       detect_outliers_zscore doubles pressure_table
                              "PRESSAO ATMOSFERICA MEDIA DIARIA (AUT)(mB)" 3
       = Returns (idx, Some stats)
       /\ idx = [].
Proof.
  split; [reflexivity|]. split; [discriminate|]. split; [vm_compute; lia|].
  destruct (X10_zscore_outliers_are_at_most_n_over_threshold_squared
              doubles
              pressure_table "PRESSAO ATMOSFERICA MEDIA DIARIA (AUT)(mB)"
              pressure 3) as [idx [stats [H1 [_ [_ [_ [_ [_ [_ [_ H9]]]]]]]]]].
  - reflexivity.
  - left. reflexivity.
  - discriminate.
  - discriminate.
  - discriminate.
  - vm_compute; lia.
  - exists idx, stats. split; [exact H1|].
    apply H9; [discriminate|reflexivity|vm_compute; lia].
Defined.


(** X12 on the humidity column. *)
Lemma X12_scores_witness :
  well_formed (df (App.metrics_calc humidity_table)) = true
  /\ (0 < len (df (App.metrics_calc humidity_table)))%nat
  /\ exists qi self' e,
       calculate_quality_index (App.metrics_calc humidity_table) None
       = Some (qi, self')
       /\ lookup "UMIDADE RELATIVA DO AR, MEDIA DIARIA (AUT)(%)" qi = Some e
       /\ 0 <= quality_index e <= 100.
Proof.
  split; [reflexivity|]. split; [vm_compute; lia|].
  eexists. eexists. eexists.
  split; [reflexivity|]. split; [reflexivity|].
  destruct (X12_scores_are_the_percentages_and_the_index_is_within_0_and_100
              (App.metrics_calc humidity_table) None _ _
              "UMIDADE RELATIVA DO AR, MEDIA DIARIA (AUT)(%)" _
              eq_refl ltac:(vm_compute; lia) eq_refl eq_refl)
    as [completeness [consistency [_ [_ [_ [_ [_ [_ [_ [_ [H _]]]]]]]]]]].
  exact H.
Defined.

(** X13 on the calculator of [humidity_table]. *)
Lemma X13_overall_index_witness :
  well_formed (df (App.metrics_calc humidity_table)) = true
  /\ (0 < len (df (App.metrics_calc humidity_table)))%nat
  /\ metrics (App.metrics_calc humidity_table) = []
  /\ exists o self',
       get_overall_quality_index (App.metrics_calc humidity_table)
       = Some (o, self')
       /\ variable_count o = 1%nat
       /\ 0 <= overall_quality_index o <= 100.
Proof.
  split; [reflexivity|]. split; [vm_compute; lia|]. split; [reflexivity|].
  destruct (X13_overall_index_is_the_weighted_sum_of_the_three_averages
              (App.metrics_calc humidity_table))
    as [o [self' [H1 [H2 [H3 _]]]]].
  - reflexivity.
  - vm_compute; lia.
  - reflexivity.
  - exists o, self'. split; [exact H1|]. split; [exact H2|exact H3].
Defined.

(** X14 on [three_days]: two variables, one counted. *)
Lemma X14_single_column_call_witness :
  well_formed (df (App.metrics_calc three_days)) = true
  /\ List.length (variable_names three_days) = 2%nat
  /\ exists e self1 o,
       calculate_quality_index (App.metrics_calc three_days)
                               (Some "TEMPERATURA MEDIA, DIARIA (AUT)(°C)")
       = Some ([("TEMPERATURA MEDIA, DIARIA (AUT)(°C)", e)], self1)
       /\ get_overall_quality_index self1 = Some (o, self1)
       /\ variable_count o = 1%nat.
Proof.
  split; [reflexivity|]. split; [reflexivity|].
  destruct (X14_overall_index_after_a_single_column_call_covers_that_column_only
              (App.metrics_calc three_days)
              "TEMPERATURA MEDIA, DIARIA (AUT)(°C)" temperature)
    as [e [self1 [o [H1 [H2 [H3 _]]]]]].
  - reflexivity.
  - left. reflexivity.
  - discriminate.
  - discriminate.
  - exists e, self1, o. split; [exact H1|]. split; [exact H2|exact H3].
Defined.

(** X15 on the summary of [three_days]: index 50, red. *)
Lemma X15_overview_colour_witness :
  exists summary self',
    get_quality_summary (App.metrics_calc three_days) = Some (summary, self')
    /\ (recommendation (qs_overall summary) = "Inadequado"
        <-> App.quality_color (overall_quality_index (qs_overall summary))
            = ("red", "quality-error")).
Proof.
  eexists. eexists. split; [reflexivity|].
  destruct (X15_overview_colour_agrees_with_the_recommendation
              (App.metrics_calc three_days) _ _ eq_refl) as [_ [_ H]].
  exact H.
Defined.

(** X16 on the pressure column with a window of 3: six non-null
    values are just enough. *)
Lemma X16_change_points_witness :
  well_formed pressure_table = true
  /\ (0 < len pressure_table)%nat
  /\ exists cps,
       detect_change_points pressure_table
                            "PRESSAO ATMOSFERICA MEDIA DIARIA (AUT)(mB)" 3
       = Returns (ChangeReport cps (List.length cps)
                               ((Qnat (List.length cps) / Qnat 7) * 100))
       /\ StronglySorted lt cps
       /\ (List.length cps + 2 <= 6)%nat.
Proof.
  split; [reflexivity|]. split; [vm_compute; lia|].
  destruct (X16_change_points_lie_inside_complete_windows
              pressure_table "PRESSAO ATMOSFERICA MEDIA DIARIA (AUT)(mB)"
              pressure 3) as [_ [_ [_ H]]].
  - reflexivity.
  - left. reflexivity.
  - discriminate.
  - destruct H as [cps [H1 [H2 [_ [H4 _]]]]].
    + lia.
    + vm_compute. discriminate.
    + vm_compute; lia.
    + exists cps. split; [exact H1|]. split; [exact H2|exact H4].
Defined.

(** X20 on the pressure column. *)
Lemma X20_anomalies_witness :
  well_formed pressure_table = true
  /\ exists a,
       get_anomalies_for_variable
         doubles (new_validator pressure_table)
         "PRESSAO ATMOSFERICA MEDIA DIARIA (AUT)(mB)"
       = (Returns a, mkValidator pressure_table
                                 (validate_physical_limits pressure_table))
       /\ get_anomalies_for_variable
            doubles
            (mkValidator pressure_table (validate_physical_limits pressure_table))
            "PRESSAO ATMOSFERICA MEDIA DIARIA (AUT)(mB)"
          = (Returns a, mkValidator pressure_table
                                    (validate_physical_limits pressure_table)).
Proof.
  split; [reflexivity|].
  destruct (X20_anomalies_do_not_depend_on_the_stored_validation
              doubles
              pressure_table "PRESSAO ATMOSFERICA MEDIA DIARIA (AUT)(mB)"
              pressure) as [a [H1 [H2 _]]].
  - reflexivity.
  - left. reflexivity.
  - discriminate.
  - exists a. split; [exact H1|exact H2].
Defined.

End FurtherExamples.
